(** * StableDiffusionSubsystem: capture-and-compose pipeline

    A shallow embedding of
    [StableDiffusionTools/Source/StableDiffusionTools/Private/StableDiffusionSubsystem.cpp]
    and the properties of its generation pipeline.

    Conventions.
    - [int32] values ([FIntPoint] members, loop counters) are [Z]; the one
      multiplication the file performs on them is wrapped explicitly.
    - A [TArray<FColor>] is a list of cells; a cell is [None] while it is
      storage handed out by [InsertUninitialized] that nothing wrote yet.
    - Code that can fail an engine assertion or touch invalid memory returns
      an [Outcome]; code that also mutates the subsystem or the engine runs
      in the state monad [M] over [World].
    - Closures handed to [AsyncTask] or to a delegate are defunctionalised:
      one constructor per lambda of the source, holding what it captured.
    - The functions around the pipeline (bridge, model, dependencies, live
      previews) run in the state monad [SM] over [Session], which holds the
      pipeline's [World] and the members only they use; textures and the
      search for the viewport are pure functions. *)

From Stdlib Require Import ZArith Lia List Bool.
From Stdlib Require Import Strings.String.
From stdpp Require Import base option list strings gmap.

Open Scope Z_scope.

(** ** Failure and the two monads *)

Inductive Fault : Type :=
| NullDereference          (* member access through a null raw pointer *)
| InvalidSharedPointer     (* TSharedPtr::operator-> / ToSharedRef on an empty pointer *)
| ArrayIndexOutOfBounds    (* TArray::RangeCheck *)
| AccessViolation.         (* FMemory::Memcpy outside the storage it was given *)

Inductive Outcome (A : Type) : Type :=
| Done (a : A)
| Crash (why : Fault).

Arguments Done {A} a.
Arguments Crash {A} why.

Definition Outcome_bind {A B : Type} (m : Outcome A) (k : A -> Outcome B) : Outcome B :=
  match m with
  | Done a => k a
  | Crash why => Crash why
  end.

Notation "'let!' x ':=' m 'in' k" := (Outcome_bind m (fun x => k))
  (at level 10, x name, m at level 100, k at level 200).

(** ** Pixels, sizes and arrays *)

(** [FColor]: four [uint8] channels, stored B, G, R, A. *)
Record FColor : Type := mkFColor { B : Z; G : Z; R : Z; A : Z }.

Record FIntPoint : Type := mkFIntPoint { X : Z; Y : Z }.

Abbreviation TArray_FColor := (list (option FColor)).

(** Two's-complement wrap of an [int32] result. *)
Definition int32 (z : Z) : Z := (z + 2 ^ 31) mod 2 ^ 32 - 2 ^ 31.

(** [TArray::InsertUninitialized(Index, Count)].  A negative [Count] leaves
    the array with a negative [ArrayNum]; the first element access after it
    fails the range check, which is where the failure is reported here. *)
Definition InsertUninitialized (Array : TArray_FColor) (Index Count : Z)
  : Outcome TArray_FColor :=
  if (Count <? 0) || (Index <? 0) || (Z.of_nat (length Array) <? Index)
  then Crash ArrayIndexOutOfBounds
  else Done (take (Z.to_nat Index) Array
             ++ replicate (Z.to_nat Count) None
             ++ drop (Z.to_nat Index) Array).

(** [&Array[Index]]: [TArray::operator[]] range-checks the index before it
    yields the element (editor modules are always built with checks on);
    the address is returned as an offset into the array's storage. *)
Definition ElementAddress (Array : TArray_FColor) (Index : Z) : Outcome Z :=
  if (0 <=? Index) && (Index <? Z.of_nat (length Array))
  then Done Index
  else Crash ArrayIndexOutOfBounds.

(** [FMemory::Memcpy(Dest, Src, sizeof(FColor) * Count)] between an offset of
    the destination storage and an offset of the source buffer.  The byte
    count is a [size_t]: a negative [Count] converts to an enormous one. *)
Definition Memcpy (Storage : TArray_FColor) (Dest : Z)
    (Buffer : list FColor) (Src : Z) (Count : Z) : Outcome TArray_FColor :=
  if Count <? 0 then Crash AccessViolation
  else if Count =? 0 then Done Storage
  else if (0 <=? Src) && (Src + Count <=? Z.of_nat (length Buffer))
          && (0 <=? Dest) && (Dest + Count <=? Z.of_nat (length Storage))
  then Done (take (Z.to_nat Dest) Storage
             ++ (Some <$> take (Z.to_nat Count) (drop (Z.to_nat Src) Buffer))
             ++ drop (Z.to_nat (Dest + Count)) Storage)
  else Crash AccessViolation.

(** The body of the row loop of [CopyFrameData], [Rows] iterations left;
    [ColorBuffer] and [Dest] are the two moving pointers. *)
Fixpoint CopyFrameData_rows (Rows : nat) (MaxWidth BufferSizeX : Z)
    (Buffer : list FColor) (ColorBuffer Dest : Z) (CopiedFrame : TArray_FColor)
  : Outcome TArray_FColor :=
  match Rows with
  | O => Done CopiedFrame
  | S Rows' =>
      let! CopiedFrame' := Memcpy CopiedFrame Dest Buffer ColorBuffer MaxWidth in
      CopyFrameData_rows Rows' MaxWidth BufferSizeX Buffer
        (ColorBuffer + BufferSizeX) (Dest + MaxWidth) CopiedFrame'
  end.

(** [UStableDiffusionSubsystem::CopyFrameData] (lines 767-783). *)
Definition CopyFrameData (TargetSize BufferSize : FIntPoint) (ColorBuffer : list FColor)
  : Outcome TArray_FColor :=
  let! CopiedFrame := InsertUninitialized [] 0 (int32 (X TargetSize * Y TargetSize)) in
  let! Dest := ElementAddress CopiedFrame 0 in
  let MaxWidth := Z.min (X TargetSize) (X BufferSize) in
  CopyFrameData_rows (Z.to_nat (Z.min (Y TargetSize) (Y BufferSize)))
    MaxWidth (X BufferSize) ColorBuffer 0 Dest CopiedFrame.

(** ** Objects the subsystem handles *)

(** Values the file only copies from one object to another ([FVector],
    [FRotator], [float]) are kept as their bit patterns. *)
Definition FVector : Type := (Z * Z * Z)%type.
Definition FRotator : Type := (Z * Z * Z)%type.
Definition float_bits : Type := Z.

Abbreviation ActorId := nat.
Abbreviation ObjectId := nat.

(** A [USceneCaptureComponent2D*] is either the component of a capture actor
    this subsystem spawned or a component the caller owns. *)
Inductive ComponentRef : Type :=
| ComponentOfActor (a : ActorId)
| ComponentOfCaller (c : ObjectId).

Inductive ESceneCaptureCompositeMode : Type := SCCM_Overwrite | SCCM_Additive | SCCM_Composite.
Inductive ESceneCaptureSource : Type := SCS_SceneColorHDR | SCS_FinalColorLDR | SCS_FinalToneCurveHDR.

(** Calls into the engine and the bridge, in the order the code makes them. *)
Inductive Call : Type :=
| SpawnActor_ASceneCapture2D (a : ActorId)
| SetCaptureSettings (a : ActorId)
    (bCaptureEveryFrame bCaptureOnMovement bAlwaysPersistRenderingState : bool)
    (CompositeMode : ESceneCaptureCompositeMode) (CaptureSource : ESceneCaptureSource)
| SetActorLocation (a : ActorId) (Location : FVector)
| SetActorRotation (a : ActorId) (Rotation : FRotator)
| SetFOVAngle (a : ActorId) (FOVAngle : float_bits)
| Destroy (a : ActorId)
| BeginCaptureLayer (Processor : ObjectId) (Size : FIntPoint) (CaptureSource : ComponentRef)
| CaptureLayer (Processor : ObjectId) (CaptureSource : ComponentRef)
    (SingleCapture : option bool)  (* None: the argument is left to its default *)
| EndCaptureLayer (Processor : ObjectId) (CaptureSource : ComponentRef)
| ProcessLayer (Processor : ObjectId)
| MakeShared_FFrameGrabber (FrameSize : FIntPoint)
| StartCapturingFrames
| StopCapturingFrames
| CaptureThisFrame
| EditorSetGameView (bGameView : bool)
| StopImageGeneration.

(** The runtime class of a layer processor, as far as [IsA<>] is asked. *)
Inductive LayerProcessorClass : Type :=
| UFinalColorLayerProcessor
| UDepthLayerProcessor
| UNormalLayerProcessor
| UCustomLayerProcessor (n : nat).

(** [ULayerProcessorBase]: the object behind [FLayerData::Processor].  Its
    class implements the virtual [ProcessLayer]; what it reads back from its
    render target is a function of the engine calls made so far. *)
Record ULayerProcessorBase : Type := mkProcessor {
  ProcessorId : ObjectId;
  ProcessorClass : LayerProcessorClass;
  ProcessLayer_pixels : list Call -> TArray_FColor
}.

Definition IsA_UFinalColorLayerProcessor (P : ULayerProcessorBase) : bool :=
  match ProcessorClass P with
  | UFinalColorLayerProcessor => true
  | _ => false
  end.

Record FLayerData : Type := mkLayer {
  Processor : option ULayerProcessorBase;
  LayerPixels : TArray_FColor
}.

(** [USceneCaptureComponent2D], with the one member the file reads:
    [TextureTarget], here the target's [SizeX], [SizeY] when it is set. *)
Record USceneCaptureComponent2D : Type := mkComponent {
  Component : ComponentRef;
  TextureTarget : option FIntPoint
}.

(** [FStableDiffusionGenerationOptions]: the file writes [InSizeX] and
    [InSizeY]; every other member travels untouched and is left out. *)
Record FStableDiffusionGenerationOptions : Type := mkOptions {
  InSizeX : Z;
  InSizeY : Z
}.

Record FStableDiffusionInput : Type := mkInput {
  Options : FStableDiffusionGenerationOptions;
  CaptureSource : option USceneCaptureComponent2D;
  ProcessedLayers : list FLayerData
}.

(** Modelled from the spec: [FStableDiffusionImageResult] is declared in
    [StableDiffusionImageResult.h], which is not among the sources.  The
    spec's GenerationResult holds the output pixels, the options of the
    request it came from and a success indicator. *)
Record FStableDiffusionImageResult : Type := mkResult {
  OutPixels : TArray_FColor;
  ResultOptions : FStableDiffusionGenerationOptions;
  Completed : bool
}.

(** [UStableDiffusionBridge]: the three virtual calls of the generator the
    file makes.  [StopImageGeneration] only shows in the call trace. *)
Record UStableDiffusionBridge : Type := mkBridge {
  GenerateImageFromStartImage : FStableDiffusionInput -> FStableDiffusionImageResult;
  Bridge_UpsampleImage : FStableDiffusionImageResult -> FStableDiffusionImageResult
}.

(** [EInputImageSource], with the two enumerators the file tests for. *)
Inductive EInputImageSource : Type := Viewport | SceneCapture2D.

Record FLevelEditorViewportClient : Type := mkViewportClient {
  IsPerspective : bool;
  GetViewLocation : FVector;
  GetViewRotation : FRotator;
  FOVAngle : float_bits
}.

(** [FViewportSceneCapture]: both members are null by default. *)
Record FViewportSceneCapture : Type := mkSceneCapture {
  SceneCapture : option ActorId;
  ViewportClient : option FLevelEditorViewportClient
}.

(** The lambda added to [OnFrameCapture] at line 628 ([=], mutable): it holds
    its own copies of [Input] and [ViewportSize]. *)
Record FrameCaptureLambda : Type := mkFrameLambda {
  Captured_Input : FStableDiffusionInput;
  Captured_ViewportSize : FIntPoint
}.

Record FCapturedFramePayload : Type := mkPayload {
  OnFrameCapture : list FrameCaptureLambda
}.

(** Modelled from the spec: [FFrameGrabber] is engine code.  Per the spec's
    Viewport Frame Grabber it is idle or capturing and holds at most one
    pending frame request, which a newer request replaces. *)
Record FFrameGrabber : Type := mkGrabber {
  FrameSize : FIntPoint;
  bCapturing : bool;
  PendingFrame : option FCapturedFramePayload
}.

Record FSceneViewport : Type := mkViewport { GetSizeXY : FIntPoint }.

(** What the code reads of [GEditor]. *)
Record UEditorEngine : Type := mkEditor {
  IsPlaySessionInProgress : bool;
  LevelEditorSubsystem_GameView : option bool;  (* None: no ULevelEditorSubsystem *)
  GetLevelViewportClients : list (option FLevelEditorViewportClient)
}.

(** The lambdas handed to [AsyncTask], by target thread. *)
Inductive GameThreadTask : Type :=
| GenerateImage_lambda (Input : FStableDiffusionInput) (ImageSourceType : EInputImageSource)
| ImageGenerationComplete_lambda (result : FStableDiffusionImageResult)
| ImageUpsampleComplete_lambda (result : FStableDiffusionImageResult).

Inductive BackgroundTask : Type :=
| StartImageGeneration_lambda (Input : FStableDiffusionInput)
| UpsampleImage_lambda (input : FStableDiffusionImageResult).

(** Delegates of the subsystem that were broadcast. *)
Inductive Broadcast : Type :=
| OnImageGenerationCompleteEx (result : FStableDiffusionImageResult)
| OnImageUpsampleCompleteEx (result : FStableDiffusionImageResult).

(** ** The world: the subsystem object, the engine around it, the task graph *)

Record World : Type := mkWorld {
  (* members of UStableDiffusionSubsystem *)
  GeneratorBridge : option UStableDiffusionBridge;
  ModelInitialised : bool;
  ModelOptions_Layers : list FLayerData;
  bIsGenerating : bool;
  bIsUpsampling : bool;
  ViewportCapture : option FFrameGrabber;
  CurrentSceneCapture : FViewportSceneCapture;
  LayerPreviewCapture : FViewportSceneCapture;
  PreviewedLayer : option ULayerProcessorBase;
  (* engine globals *)
  GAreScreenMessagesEnabled : bool;
  GEditor : option UEditorEngine;
  CapturingViewport : option FSceneViewport;
  SpawnedActors : nat;
  (* lambdas queued by AsyncTask and not run yet, oldest first *)
  GameThread : list GameThreadTask;
  AnyBackgroundHiPriTask : list BackgroundTask;
  (* what an observer sees *)
  Calls : list Call;
  Broadcasts : list Broadcast
}.

Definition set_bIsGenerating (v : bool) (w : World) : World :=
  mkWorld (GeneratorBridge w) (ModelInitialised w) (ModelOptions_Layers w)
    v (bIsUpsampling w) (ViewportCapture w) (CurrentSceneCapture w)
    (LayerPreviewCapture w) (PreviewedLayer w) (GAreScreenMessagesEnabled w)
    (GEditor w) (CapturingViewport w) (SpawnedActors w) (GameThread w)
    (AnyBackgroundHiPriTask w) (Calls w) (Broadcasts w).

Definition set_bIsUpsampling (v : bool) (w : World) : World :=
  mkWorld (GeneratorBridge w) (ModelInitialised w) (ModelOptions_Layers w)
    (bIsGenerating w) v (ViewportCapture w) (CurrentSceneCapture w)
    (LayerPreviewCapture w) (PreviewedLayer w) (GAreScreenMessagesEnabled w)
    (GEditor w) (CapturingViewport w) (SpawnedActors w) (GameThread w)
    (AnyBackgroundHiPriTask w) (Calls w) (Broadcasts w).

Definition set_ViewportCapture (v : option FFrameGrabber) (w : World) : World :=
  mkWorld (GeneratorBridge w) (ModelInitialised w) (ModelOptions_Layers w)
    (bIsGenerating w) (bIsUpsampling w) v (CurrentSceneCapture w)
    (LayerPreviewCapture w) (PreviewedLayer w) (GAreScreenMessagesEnabled w)
    (GEditor w) (CapturingViewport w) (SpawnedActors w) (GameThread w)
    (AnyBackgroundHiPriTask w) (Calls w) (Broadcasts w).

Definition set_CurrentSceneCapture (v : FViewportSceneCapture) (w : World) : World :=
  mkWorld (GeneratorBridge w) (ModelInitialised w) (ModelOptions_Layers w)
    (bIsGenerating w) (bIsUpsampling w) (ViewportCapture w) v
    (LayerPreviewCapture w) (PreviewedLayer w) (GAreScreenMessagesEnabled w)
    (GEditor w) (CapturingViewport w) (SpawnedActors w) (GameThread w)
    (AnyBackgroundHiPriTask w) (Calls w) (Broadcasts w).

Definition set_GAreScreenMessagesEnabled (v : bool) (w : World) : World :=
  mkWorld (GeneratorBridge w) (ModelInitialised w) (ModelOptions_Layers w)
    (bIsGenerating w) (bIsUpsampling w) (ViewportCapture w) (CurrentSceneCapture w)
    (LayerPreviewCapture w) (PreviewedLayer w) v
    (GEditor w) (CapturingViewport w) (SpawnedActors w) (GameThread w)
    (AnyBackgroundHiPriTask w) (Calls w) (Broadcasts w).

Definition set_GEditor (v : option UEditorEngine) (w : World) : World :=
  mkWorld (GeneratorBridge w) (ModelInitialised w) (ModelOptions_Layers w)
    (bIsGenerating w) (bIsUpsampling w) (ViewportCapture w) (CurrentSceneCapture w)
    (LayerPreviewCapture w) (PreviewedLayer w) (GAreScreenMessagesEnabled w)
    v (CapturingViewport w) (SpawnedActors w) (GameThread w)
    (AnyBackgroundHiPriTask w) (Calls w) (Broadcasts w).

Definition set_SpawnedActors (v : nat) (w : World) : World :=
  mkWorld (GeneratorBridge w) (ModelInitialised w) (ModelOptions_Layers w)
    (bIsGenerating w) (bIsUpsampling w) (ViewportCapture w) (CurrentSceneCapture w)
    (LayerPreviewCapture w) (PreviewedLayer w) (GAreScreenMessagesEnabled w)
    (GEditor w) (CapturingViewport w) v (GameThread w)
    (AnyBackgroundHiPriTask w) (Calls w) (Broadcasts w).

Definition set_GameThread (v : list GameThreadTask) (w : World) : World :=
  mkWorld (GeneratorBridge w) (ModelInitialised w) (ModelOptions_Layers w)
    (bIsGenerating w) (bIsUpsampling w) (ViewportCapture w) (CurrentSceneCapture w)
    (LayerPreviewCapture w) (PreviewedLayer w) (GAreScreenMessagesEnabled w)
    (GEditor w) (CapturingViewport w) (SpawnedActors w) v
    (AnyBackgroundHiPriTask w) (Calls w) (Broadcasts w).

Definition set_AnyBackgroundHiPriTask (v : list BackgroundTask) (w : World) : World :=
  mkWorld (GeneratorBridge w) (ModelInitialised w) (ModelOptions_Layers w)
    (bIsGenerating w) (bIsUpsampling w) (ViewportCapture w) (CurrentSceneCapture w)
    (LayerPreviewCapture w) (PreviewedLayer w) (GAreScreenMessagesEnabled w)
    (GEditor w) (CapturingViewport w) (SpawnedActors w) (GameThread w)
    v (Calls w) (Broadcasts w).

Definition set_Calls (v : list Call) (w : World) : World :=
  mkWorld (GeneratorBridge w) (ModelInitialised w) (ModelOptions_Layers w)
    (bIsGenerating w) (bIsUpsampling w) (ViewportCapture w) (CurrentSceneCapture w)
    (LayerPreviewCapture w) (PreviewedLayer w) (GAreScreenMessagesEnabled w)
    (GEditor w) (CapturingViewport w) (SpawnedActors w) (GameThread w)
    (AnyBackgroundHiPriTask w) v (Broadcasts w).

Definition set_Broadcasts (v : list Broadcast) (w : World) : World :=
  mkWorld (GeneratorBridge w) (ModelInitialised w) (ModelOptions_Layers w)
    (bIsGenerating w) (bIsUpsampling w) (ViewportCapture w) (CurrentSceneCapture w)
    (LayerPreviewCapture w) (PreviewedLayer w) (GAreScreenMessagesEnabled w)
    (GEditor w) (CapturingViewport w) (SpawnedActors w) (GameThread w)
    (AnyBackgroundHiPriTask w) (Calls w) v.

(** State and failure: a crash keeps the world as it was when it happened. *)
Definition M (A : Type) : Type := World -> Outcome A * World.

Definition ret {A : Type} (a : A) : M A := fun w => (Done a, w).

Definition bind {A B : Type} (m : M A) (k : A -> M B) : M B :=
  fun w =>
    match m w with
    | (Done a, w') => k a w'
    | (Crash why, w') => (Crash why, w')
    end.

Notation "'let*' x ':=' m 'in' k" := (bind m (fun x => k))
  (at level 10, x name, m at level 100, k at level 200).
Notation "m ;; k" := (bind m (fun _ => k))
  (at level 100, k at level 200, right associativity).

Definition crash {A : Type} (why : Fault) : M A := fun w => (Crash why, w).
Definition gets {A : Type} (f : World -> A) : M A := fun w => (Done (f w), w).
Definition modify (f : World -> World) : M unit := fun w => (Done tt, f w).

Definition lift {A : Type} (o : Outcome A) : M A :=
  match o with
  | Done a => ret a
  | Crash why => crash why
  end.

(** [p->...] through a raw pointer, and through a [TSharedPtr]. *)
Definition deref {A : Type} (p : option A) : M A :=
  match p with
  | Some a => ret a
  | None => crash NullDereference
  end.

Definition deref_shared {A : Type} (p : option A) : M A :=
  match p with
  | Some a => ret a
  | None => crash InvalidSharedPointer
  end.

Definition call (c : Call) : M unit := modify (fun w => set_Calls (Calls w ++ [c]) w).

Definition broadcast (b : Broadcast) : M unit :=
  modify (fun w => set_Broadcasts (Broadcasts w ++ [b]) w).

Definition AsyncTask_GameThread (t : GameThreadTask) : M unit :=
  modify (fun w => set_GameThread (GameThread w ++ [t]) w).

Definition AsyncTask_AnyBackgroundHiPriTask (t : BackgroundTask) : M unit :=
  modify (fun w => set_AnyBackgroundHiPriTask (AnyBackgroundHiPriTask w ++ [t]) w).

(** ** The frame grabber *)

(** Modelled from the spec: the three operations of the engine's
    [FFrameGrabber] that the subsystem calls, on the state described above. *)
Definition FFrameGrabber_StartCapturingFrames (g : FFrameGrabber) : FFrameGrabber :=
  mkGrabber (FrameSize g) true (PendingFrame g).

Definition FFrameGrabber_StopCapturingFrames (g : FFrameGrabber) : FFrameGrabber :=
  mkGrabber (FrameSize g) false None.

Definition FFrameGrabber_CaptureThisFrame (Payload : FCapturedFramePayload)
    (g : FFrameGrabber) : FFrameGrabber :=
  mkGrabber (FrameSize g) (bCapturing g) (Some Payload).

(** [ViewportCapture->Method()] on the subsystem's grabber. *)
Definition ViewportCapture_invoke (c : Call) (method : FFrameGrabber -> FFrameGrabber)
  : M unit :=
  let* Grabber := gets ViewportCapture in
  let* g := deref_shared Grabber in
  call c;;
  modify (set_ViewportCapture (Some (method g))).

(** [GetCapturingViewport] (lines 187-234) searches the engine's world
    contexts and changes nothing; the viewport it finds, or the empty
    pointer, is the world's [CapturingViewport]. *)
Definition GetCapturingViewport : M (option FSceneViewport) := gets CapturingViewport.

(** [SetCaptureViewport] (lines 243-247). *)
Definition SetCaptureViewport (Viewport : FSceneViewport) (Size : FIntPoint) : M unit :=
  call (MakeShared_FFrameGrabber Size);;
  modify (set_ViewportCapture (Some (mkGrabber Size false None)));;
  ViewportCapture_invoke StartCapturingFrames FFrameGrabber_StartCapturingFrames.

(** [StartCapturingViewport] (lines 236-241); [FSceneViewport::GetSize] is
    [GetSizeXY]. *)
Definition StartCapturingViewport : M unit :=
  let* OutSceneViewport := GetCapturingViewport in
  let* Viewport := deref_shared OutSceneViewport in
  SetCaptureViewport Viewport (GetSizeXY Viewport).

(** ** The capture camera *)

(** The loop of lines 559-567: the first non-null perspective client. *)
Fixpoint FindPerspectiveViewportClient (Clients : list (option FLevelEditorViewportClient))
  : option FLevelEditorViewportClient :=
  match Clients with
  | [] => None
  | LevelVC :: rest =>
      match LevelVC with
      | Some vc => if IsPerspective vc then Some vc else FindPerspectiveViewportClient rest
      | None => FindPerspectiveViewportClient rest
      end
  end.

(** [World()->SpawnActor<ASceneCapture2D>()]: a fresh actor. *)
Definition SpawnActor : M ActorId :=
  let* a := gets SpawnedActors in
  modify (set_SpawnedActors (S a));;
  call (SpawnActor_ASceneCapture2D a);;
  ret a.

(** [Actor->GetCaptureComponent2D()]. *)
Definition GetCaptureComponent2D (Actor : option ActorId) : M ComponentRef :=
  let* a := deref Actor in
  ret (ComponentOfActor a).

(** [UpdateSceneCaptureCamera] (lines 582-595).  [IsValidLowLevel] is asked
    of possibly null pointers and answers false for them. *)
Definition UpdateSceneCaptureCamera (Capture : FViewportSceneCapture) : M unit :=
  let* a := deref (SceneCapture Capture) in
  let* vc := deref (ViewportClient Capture) in
  call (SetActorLocation a (GetViewLocation vc));;
  call (SetActorRotation a (GetViewRotation vc));;
  call (SetFOVAngle a (FOVAngle vc));;
  let* Previewed := gets PreviewedLayer in
  let* Preview := gets LayerPreviewCapture in
  match Previewed, SceneCapture Preview with
  | Some P, Some preview_actor =>
      call (CaptureLayer (ProcessorId P) (ComponentOfActor preview_actor) (Some false))
  | _, _ => ret tt
  end.

(** [CreateSceneCaptureCamera] (lines 550-580). *)
Definition CreateSceneCaptureCamera : M FViewportSceneCapture :=
  let* Editor := gets GEditor in
  let* ed := deref Editor in
  match FindPerspectiveViewportClient (GetLevelViewportClients ed) with
  | Some LevelVC =>
      let* a := SpawnActor in
      call (SetCaptureSettings a true false true SCCM_Overwrite SCS_FinalToneCurveHDR);;
      let Capture := mkSceneCapture (Some a) (Some LevelVC) in
      UpdateSceneCaptureCamera Capture;;
      ret Capture
  | None => ret (mkSceneCapture None None)
  end.

(** ** Layer capture *)

(** [Processor->ProcessLayer(Processor->RenderTarget)]. *)
Definition ULayerProcessorBase_ProcessLayer (P : ULayerProcessorBase) : M TArray_FColor :=
  let* History := gets Calls in
  call (ProcessLayer (ProcessorId P));;
  ret (ProcessLayer_pixels P History).

(** The loop of lines 612-620, appending to [Input.ProcessedLayers]. *)
Fixpoint CaptureFromViewportSource_layers (Layers : list FLayerData)
    (ViewportSize : FIntPoint) (Capture : FViewportSceneCapture)
    (Processed : list FLayerData) : M (list FLayerData) :=
  match Layers with
  | [] => ret Processed
  | Layer :: rest =>
      let TargetLayer := Layer in
      let* P := deref (Processor TargetLayer) in
      let* c := GetCaptureComponent2D (SceneCapture Capture) in
      call (BeginCaptureLayer (ProcessorId P) ViewportSize c);;
      let* c := GetCaptureComponent2D (SceneCapture Capture) in
      call (CaptureLayer (ProcessorId P) c None);;
      let* c := GetCaptureComponent2D (SceneCapture Capture) in
      call (EndCaptureLayer (ProcessorId P) c);;
      let* Pixels := ULayerProcessorBase_ProcessLayer P in
      CaptureFromViewportSource_layers rest ViewportSize Capture
        (Processed ++ [mkLayer (Processor TargetLayer) Pixels])
  end.

(** The loop of lines 673-679. *)
Fixpoint CaptureFromSceneCaptureSource_layers (Layers : list FLayerData)
    (CaptureSize : FIntPoint) (CaptureComponent : ComponentRef)
    (Processed : list FLayerData) : M (list FLayerData) :=
  match Layers with
  | [] => ret Processed
  | Layer :: rest =>
      let* P := deref (Processor Layer) in
      call (BeginCaptureLayer (ProcessorId P) CaptureSize CaptureComponent);;
      call (CaptureLayer (ProcessorId P) CaptureComponent None);;
      call (EndCaptureLayer (ProcessorId P) CaptureComponent);;
      let* Pixels := ULayerProcessorBase_ProcessLayer P in
      CaptureFromSceneCaptureSource_layers rest CaptureSize CaptureComponent
        (Processed ++ [mkLayer (Processor Layer) Pixels])
  end.

(** ** Generation *)

(** [StartImageGeneration] (lines 297-314): the work is the lambda. *)
Definition StartImageGeneration (Input : FStableDiffusionInput) : M unit :=
  AsyncTask_AnyBackgroundHiPriTask (StartImageGeneration_lambda Input).

(** [ProcessedLayers.FindByPredicate(Layer.Processor->IsA<UFinalColorLayerProcessor>())]:
    the index of the first match; the predicate dereferences each processor
    it is asked about. *)
Fixpoint FindByPredicate_IsFinalColor (Layers : list FLayerData) : Outcome (option nat) :=
  match Layers with
  | [] => Done None
  | Layer :: rest =>
      match Processor Layer with
      | None => Crash NullDereference
      | Some P =>
          if IsA_UFinalColorLayerProcessor P then Done (Some O)
          else let! found := FindByPredicate_IsFinalColor rest in Done (S <$> found)
      end
  end.

Definition set_LayerPixels (Pixels : TArray_FColor) (Layer : FLayerData) : FLayerData :=
  mkLayer (Processor Layer) Pixels.

(** The lambda of lines 628-647, run with a delivered frame. *)
Definition OnFrameCapture_lambda (L : FrameCaptureLambda)
    (Pixels : list FColor) (BufferSize TargetSize : FIntPoint) : M unit :=
  let Input := Captured_Input L in
  let ViewportSize := Captured_ViewportSize L in
  let* CopiedFrame := lift (CopyFrameData TargetSize BufferSize Pixels) in
  let* FinalColorProcessor := lift (FindByPredicate_IsFinalColor (ProcessedLayers Input)) in
  let Layers :=
    match FinalColorProcessor with
    | Some i => alter (set_LayerPixels CopiedFrame) i (ProcessedLayers Input)
    | None => ProcessedLayers Input
    end in
  ViewportCapture_invoke StopCapturingFrames FFrameGrabber_StopCapturingFrames;;
  StartImageGeneration
    (mkInput (mkOptions (X ViewportSize) (Y ViewportSize)) (CaptureSource Input) Layers).

(** [OnFrameCapture.Broadcast(...)]: the lambdas added to the delegate run
    in order. *)
Fixpoint OnFrameCapture_Broadcast (Lambdas : list FrameCaptureLambda)
    (ColorBuffer : list FColor) (BufferSize TargetSize : FIntPoint) : M unit :=
  match Lambdas with
  | [] => ret tt
  | L :: rest =>
      OnFrameCapture_lambda L ColorBuffer BufferSize TargetSize;;
      OnFrameCapture_Broadcast rest ColorBuffer BufferSize TargetSize
  end.

(** [FCapturedFramePayload::OnFrameReady_RenderThread] (lines 31-35). *)
Definition OnFrameReady_RenderThread (Payload : FCapturedFramePayload)
    (ColorBuffer : list FColor) (BufferSize TargetSize : FIntPoint) : M bool :=
  OnFrameCapture_Broadcast (OnFrameCapture Payload) ColorBuffer BufferSize TargetSize;;
  ret true.

(** [CaptureFromViewportSource] (lines 597-651). *)
Definition CaptureFromViewportSource (Input : FStableDiffusionInput) : M unit :=
  let* OutSceneViewport := GetCapturingViewport in
  let* Viewport := deref_shared OutSceneViewport in
  let ViewportSize := GetSizeXY Viewport in
  StartCapturingViewport;;
  let* Layers := gets ModelOptions_Layers in
  let* Processed :=
    match Layers with
    | [] => ret (ProcessedLayers Input)
    | _ :: _ =>
        let* Capture := CreateSceneCaptureCamera in
        let* Processed := CaptureFromViewportSource_layers Layers ViewportSize Capture [] in
        let* a := deref (SceneCapture Capture) in
        call (Destroy a);;
        ret Processed
    end in
  let Input := mkInput (Options Input) (CaptureSource Input) Processed in
  let framePtr := mkPayload [mkFrameLambda Input ViewportSize] in
  ViewportCapture_invoke CaptureThisFrame (FFrameGrabber_CaptureThisFrame framePtr).

(** [CaptureFromSceneCaptureSource] (lines 653-695).  The component of a
    capture actor spawned a moment ago has no [TextureTarget] yet. *)
Definition CaptureFromSceneCaptureSource (Input : FStableDiffusionInput) : M unit :=
  let* CaptureComponent :=
    match CaptureSource Input with
    | None =>
        let* Capture := CreateSceneCaptureCamera in
        modify (set_CurrentSceneCapture Capture);;
        let* Current := gets CurrentSceneCapture in
        let* c := GetCaptureComponent2D (SceneCapture Current) in
        ret (mkComponent c None)
    | Some Source => ret Source
    end in
  let* OutSceneViewport := GetCapturingViewport in
  let* Viewport := deref_shared OutSceneViewport in
  let ViewportSize := GetSizeXY Viewport in
  let CaptureSize :=
    match TextureTarget CaptureComponent with
    | Some Target => mkFIntPoint (X Target) (Y Target)
    | None => ViewportSize
    end in
  let* Layers := gets ModelOptions_Layers in
  let* Processed :=
    CaptureFromSceneCaptureSource_layers Layers CaptureSize (Component CaptureComponent) [] in
  let Input' := mkInput (mkOptions (X CaptureSize) (Y CaptureSize)) (CaptureSource Input) Processed in
  let* Current := gets CurrentSceneCapture in
  match CaptureSource Input, SceneCapture Current with
  | None, Some a =>
      call (Destroy a);;
      modify (set_CurrentSceneCapture (mkSceneCapture (SceneCapture Current) None))
  | _, _ => ret tt
  end;;
  StartImageGeneration Input'.

(** [EditorGetGameView] / [EditorSetGameView] of the level editor subsystem. *)
Definition EditorSetGameView_ (ed : UEditorEngine) (bGameView : bool) : M unit :=
  call (EditorSetGameView bGameView);;
  modify (set_GEditor (Some (mkEditor (IsPlaySessionInProgress ed) (Some bGameView)
                                      (GetLevelViewportClients ed)))).

(** The lambda [GenerateImage] queues on the game thread (lines 256-288).
    The first component of [Saved] says whether [LevelEditorSubsystem] was
    set, the second is [bPrevViewportGameViewEnabled]. *)
Definition GenerateImage_lambda_body (Input : FStableDiffusionInput)
    (ImageSourceType : EInputImageSource) : M unit :=
  let* bPrevGScreenMessagesEnabled := gets GAreScreenMessagesEnabled in
  modify (set_GAreScreenMessagesEnabled false);;
  let* Editor := gets GEditor in
  let* Saved :=
    match Editor with
    | Some ed =>
        if negb (IsPlaySessionInProgress ed) then
          match LevelEditorSubsystem_GameView ed with
          | Some bGameView => EditorSetGameView_ ed true;; ret (true, bGameView)
          | None => ret (false, false)
          end
        else ret (false, false)
    | None => ret (false, false)
    end in
  match ImageSourceType with
  | Viewport => CaptureFromViewportSource Input
  | SceneCapture2D => CaptureFromSceneCaptureSource Input
  end;;
  modify (set_GAreScreenMessagesEnabled bPrevGScreenMessagesEnabled);;
  if fst Saved then
    let* Editor := gets GEditor in
    match Editor with
    | Some ed => EditorSetGameView_ ed (snd Saved)
    | None => ret tt
    end
  else ret tt.

(** [GenerateImage] (lines 249-289). *)
Definition GenerateImage (Input : FStableDiffusionInput)
    (ImageSourceType : EInputImageSource) : M unit :=
  let* Bridge := gets GeneratorBridge in
  match Bridge with
  | None => ret tt
  | Some _ =>
      modify (set_bIsGenerating true);;
      AsyncTask_GameThread (GenerateImage_lambda Input ImageSourceType)
  end.

(** [StopGeneratingImage] (lines 291-295). *)
Definition StopGeneratingImage : M unit :=
  let* Bridge := gets GeneratorBridge in
  let* _ := deref Bridge in
  call StopImageGeneration;;
  modify (set_bIsGenerating false).

(** [UpsampleImage] (lines 316-330). *)
Definition UpsampleImage (input : FStableDiffusionImageResult) : M unit :=
  let* Bridge := gets GeneratorBridge in
  match Bridge with
  | None => ret tt
  | Some _ =>
      modify (set_bIsUpsampling true);;
      AsyncTask_AnyBackgroundHiPriTask (UpsampleImage_lambda input)
  end.

(** ** Running queued lambdas *)

Definition RunBackgroundTask (t : BackgroundTask) : M unit :=
  match t with
  | StartImageGeneration_lambda Input =>           (* lines 301-312 *)
      let* Bridge := gets GeneratorBridge in
      let* bridge := deref Bridge in
      let result := GenerateImageFromStartImage bridge Input in
      modify (set_bIsGenerating false);;
      AsyncTask_GameThread (ImageGenerationComplete_lambda result)
  | UpsampleImage_lambda input =>                  (* lines 323-329 *)
      let* Bridge := gets GeneratorBridge in
      let* bridge := deref Bridge in
      let result := Bridge_UpsampleImage bridge input in
      AsyncTask_GameThread (ImageUpsampleComplete_lambda result)
  end.

Definition RunGameThreadTask (t : GameThreadTask) : M unit :=
  match t with
  | GenerateImage_lambda Input ImageSourceType =>
      GenerateImage_lambda_body Input ImageSourceType
  | ImageGenerationComplete_lambda result =>       (* lines 308-311 *)
      broadcast (OnImageGenerationCompleteEx result)
  | ImageUpsampleComplete_lambda result =>         (* lines 325-328 *)
      modify (set_bIsUpsampling false);;
      broadcast (OnImageUpsampleCompleteEx result)
  end.

(** Modelled from the spec: the grabber's frame-ready signal on the render
    thread hands the frame to the pending request, once. *)
Definition FFrameGrabber_FrameReady (ColorBuffer : list FColor)
    (BufferSize TargetSize : FIntPoint) : M unit :=
  let* Grabber := gets ViewportCapture in
  match Grabber with
  | Some g =>
      match bCapturing g, PendingFrame g with
      | true, Some Payload =>
          modify (set_ViewportCapture (Some (mkGrabber (FrameSize g) true None)));;
          let* _ := OnFrameReady_RenderThread Payload ColorBuffer BufferSize TargetSize in
          ret tt
      | _, _ => ret tt
      end
  | None => ret tt
  end.

(** What can happen next, and a run of such events. *)
Inductive Event : Type :=
| Ev_GenerateImage (Input : FStableDiffusionInput) (ImageSourceType : EInputImageSource)
| Ev_StopGeneratingImage
| Ev_UpsampleImage (input : FStableDiffusionImageResult)
| Ev_GameThread          (* the game thread runs its oldest queued lambda *)
| Ev_Background          (* a background worker runs the oldest queued lambda *)
| Ev_FrameReady (ColorBuffer : list FColor) (BufferSize TargetSize : FIntPoint).

Definition step (e : Event) : M unit :=
  match e with
  | Ev_GenerateImage Input ImageSourceType => GenerateImage Input ImageSourceType
  | Ev_StopGeneratingImage => StopGeneratingImage
  | Ev_UpsampleImage input => UpsampleImage input
  | Ev_GameThread =>
      let* Queue := gets GameThread in
      match Queue with
      | [] => ret tt
      | t :: rest => modify (set_GameThread rest);; RunGameThreadTask t
      end
  | Ev_Background =>
      let* Queue := gets AnyBackgroundHiPriTask in
      match Queue with
      | [] => ret tt
      | t :: rest => modify (set_AnyBackgroundHiPriTask rest);; RunBackgroundTask t
      end
  | Ev_FrameReady ColorBuffer BufferSize TargetSize =>
      FFrameGrabber_FrameReady ColorBuffer BufferSize TargetSize
  end.

Fixpoint run (es : list Event) : M unit :=
  match es with
  | [] => ret tt
  | e :: rest => step e;; run rest
  end.

(** ** Vocabulary of the statements *)

(** Calls that create or destroy a capture camera. *)
Definition is_camera_call (c : Call) : bool :=
  match c with
  | SpawnActor_ASceneCapture2D _ | Destroy _ => true
  | _ => false
  end.

(** Calls on a layer processor. *)
Definition is_layer_call (c : Call) : bool :=
  match c with
  | BeginCaptureLayer _ _ _ | CaptureLayer _ _ _ | EndCaptureLayer _ _ | ProcessLayer _ => true
  | _ => false
  end.

Definition camera_calls (w : World) : list Call := List.filter is_camera_call (Calls w).
Definition layer_calls_of (w : World) : list Call := List.filter is_layer_call (Calls w).

(** Everything about transient capture cameras: how many were spawned, the
    one the subsystem remembers as current, the spawn and destroy calls. *)
Definition cameras (w : World) : nat * FViewportSceneCapture * list Call :=
  (SpawnedActors w, CurrentSceneCapture w, camera_calls w).

Definition has_processor (Layer : FLayerData) : Prop := is_Some (Processor Layer).

Definition is_final_color (Layer : FLayerData) : bool :=
  match Processor Layer with
  | Some P => IsA_UFinalColorLayerProcessor P
  | None => false
  end.

(** The three calls that capture one layer against the component [c], before
    its processor reads the render target back. *)
Definition capture_of (P : ULayerProcessorBase) (Size : FIntPoint) (c : ComponentRef)
  : list Call :=
  [BeginCaptureLayer (ProcessorId P) Size c; CaptureLayer (ProcessorId P) c None;
   EndCaptureLayer (ProcessorId P) c].

(** The four calls one layer costs. *)
Definition layer_calls (P : ULayerProcessorBase) (Size : FIntPoint) (c : ComponentRef)
  : list Call :=
  [BeginCaptureLayer (ProcessorId P) Size c; CaptureLayer (ProcessorId P) c None;
   EndCaptureLayer (ProcessorId P) c; ProcessLayer (ProcessorId P)].

(** The calls a layer loop makes for [Layers]: the four calls of each layer,
    in the order the layers are declared. *)
Definition capture_calls (Layers : list FLayerData) (Size : FIntPoint) (c : ComponentRef)
  : list Call :=
  flat_map (fun Layer => match Processor Layer with
                         | Some P => layer_calls P Size c
                         | None => []
                         end) Layers.

(** What a layer loop that starts after the calls [History] collects: every
    layer with the pixels its processor reads back once its own capture is
    made. *)
Fixpoint captured_layers (Layers : list FLayerData) (Size : FIntPoint) (c : ComponentRef)
    (History : list Call) : list FLayerData :=
  match Layers with
  | [] => []
  | Layer :: rest =>
      match Processor Layer with
      | Some P =>
          mkLayer (Some P) (ProcessLayer_pixels P (History ++ capture_of P Size c))
          :: captured_layers rest Size c (History ++ layer_calls P Size c)
      | None => []
      end
  end.

(** The calls of [CreateSceneCaptureCamera] on the actor it spawns, and the
    refresh of a live layer preview that [UpdateSceneCaptureCamera] adds. *)
Definition camera_setup_calls (a : ActorId) (vc : FLevelEditorViewportClient) : list Call :=
  [SpawnActor_ASceneCapture2D a;
   SetCaptureSettings a true false true SCCM_Overwrite SCS_FinalToneCurveHDR;
   SetActorLocation a (GetViewLocation vc);
   SetActorRotation a (GetViewRotation vc);
   SetFOVAngle a (FOVAngle vc)].

Definition preview_calls (w : World) : list Call :=
  match PreviewedLayer w, SceneCapture (LayerPreviewCapture w) with
  | Some P, Some preview_actor =>
      [CaptureLayer (ProcessorId P) (ComponentOfActor preview_actor) (Some false)]
  | _, _ => []
  end.

(** The calls of the viewport path before its layer loop: the frame grabber
    is made and started, the capture actor spawned and aimed. *)
Definition viewport_setup_calls (w : World) (Size : FIntPoint)
    (vc : FLevelEditorViewportClient) : list Call :=
  [MakeShared_FFrameGrabber Size; StartCapturingFrames] ++
  camera_setup_calls (SpawnedActors w) vc ++ preview_calls w.

(** The game view the capture lambda of [GenerateImage] saves when it
    switches the editor to game view, and the calls that switch to it and
    restore it. *)
Definition saved_game_view (w : World) : option bool :=
  match GEditor w with
  | Some ed => if IsPlaySessionInProgress ed then None else LevelEditorSubsystem_GameView ed
  | None => None
  end.

Definition enter_game_view (w : World) : list Call :=
  match saved_game_view w with
  | Some _ => [EditorSetGameView true]
  | None => []
  end.

Definition leave_game_view (w : World) : list Call :=
  match saved_game_view w with
  | Some bGameView => [EditorSetGameView bGameView]
  | None => []
  end.

(** The capture size of the scene capture path for an explicit source. *)
Definition CaptureSize_of (Source : USceneCaptureComponent2D) (SceneViewport : FSceneViewport)
  : FIntPoint :=
  match TextureTarget Source with
  | Some Target => mkFIntPoint (X Target) (Y Target)
  | None => GetSizeXY SceneViewport
  end.

(** The frame request [CaptureFromViewportSource] leaves with the grabber. *)
Definition frame_request (Input : FStableDiffusionInput) (Processed : list FLayerData)
    (ViewportSize : FIntPoint) : FCapturedFramePayload :=
  mkPayload [mkFrameLambda (mkInput (Options Input) (CaptureSource Input) Processed) ViewportSize].

(** The layers the frame lambda hands on: the layer [FindByPredicate] found,
    if any, takes the copied frame. *)
Definition with_copied_frame (CopiedFrame : TArray_FColor) (Layers : list FLayerData)
    (found : option nat) : list FLayerData :=
  match found with
  | Some i => alter (set_LayerPixels CopiedFrame) i Layers
  | None => Layers
  end.

(** Row [Row] of a source buffer read from offset [Start] with row pitch
    [Stride], cut to [Width] cells; and [Rows] such rows laid end to end. *)
Definition source_row (Buffer : list FColor) (Start Stride Width : nat) (Row : nat)
  : TArray_FColor :=
  Some <$> take Width (drop (Start + Row * Stride) Buffer).

Definition packed_rows (Buffer : list FColor) (Start Stride Width Rows : nat) : TArray_FColor :=
  concat (source_row Buffer Start Stride Width <$> seq 0 Rows).

(** [m] leaves the observation [I] of the world as it found it, whether it
    returns or crashes. *)
Definition preserves {T A : Type} (I : World -> T) (m : M A) : Prop :=
  forall w, I (snd (m w)) = I w.

(** ** Sample worlds and requests *)

Definition grey (n : Z) : FColor := mkFColor n n n 255.

Definition sample_final_color : ULayerProcessorBase :=
  mkProcessor 1%nat UFinalColorLayerProcessor (fun _ => [Some (grey 100)]).

Definition sample_depth : ULayerProcessorBase :=
  mkProcessor 2%nat UDepthLayerProcessor
    (fun History => [Some (grey (Z.of_nat (length History)))]).

(** A bridge that answers with the pixels of the first layer it was given;
    [ok] is the success indicator it reports. *)
Definition echo_bridge (ok : bool) : UStableDiffusionBridge :=
  mkBridge
    (fun Input =>
       mkResult match ProcessedLayers Input with
                | Layer :: _ => LayerPixels Layer
                | [] => []
                end (Options Input) ok)
    (fun r => r).

Definition sample_client : FLevelEditorViewportClient :=
  mkViewportClient true (1, 2, 3) (4, 5, 6) 90.

Definition sample_editor (Clients : list (option FLevelEditorViewportClient)) : UEditorEngine :=
  mkEditor false (Some false) Clients.

Definition sample_viewport : FSceneViewport := mkViewport (mkFIntPoint 2 2).

(** An idle subsystem in an editor with a 2x2 viewport. *)
Definition sample_world (Bridge : option UStableDiffusionBridge) (Initialised : bool)
    (Layers : list FLayerData) (Clients : list (option FLevelEditorViewportClient)) : World :=
  mkWorld Bridge Initialised Layers false false None
    (mkSceneCapture None None) (mkSceneCapture None None) None
    true (Some (sample_editor Clients)) (Some sample_viewport) 0%nat
    [] [] [] [].

Definition sample_layers : list FLayerData :=
  [mkLayer (Some sample_final_color) []; mkLayer (Some sample_depth) []].

Definition sample_input : FStableDiffusionInput := mkInput (mkOptions 512 512) None [].

Definition sample_source : USceneCaptureComponent2D :=
  mkComponent (ComponentOfCaller 7%nat) (Some (mkFIntPoint 512 512)).

(** A 3x2 back buffer for the 2x2 viewport. *)
Definition sample_frame : list FColor := [grey 0; grey 1; grey 2; grey 3; grey 4; grey 5].

(** Two requests for a model that declares no layers: [request_A] brings a
    final colour layer of its own, [request_B] names a capture source. *)
Definition request_A : FStableDiffusionInput :=
  mkInput (mkOptions 512 512) None [mkLayer (Some sample_final_color) []].

Definition request_B : FStableDiffusionInput :=
  mkInput (mkOptions 256 256) (Some sample_source) [].

Definition idle_world : World :=
  sample_world (Some (echo_bridge true)) true [] [Some sample_client].

(** [request_A] was accepted, its capture step ran, and it waits for the
    viewport frame. *)
Definition awaiting_frame_world : World :=
  snd (run [Ev_GenerateImage request_A Viewport; Ev_GameThread] idle_world).

(** A bridge is loaded, [InitModel] never succeeded. *)
Definition uninitialised_world : World :=
  sample_world (Some (echo_bridge true)) false [] [Some sample_client].

(** No generator bridge at all. *)
Definition bridgeless_world : World := sample_world None false [] [Some sample_client].

(** A generation is in flight on a bridge whose backend reports failure. *)
Definition failing_backend_world : World :=
  set_bIsGenerating true (sample_world (Some (echo_bridge false)) true [] [Some sample_client]).

(** An editor whose only viewport is orthographic, and a model with layers. *)
Definition orthographic_world : World :=
  sample_world (Some (echo_bridge true)) true sample_layers
    [Some (mkViewportClient false (0, 0, 0) (0, 0, 0) 90)].

(** The scenario of the spec, scaled down: final colour and depth declared. *)
Definition layered_world : World :=
  sample_world (Some (echo_bridge true)) true sample_layers [None; Some sample_client].

(** A processor whose render target shows what it was asked to capture: one
    pixel for each of its captures so far, holding the size the capture was
    begun with and the component it was pointed at. *)
Definition component_code (c : ComponentRef) : Z :=
  match c with
  | ComponentOfActor a => Z.of_nat a
  | ComponentOfCaller o => - Z.of_nat o
  end.

Definition sample_normal : ULayerProcessorBase :=
  mkProcessor 3%nat UNormalLayerProcessor
    (fun History =>
       omap (fun x => match x with
                      | BeginCaptureLayer 3%nat Size c =>
                          Some (Some (mkFColor (X Size) (Y Size) (component_code c) 255))
                      | _ => None
                      end) History).

(** Final colour, depth and normals declared. *)
Definition probed_world : World :=
  sample_world (Some (echo_bridge true)) true
    (sample_layers ++ [mkLayer (Some sample_normal) []]) [None; Some sample_client].

(** ** Textures *)

(** A [size_t] value: 64 bits, unsigned. *)
Definition size_t (z : Z) : Z := z mod 2 ^ 64.

Inductive TextureMipGenSettings : Type := TMGS_FromTextureGroup | TMGS_NoMipmaps.

(** [UTexture2D], with what the file writes: the source image ([Source],
    one mip of BGRA8 pixels) and three settings. *)
Record UTexture2D : Type := mkTexture {
  Source_SizeX : Z;
  Source_SizeY : Z;
  Source_Mip0 : TArray_FColor;
  MipGenSettings : TextureMipGenSettings;
  SRGB : bool;
  DeferCompression : bool
}.

(** [UTexture2D::CreateTransient]: the engine refuses a size that is not
    positive and answers with a null pointer. *)
Definition UTexture2D_CreateTransient (InSizeX InSizeY : Z) : option UTexture2D :=
  if (0 <? InSizeX) && (0 <? InSizeY)
  then Some (mkTexture 0 0 [] TMGS_FromTextureGroup true false)
  else None.

(** [Source.Init(SizeX, SizeY, 1, 1, TSF_BGRA8)]: storage for one mip, not
    written yet.  Sizes that are not positive are not what the engine is
    made for; the statements below keep to positive ones. *)
Definition FTextureSource_Init (NewSizeX NewSizeY : Z) (Tex : UTexture2D) : UTexture2D :=
  mkTexture NewSizeX NewSizeY (replicate (Z.to_nat (NewSizeX * NewSizeY)) None)
    (MipGenSettings Tex) (SRGB Tex) (DeferCompression Tex).

(** [FMemory::Memcpy(Dest, Src, Bytes)] from the start of one pixel array
    to the start of another; [Bytes] is a multiple of [sizeof(FColor)]. *)
Definition Memcpy_pixels (Storage Source : TArray_FColor) (Bytes : Z) : Outcome TArray_FColor :=
  let Count := Bytes / 4 in
  if Count =? 0 then Done Storage
  else if (Count <=? Z.of_nat (length Source)) && (Count <=? Z.of_nat (length Storage))
  then Done (take (Z.to_nat Count) Source ++ drop (Z.to_nat Count) Storage)
  else Crash AccessViolation.

(** [ColorBufferToTexture] on raw frame data (lines 698-722).  [FrameData]
    is [None] for a null pointer, else the pixels that lie behind it;
    the result is the texture object the returned pointer leads to.
    [FrameName] is not used by the body; [UpdateResource] and
    [PostEditChange] change none of the members kept here. *)
Definition ColorBufferToTexture_FrameData (FrameName : string)
    (FrameData : option TArray_FColor) (FrameSize : FIntPoint) (OutTex : option UTexture2D)
  : Outcome (option UTexture2D) :=
  match FrameData with
  | None => Done None
  | Some Pixels =>
      let OutTex :=
        match OutTex with
        | Some Tex => Some Tex
        | None => UTexture2D_CreateTransient (X FrameSize) (Y FrameSize)
        end in
      match OutTex with
      | None => Crash NullDereference
      | Some Tex =>
          let Tex := FTextureSource_Init (X FrameSize) (Y FrameSize) Tex in
          let Bytes :=
            size_t (size_t (size_t (1 * size_t (X FrameSize)) * size_t (Y FrameSize)) * 4) in
          let! TextureData := Memcpy_pixels (Source_Mip0 Tex) Pixels Bytes in
          Done (Some (mkTexture (Source_SizeX Tex) (Source_SizeY Tex) TextureData
                        TMGS_NoMipmaps true true))
      end
  end.

(** [ColorBufferToTexture] on a pixel array (lines 543-548). *)
Definition ColorBufferToTexture (FrameName : string) (FrameColors : TArray_FColor)
    (FrameSize : FIntPoint) (OutTex : option UTexture2D) : Outcome (option UTexture2D) :=
  if (length FrameColors =? 0)%nat then Done None
  else ColorBufferToTexture_FrameData FrameName (Some FrameColors) FrameSize OutTex.

(** ** Finding the viewport to capture *)

Inductive EWorldType : Type :=
| EWorldType_None | EWorldType_Game | EWorldType_Editor | EWorldType_PIE
| EWorldType_EditorPreview | EWorldType_GamePreview | EWorldType_GameRPC
| EWorldType_Inactive.

Record FWorldContext : Type := mkWorldContext {
  WorldType : EWorldType;
  ContextHandle : string
}.

(** [IAssetViewport]: a level viewport widget; the scene viewport it shows
    may be an empty pointer. *)
Record IAssetViewport : Type := mkAssetViewport {
  GetSharedActiveViewport : option FSceneViewport
}.

(** [FSlatePlayInEditorInfo]: a weak pointer to the level viewport the play
    session runs in, and a pointer to the viewport of its own window. *)
Record FSlatePlayInEditorInfo : Type := mkPlayInEditorInfo {
  DestinationSlateViewport : option IAssetViewport;
  SlatePlayInEditorWindowViewport : option FSceneViewport
}.

(** What [GetCapturingViewport] reads of the engine. *)
Record UEngine : Type := mkEngine {
  GIsEditor : bool;
  GetWorldContexts : list FWorldContext;
  IsModuleLoaded_LevelEditor : bool;
  GetFirstActiveViewport : option IAssetViewport;
  SlatePlayInEditorMap : option (gmap string FSlatePlayInEditorInfo);  (* None: GEditor is null *)
  GameEngine_SceneViewport : option (option FSceneViewport)  (* None: GEngine is no UGameEngine *)
}.

(** One turn of the loop of lines 194-224: [OutSceneViewport] after the
    context [Context] was looked at. *)
Definition GetCapturingViewport_Context (Engine : UEngine) (Context : FWorldContext)
    (OutSceneViewport : option FSceneViewport) : Outcome (option FSceneViewport) :=
  match WorldType Context with
  | EWorldType_Editor =>
      if IsModuleLoaded_LevelEditor Engine then
        match GetFirstActiveViewport Engine with
        | Some ActiveLevelViewport => Done (GetSharedActiveViewport ActiveLevelViewport)
        | None => Done OutSceneViewport
        end
      else Done OutSceneViewport
  | EWorldType_PIE =>
      match SlatePlayInEditorMap Engine with
      | None => Crash NullDereference
      | Some Map =>
          match Map !! ContextHandle Context with
          | Some SlatePlayInEditorSession =>
              match DestinationSlateViewport SlatePlayInEditorSession with
              | Some DestinationLevelViewport =>
                  Done (GetSharedActiveViewport DestinationLevelViewport)
              | None =>
                  match SlatePlayInEditorWindowViewport SlatePlayInEditorSession with
                  | Some WindowViewport => Done (Some WindowViewport)
                  | None => Done OutSceneViewport
                  end
              end
          | None => Done OutSceneViewport
          end
      end
  | _ => Done OutSceneViewport
  end.

Fixpoint GetCapturingViewport_Contexts (Engine : UEngine) (Contexts : list FWorldContext)
    (OutSceneViewport : option FSceneViewport) : Outcome (option FSceneViewport) :=
  match Contexts with
  | [] => Done OutSceneViewport
  | Context :: rest =>
      let! OutSceneViewport := GetCapturingViewport_Context Engine Context OutSceneViewport in
      GetCapturingViewport_Contexts Engine rest OutSceneViewport
  end.

(** [GetCapturingViewport] (lines 187-234), as a function of the engine. *)
Definition GetCapturingViewport_of (Engine : UEngine) : Outcome (option FSceneViewport) :=
  if GIsEditor Engine then
    GetCapturingViewport_Contexts Engine (GetWorldContexts Engine) None
  else
    match GameEngine_SceneViewport Engine with
    | Some SceneViewport => Done SceneViewport
    | None => Crash NullDereference
    end.

(** ** The rest of the subsystem object *)

(** Setters for the members of the world the pipeline only reads. *)
Definition set_GeneratorBridge (v : option UStableDiffusionBridge) (w : World) : World :=
  mkWorld v (ModelInitialised w) (ModelOptions_Layers w)
    (bIsGenerating w) (bIsUpsampling w) (ViewportCapture w) (CurrentSceneCapture w)
    (LayerPreviewCapture w) (PreviewedLayer w) (GAreScreenMessagesEnabled w)
    (GEditor w) (CapturingViewport w) (SpawnedActors w) (GameThread w)
    (AnyBackgroundHiPriTask w) (Calls w) (Broadcasts w).

Definition set_ModelInitialised (v : bool) (w : World) : World :=
  mkWorld (GeneratorBridge w) v (ModelOptions_Layers w)
    (bIsGenerating w) (bIsUpsampling w) (ViewportCapture w) (CurrentSceneCapture w)
    (LayerPreviewCapture w) (PreviewedLayer w) (GAreScreenMessagesEnabled w)
    (GEditor w) (CapturingViewport w) (SpawnedActors w) (GameThread w)
    (AnyBackgroundHiPriTask w) (Calls w) (Broadcasts w).

Definition set_ModelOptions_Layers (v : list FLayerData) (w : World) : World :=
  mkWorld (GeneratorBridge w) (ModelInitialised w) v
    (bIsGenerating w) (bIsUpsampling w) (ViewportCapture w) (CurrentSceneCapture w)
    (LayerPreviewCapture w) (PreviewedLayer w) (GAreScreenMessagesEnabled w)
    (GEditor w) (CapturingViewport w) (SpawnedActors w) (GameThread w)
    (AnyBackgroundHiPriTask w) (Calls w) (Broadcasts w).

Definition set_LayerPreviewCapture (v : FViewportSceneCapture) (w : World) : World :=
  mkWorld (GeneratorBridge w) (ModelInitialised w) (ModelOptions_Layers w)
    (bIsGenerating w) (bIsUpsampling w) (ViewportCapture w) (CurrentSceneCapture w)
    v (PreviewedLayer w) (GAreScreenMessagesEnabled w)
    (GEditor w) (CapturingViewport w) (SpawnedActors w) (GameThread w)
    (AnyBackgroundHiPriTask w) (Calls w) (Broadcasts w).

Definition set_PreviewedLayer (v : option ULayerProcessorBase) (w : World) : World :=
  mkWorld (GeneratorBridge w) (ModelInitialised w) (ModelOptions_Layers w)
    (bIsGenerating w) (bIsUpsampling w) (ViewportCapture w) (CurrentSceneCapture w)
    (LayerPreviewCapture w) v (GAreScreenMessagesEnabled w)
    (GEditor w) (CapturingViewport w) (SpawnedActors w) (GameThread w)
    (AnyBackgroundHiPriTask w) (Calls w) (Broadcasts w).

(** [IsBridgeLoaded] (lines 55-58). *)
Definition IsBridgeLoaded : M bool :=
  let* Bridge := gets GeneratorBridge in
  ret match Bridge with
      | None => false
      | Some _ => true
      end.

(** Values the file hands on unread. *)
Definition EPaddingMode : Type := Z.
Definition FDependencyManifestEntry : Type := Z.
Definition FDependencyStatus : Type := Z.

(** [FStableDiffusionModelOptions]: the file reads [Layers]. *)
Record FStableDiffusionModelOptions : Type := mkModelOptions {
  Model_Layers : list FLayerData
}.

(** The virtual calls of the bridge besides generation, as the file makes
    them; [ReleaseModel] only shows in the call trace. *)
Record UStableDiffusionBridge_Session : Type := mkBridgeSession {
  Bridge_GetToken : string;
  Bridge_LoginUsingToken : string -> bool;
  Bridge_InitModel : FStableDiffusionModelOptions -> bool -> EPaddingMode -> bool
}.

Record UDependencyManager : Type := mkDependencyManager {
  AllDependenciesInstalled : bool;
  Manager_InstallDependency : FDependencyManifestEntry -> bool -> FDependencyStatus
}.

(** A class, given by its name followed by the names of its super classes. *)
Abbreviation UClass := (list string).

Definition UStableDiffusionBridge_StaticClass : UClass :=
  ["StableDiffusionBridge"%string; "Object"%string].

Definition UClass_GetName (Class : UClass) : string :=
  match Class with
  | Name :: _ => Name
  | [] => EmptyString
  end.

(** [Class->IsChildOf(SomeBase)]: walks up the super classes; false for a
    null [SomeBase]. *)
Fixpoint IsChildOf (Class : UClass) (SomeBase : option UClass) : bool :=
  match SomeBase with
  | None => false
  | Some Base =>
      if decide (Class = Base) then true
      else match Class with
           | [] => false
           | _ :: Super => IsChildOf Super SomeBase
           end
  end.

Inductive ELevelViewportType : Type :=
| LVT_OrthoXY | LVT_OrthoXZ | LVT_OrthoYZ | LVT_Perspective | LVT_OrthoFreelook.

(** [FEditorCameraLivePreview], with the four members the file assigns. *)
Record FEditorCameraLivePreview : Type := mkCameraInfo {
  Location : FVector;
  Rotation : FRotator;
  ViewportType : ELevelViewportType;
  ViewportIndex : Z
}.

(** A multicast delegate the file adds lambdas to, and the lambdas. *)
Inductive Delegate : Type :=
| FEditorDelegates_OnEditorCameraMoved
| TransformUpdated (Source : ComponentRef).

Inductive DelegateLambda : Type :=
| LivePreview_TransformUpdated_lambda (Delay : float_bits) (Source : ComponentRef)  (* 382-398 *)
| LivePreview_CameraMoved_lambda (Delay : float_bits)                               (* 403-418 *)
| LayerPreview_CameraMoved_lambda.                                                  (* 456-458 *)

(** [FDelegateHandle]: [None] is the handle that is not valid. *)
Abbreviation FDelegateHandle := (option nat).

Record FDelegateBinding : Type := mkBinding {
  BoundTo : Delegate;
  Handle : nat;
  Lambda : DelegateLambda
}.

(** What is bound to the bridge's dynamic delegate [OnImageProgressEx]. *)
Inductive DynamicBinding : Type :=
| Subsystem_UpdateImageProgress
| OtherObject (Object : ObjectId).

#[global] Instance ComponentRef_eq_dec : EqDecision ComponentRef.
Proof. solve_decision. Defined.

#[global] Instance Delegate_eq_dec : EqDecision Delegate.
Proof. solve_decision. Defined.

#[global] Instance DynamicBinding_eq_dec : EqDecision DynamicBinding.
Proof. solve_decision. Defined.

(** More lambdas handed to [AsyncTask]. *)
Inductive SessionGameThreadTask : Type :=
| OnDependencyInstalled_lambda (result : FDependencyStatus)    (* 115-117 *)
| OnModelInitialized_lambda                                    (* 161-163, 171-173 *)
| DisableLivePreviewForLayer_lambda.                           (* 472-482 *)

Inductive SessionBackgroundTask : Type :=
| InstallDependency_lambda (Dependency : FDependencyManifestEntry) (ForceReinstall : bool)
| InitModel_lambda (Model : FStableDiffusionModelOptions) (AllowNSFW : bool)
    (PaddingMode : EPaddingMode).

(** More delegates that were broadcast. *)
Inductive SessionBroadcast : Type :=
| OnBridgeLoadedEx (Bridge : UStableDiffusionBridge)
| OnPythonLoadedEx
| OnPythonLoaded
| OnDependencyInstalled (result : FDependencyStatus)
| OnModelInitializedEx (Success : bool)
| OnImageProgressUpdated (Step Timestep : Z) (Progress : float_bits) (Size : FIntPoint)
    (PixelData : TArray_FColor)
| OnEditorCameraMovedEx (CameraInfo : FEditorCameraLivePreview).

(** More calls into the engine and the bridge. *)
Inductive SessionCall : Type :=
| ReloadConfig
| ExecPythonCommandEx (Command : string)
| Bridge_ReleaseModel
| CaptureLayer_nullptr (Processor : ObjectId) (SingleCapture : bool).

(** The pipeline's world with the other members of the subsystem, the
    other half of the bridge and the engine state the rest of the file
    touches. *)
Record Session : Type := mkSession {
  Pipeline : World;
  (* members of UStableDiffusionSubsystem *)
  PythonLoaded : bool;
  DependencyManager : option UDependencyManager;
  OnCaptureCameraUpdatedDlgHandle : FDelegateHandle;
  OnLayerPreviewUpdateHandle : FDelegateHandle;
  LastPreviewCameraInfo : FEditorCameraLivePreview;
  IdleCameraTimer : option float_bits;       (* the pending timer's rate *)
  (* the object behind GeneratorBridge *)
  GeneratorBridge_Session : UStableDiffusionBridge_Session;
  OnImageProgressEx : list DynamicBinding;
  (* operator== of FEditorCameraLivePreview, which the header declares *)
  CameraInfo_equal : FEditorCameraLivePreview -> FEditorCameraLivePreview -> bool;
  (* GetDefault<UStableDiffusionToolsSettings>()->GetGeneratorType() *)
  Settings_GeneratorType : option UClass;
  (* what GetDerivedClasses finds below UStableDiffusionBridge, in its order *)
  GetDerivedClasses : list UClass;
  (* the bridge object Python constructs from a class name, if it can *)
  Python_bridges : string -> option (UStableDiffusionBridge * UStableDiffusionBridge_Session);
  (* every lambda bound to a delegate, oldest first, and the handle counter *)
  Delegates : list FDelegateBinding;
  NextDelegateHandle : nat;
  (* lambdas queued by AsyncTask and not run yet, oldest first *)
  Session_GameThread : list SessionGameThreadTask;
  Session_Background : list SessionBackgroundTask;
  (* what an observer sees *)
  Session_Calls : list SessionCall;
  Session_Broadcasts : list SessionBroadcast
}.

Definition set_Pipeline (v : World) (s : Session) : Session :=
  match s with
  | mkSession _ python_loaded manager camera_handle layer_handle last_pose timer
      bridge_session progress equal generator_type classes python delegates next_handle
      game_thread background calls broadcasts =>
      mkSession v python_loaded manager camera_handle layer_handle last_pose timer
        bridge_session progress equal generator_type classes python delegates next_handle
        game_thread background calls broadcasts
  end.

Definition set_PythonLoaded (v : bool) (s : Session) : Session :=
  match s with
  | mkSession w _ manager camera_handle layer_handle last_pose timer bridge_session
      progress equal generator_type classes python delegates next_handle game_thread
      background calls broadcasts =>
      mkSession w v manager camera_handle layer_handle last_pose timer bridge_session
        progress equal generator_type classes python delegates next_handle game_thread
        background calls broadcasts
  end.

Definition set_OnCaptureCameraUpdatedDlgHandle (v : FDelegateHandle) (s : Session) : Session :=
  match s with
  | mkSession w python_loaded manager _ layer_handle last_pose timer bridge_session
      progress equal generator_type classes python delegates next_handle game_thread
      background calls broadcasts =>
      mkSession w python_loaded manager v layer_handle last_pose timer bridge_session
        progress equal generator_type classes python delegates next_handle game_thread
        background calls broadcasts
  end.

Definition set_OnLayerPreviewUpdateHandle (v : FDelegateHandle) (s : Session) : Session :=
  match s with
  | mkSession w python_loaded manager camera_handle _ last_pose timer bridge_session
      progress equal generator_type classes python delegates next_handle game_thread
      background calls broadcasts =>
      mkSession w python_loaded manager camera_handle v last_pose timer bridge_session
        progress equal generator_type classes python delegates next_handle game_thread
        background calls broadcasts
  end.

Definition set_LastPreviewCameraInfo (v : FEditorCameraLivePreview) (s : Session) : Session :=
  match s with
  | mkSession w python_loaded manager camera_handle layer_handle _ timer bridge_session
      progress equal generator_type classes python delegates next_handle game_thread
      background calls broadcasts =>
      mkSession w python_loaded manager camera_handle layer_handle v timer bridge_session
        progress equal generator_type classes python delegates next_handle game_thread
        background calls broadcasts
  end.

Definition set_IdleCameraTimer (v : option float_bits) (s : Session) : Session :=
  match s with
  | mkSession w python_loaded manager camera_handle layer_handle last_pose _
      bridge_session progress equal generator_type classes python delegates next_handle
      game_thread background calls broadcasts =>
      mkSession w python_loaded manager camera_handle layer_handle last_pose v
        bridge_session progress equal generator_type classes python delegates next_handle
        game_thread background calls broadcasts
  end.

Definition set_GeneratorBridge_Session (v : UStableDiffusionBridge_Session) (s : Session) : Session :=
  match s with
  | mkSession w python_loaded manager camera_handle layer_handle last_pose timer _
      progress equal generator_type classes python delegates next_handle game_thread
      background calls broadcasts =>
      mkSession w python_loaded manager camera_handle layer_handle last_pose timer v
        progress equal generator_type classes python delegates next_handle game_thread
        background calls broadcasts
  end.

Definition set_OnImageProgressEx (v : list DynamicBinding) (s : Session) : Session :=
  match s with
  | mkSession w python_loaded manager camera_handle layer_handle last_pose timer
      bridge_session _ equal generator_type classes python delegates next_handle
      game_thread background calls broadcasts =>
      mkSession w python_loaded manager camera_handle layer_handle last_pose timer
        bridge_session v equal generator_type classes python delegates next_handle
        game_thread background calls broadcasts
  end.

Definition set_Delegates (v : list FDelegateBinding) (s : Session) : Session :=
  match s with
  | mkSession w python_loaded manager camera_handle layer_handle last_pose timer
      bridge_session progress equal generator_type classes python _ next_handle
      game_thread background calls broadcasts =>
      mkSession w python_loaded manager camera_handle layer_handle last_pose timer
        bridge_session progress equal generator_type classes python v next_handle
        game_thread background calls broadcasts
  end.

Definition set_NextDelegateHandle (v : nat) (s : Session) : Session :=
  match s with
  | mkSession w python_loaded manager camera_handle layer_handle last_pose timer
      bridge_session progress equal generator_type classes python delegates _ game_thread
      background calls broadcasts =>
      mkSession w python_loaded manager camera_handle layer_handle last_pose timer
        bridge_session progress equal generator_type classes python delegates v
        game_thread background calls broadcasts
  end.

Definition set_Session_GameThread (v : list SessionGameThreadTask) (s : Session) : Session :=
  match s with
  | mkSession w python_loaded manager camera_handle layer_handle last_pose timer
      bridge_session progress equal generator_type classes python delegates next_handle _
      background calls broadcasts =>
      mkSession w python_loaded manager camera_handle layer_handle last_pose timer
        bridge_session progress equal generator_type classes python delegates next_handle
        v background calls broadcasts
  end.

Definition set_Session_Background (v : list SessionBackgroundTask) (s : Session) : Session :=
  match s with
  | mkSession w python_loaded manager camera_handle layer_handle last_pose timer
      bridge_session progress equal generator_type classes python delegates next_handle
      game_thread _ calls broadcasts =>
      mkSession w python_loaded manager camera_handle layer_handle last_pose timer
        bridge_session progress equal generator_type classes python delegates next_handle
        game_thread v calls broadcasts
  end.

Definition set_Session_Calls (v : list SessionCall) (s : Session) : Session :=
  match s with
  | mkSession w python_loaded manager camera_handle layer_handle last_pose timer
      bridge_session progress equal generator_type classes python delegates next_handle
      game_thread background _ broadcasts =>
      mkSession w python_loaded manager camera_handle layer_handle last_pose timer
        bridge_session progress equal generator_type classes python delegates next_handle
        game_thread background v broadcasts
  end.

Definition set_Session_Broadcasts (v : list SessionBroadcast) (s : Session) : Session :=
  match s with
  | mkSession w python_loaded manager camera_handle layer_handle last_pose timer
      bridge_session progress equal generator_type classes python delegates next_handle
      game_thread background calls _ =>
      mkSession w python_loaded manager camera_handle layer_handle last_pose timer
        bridge_session progress equal generator_type classes python delegates next_handle
        game_thread background calls v
  end.


(** State and failure over a session. *)
Definition SM (A : Type) : Type := Session -> Outcome A * Session.

Definition Session_ret {A : Type} (a : A) : SM A := fun s => (Done a, s).

Definition Session_bind {A B : Type} (m : SM A) (k : A -> SM B) : SM B :=
  fun s =>
    match m s with
    | (Done a, s') => k a s'
    | (Crash why, s') => (Crash why, s')
    end.

Notation "'let+' x ':=' m 'in' k" := (Session_bind m (fun x => k))
  (at level 10, x name, m at level 100, k at level 200).
Notation "m ;+ k" := (Session_bind m (fun _ => k))
  (at level 100, k at level 200, right associativity).

Definition Session_gets {A : Type} (f : Session -> A) : SM A := fun s => (Done (f s), s).
Definition Session_modify (f : Session -> Session) : SM unit := fun s => (Done tt, f s).

(** Code of the pipeline, run on the session's world. *)
Definition pipeline {A : Type} (m : M A) : SM A :=
  fun s =>
    match m (Pipeline s) with
    | (r, w) => (r, set_Pipeline w s)
    end.

Definition Session_call (c : SessionCall) : SM unit :=
  Session_modify (fun s => set_Session_Calls (Session_Calls s ++ [c]) s).

Definition Session_broadcast (b : SessionBroadcast) : SM unit :=
  Session_modify (fun s => set_Session_Broadcasts (Session_Broadcasts s ++ [b]) s).

Definition Session_AsyncTask_GameThread (t : SessionGameThreadTask) : SM unit :=
  Session_modify (fun s => set_Session_GameThread (Session_GameThread s ++ [t]) s).

Definition Session_AsyncTask_AnyBackgroundHiPriTask (t : SessionBackgroundTask) : SM unit :=
  Session_modify (fun s => set_Session_Background (Session_Background s ++ [t]) s).

(** ** Loading the bridge *)

(** The Python statement of lines 76-84 for the class named [Name]. *)
Definition PythonCommand (Name : string) : string :=
  "from bridges import " +:+ Name +:+ "; bridge = " +:+ Name +:+ "." +:+ Name +:+ "(); "
  +:+ "subsystem = unreal.get_editor_subsystem(unreal.StableDiffusionSubsystem); "
  +:+ "subsystem.set_editor_property('GeneratorBridge', bridge)".

(** [ExecPythonCommandEx] on that statement: when Python can construct the
    class, the new object becomes [GeneratorBridge] and the call answers
    true; when it cannot, nothing is assigned and the call answers false. *)
Definition ExecPythonCommandEx_CreateBridge (DerivedBridgeClass : UClass) : SM bool :=
  Session_call (ExecPythonCommandEx (PythonCommand (UClass_GetName DerivedBridgeClass)));+
  let+ Python := Session_gets Python_bridges in
  match Python (UClass_GetName DerivedBridgeClass) with
  | Some (Bridge, Bridge_Session) =>
      pipeline (modify (set_GeneratorBridge (Some Bridge)));+
      Session_modify (set_GeneratorBridge_Session Bridge_Session);+
      Session_modify (set_OnImageProgressEx []);+
      Session_ret true
  | None => Session_ret false
  end.

(** The loop of lines 71-94. *)
Fixpoint CreateBridge_classes (PythonBridgeClasses : list UClass)
    (BridgeClass : option UClass) : SM unit :=
  match PythonBridgeClasses with
  | [] => Session_ret tt
  | DerivedBridgeClass :: rest =>
      if IsChildOf DerivedBridgeClass BridgeClass then
        let+ Result := ExecPythonCommandEx_CreateBridge DerivedBridgeClass in
        Session_ret tt
      else CreateBridge_classes rest BridgeClass
  end.

(** [CreateBridge] (lines 60-102). *)
Definition CreateBridge (BridgeClass : option UClass) : SM unit :=
  if decide (BridgeClass = Some UStableDiffusionBridge_StaticClass) then Session_ret tt
  else
    let+ PythonBridgeClasses := Session_gets GetDerivedClasses in
    CreateBridge_classes PythonBridgeClasses BridgeClass;+
    let+ Bridge := pipeline (gets GeneratorBridge) in
    match Bridge with
    | Some bridge => Session_broadcast (OnBridgeLoadedEx bridge)
    | None => Session_ret tt
    end.

(** The lambda the constructor adds to [OnPythonInitialized] (lines 41-51). *)
Definition OnPythonInitialized_lambda : SM unit :=
  Session_call ReloadConfig;+
  let+ BridgeClass := Session_gets Settings_GeneratorType in
  CreateBridge BridgeClass;+
  Session_modify (set_PythonLoaded true);+
  Session_broadcast OnPythonLoadedEx;+
  Session_broadcast OnPythonLoaded.

(** ** Dependencies and tokens *)

(** [DependenciesAreInstalled] (lines 104-107). *)
Definition DependenciesAreInstalled : SM bool :=
  let+ Manager := Session_gets DependencyManager in
  Session_ret match Manager with
              | Some manager => AllDependenciesInstalled manager
              | None => false
              end.

(** [InstallDependency] (lines 109-120): the work is the lambda. *)
Definition InstallDependency (Dependency : FDependencyManifestEntry) (ForceReinstall : bool)
  : SM unit :=
  Session_AsyncTask_AnyBackgroundHiPriTask (InstallDependency_lambda Dependency ForceReinstall).

Definition IsEmpty (s : string) : bool :=
  match s with
  | EmptyString => true
  | String _ _ => false
  end.

(** [GetToken] (lines 130-136). *)
Definition GetToken : SM string :=
  let+ Bridge := pipeline (gets GeneratorBridge) in
  match Bridge with
  | Some _ =>
      let+ bridge := Session_gets GeneratorBridge_Session in
      Session_ret (Bridge_GetToken bridge)
  | None => Session_ret EmptyString
  end.

(** [HasToken] (lines 122-128). *)
Definition HasToken : SM bool :=
  let+ Bridge := pipeline (gets GeneratorBridge) in
  match Bridge with
  | Some _ =>
      let+ bridge := Session_gets GeneratorBridge_Session in
      Session_ret (negb (IsEmpty (Bridge_GetToken bridge)))
  | None => Session_ret false
  end.

(** [LoginUsingToken] (lines 138-144). *)
Definition LoginUsingToken (token : string) : SM bool :=
  let+ Bridge := pipeline (gets GeneratorBridge) in
  match Bridge with
  | Some _ =>
      let+ bridge := Session_gets GeneratorBridge_Session in
      Session_ret (Bridge_LoginUsingToken bridge token)
  | None => Session_ret false
  end.

(** ** The model *)

(** [AddUniqueDynamic] and [RemoveDynamic] of a dynamic multicast delegate:
    the first adds a binding that is not in the list yet, the second takes
    the first matching binding out by swapping the last one into its place. *)
Definition AddUniqueDynamic (b : DynamicBinding) (Bound : list DynamicBinding)
  : list DynamicBinding :=
  if decide (b ∈ Bound) then Bound else Bound ++ [b].

Definition RemoveAtSwap {T : Type} (Index : nat) (Array : list T) : list T :=
  match last Array with
  | Some Last => take (length Array - 1) (<[Index := Last]> Array)
  | None => Array
  end.

Definition RemoveDynamic (b : DynamicBinding) (Bound : list DynamicBinding)
  : list DynamicBinding :=
  match list_find (fun x => x = b) Bound with
  | Some (Index, _) => RemoveAtSwap Index Bound
  | None => Bound
  end.

(** [this->ModelInitialised = this->GeneratorBridge->InitModel(...);
    if (this->ModelInitialised) ModelOptions = Model;] (lines 157-159 and
    167-169). *)
Definition InitModel_now (Model : FStableDiffusionModelOptions) (AllowNSFW : bool)
    (PaddingMode : EPaddingMode) : SM unit :=
  let+ Bridge := pipeline (gets GeneratorBridge) in
  let+ _ := pipeline (deref Bridge) in
  let+ bridge := Session_gets GeneratorBridge_Session in
  pipeline (modify (set_ModelInitialised (Bridge_InitModel bridge Model AllowNSFW PaddingMode)));+
  let+ Initialised := pipeline (gets ModelInitialised) in
  if Initialised then pipeline (modify (set_ModelOptions_Layers (Model_Layers Model)))
  else Session_ret tt.

(** [InitModel] (lines 146-176). *)
Definition InitModel (Model : FStableDiffusionModelOptions) (Async AllowNSFW : bool)
    (PaddingMode : EPaddingMode) : SM unit :=
  let+ Bridge := pipeline (gets GeneratorBridge) in
  match Bridge with
  | Some _ =>
      Session_modify (fun s =>
        set_OnImageProgressEx
          (AddUniqueDynamic Subsystem_UpdateImageProgress (OnImageProgressEx s)) s);+
      if Async then
        Session_AsyncTask_AnyBackgroundHiPriTask (InitModel_lambda Model AllowNSFW PaddingMode)
      else
        InitModel_now Model AllowNSFW PaddingMode;+
        Session_AsyncTask_GameThread OnModelInitialized_lambda
  | None => Session_ret tt
  end.

(** [ReleaseModel] (lines 178-185). *)
Definition ReleaseModel : SM unit :=
  let+ Bridge := pipeline (gets GeneratorBridge) in
  match Bridge with
  | Some _ =>
      Session_call Bridge_ReleaseModel;+
      Session_modify (fun s =>
        set_OnImageProgressEx
          (RemoveDynamic Subsystem_UpdateImageProgress (OnImageProgressEx s)) s);+
      pipeline (modify (set_ModelInitialised false))
  | None => Session_ret tt
  end.

(** [UpdateImageProgress] (lines 371-374). *)
Definition UpdateImageProgress (Step Timestep : Z) (Progress : float_bits) (Size : FIntPoint)
    (PixelData : TArray_FColor) : SM unit :=
  Session_broadcast (OnImageProgressUpdated Step Timestep Progress Size PixelData).

(** The bridge broadcasts [OnImageProgressEx]: what is bound to it runs;
    bindings of other objects are outside this file. *)
Fixpoint OnImageProgressEx_invoke (Bound : list DynamicBinding) (Step Timestep : Z)
    (Progress : float_bits) (Size : FIntPoint) (PixelData : TArray_FColor) : SM unit :=
  match Bound with
  | [] => Session_ret tt
  | b :: rest =>
      match b with
      | Subsystem_UpdateImageProgress => UpdateImageProgress Step Timestep Progress Size PixelData
      | OtherObject _ => Session_ret tt
      end;+
      OnImageProgressEx_invoke rest Step Timestep Progress Size PixelData
  end.

Definition OnImageProgressEx_Broadcast (Step Timestep : Z) (Progress : float_bits)
    (Size : FIntPoint) (PixelData : TArray_FColor) : SM unit :=
  let+ Bound := Session_gets OnImageProgressEx in
  OnImageProgressEx_invoke Bound Step Timestep Progress Size PixelData.

(** ** Live preview of the camera *)

(** [Delegate.AddLambda(...)]: a fresh handle. *)
Definition AddLambda (To : Delegate) (L : DelegateLambda) : SM FDelegateHandle :=
  let+ n := Session_gets NextDelegateHandle in
  Session_modify (set_NextDelegateHandle (S n));+
  Session_modify (fun s => set_Delegates (Delegates s ++ [mkBinding To n L]) s);+
  Session_ret (Some n).

(** [Delegate.Remove(Handle)]: a handle that is not valid removes nothing. *)
Definition Remove (From : Delegate) (h : FDelegateHandle) : SM unit :=
  match h with
  | Some n =>
      Session_modify (fun s =>
        set_Delegates
          (List.filter (fun b => negb (bool_decide (BoundTo b = From) && (Handle b =? n)%nat))
             (Delegates s)) s)
  | None => Session_ret tt
  end.

(** [SetLivePreviewEnabled] (lines 376-434). *)
Definition SetLivePreviewEnabled (Enabled : bool) (Delay : float_bits)
    (Source : option ComponentRef) : SM unit :=
  if Enabled then
    let+ h := Session_gets OnCaptureCameraUpdatedDlgHandle in
    match Source, h with
    | Some c, None =>
        let+ h' := AddLambda (TransformUpdated c) (LivePreview_TransformUpdated_lambda Delay c) in
        Session_modify (set_OnCaptureCameraUpdatedDlgHandle h')
    | None, None =>
        let+ h' := AddLambda FEditorDelegates_OnEditorCameraMoved
                     (LivePreview_CameraMoved_lambda Delay) in
        Session_modify (set_OnCaptureCameraUpdatedDlgHandle h')
    | _, Some _ => Session_ret tt
    end
  else
    let+ h := Session_gets OnCaptureCameraUpdatedDlgHandle in
    match Source with
    | Some c => Remove (TransformUpdated c) h
    | None => Remove FEditorDelegates_OnEditorCameraMoved h
    end;+
    let+ h := Session_gets OnCaptureCameraUpdatedDlgHandle in
    match h with
    | Some _ => Session_modify (set_OnCaptureCameraUpdatedDlgHandle None)
    | None => Session_ret tt
    end.

(** [InRate > 0.f] on the bit pattern of a [float]. *)
Definition positive_rate (InRate : float_bits) : bool :=
  (0 <? InRate) && (InRate <=? 2139095040).

(** [GEditor->GetTimerManager()->SetTimer(IdleCameraTimer, this,
    &LivePreviewUpdate, Delay, false)]: the timer behind the handle starts
    anew; a rate that is not positive only clears it. *)
Definition SetTimer_IdleCameraTimer (InRate : float_bits) : SM unit :=
  let+ Editor := pipeline (gets GEditor) in
  let+ _ := pipeline (deref Editor) in
  Session_modify (set_IdleCameraTimer (if positive_rate InRate then Some InRate else None)).

(** The tail both camera lambdas share (lines 392-397 and 412-417). *)
Definition LivePreview_moved (Delay : float_bits) (CameraInfo : FEditorCameraLivePreview)
  : SM unit :=
  let+ Last := Session_gets LastPreviewCameraInfo in
  let+ equal := Session_gets CameraInfo_equal in
  (if negb (equal Last CameraInfo) then SetTimer_IdleCameraTimer Delay else Session_ret tt);+
  Session_modify (set_LastPreviewCameraInfo CameraInfo).

(** [LivePreviewUpdate] (lines 728-731). *)
Definition LivePreviewUpdate : SM unit :=
  let+ Last := Session_gets LastPreviewCameraInfo in
  Session_broadcast (OnEditorCameraMovedEx Last).

(** The timer manager finds the idle camera timer due. *)
Definition IdleCameraTimer_fires : SM unit :=
  let+ Timer := Session_gets IdleCameraTimer in
  match Timer with
  | Some _ => Session_modify (set_IdleCameraTimer None);+ LivePreviewUpdate
  | None => Session_ret tt
  end.

(** ** Live preview of a layer *)

(** [Processor->CaptureLayer(CaptureSource, SingleCapture)] with a source
    that may be null. *)
Definition ULayerProcessorBase_CaptureLayer (P : ULayerProcessorBase)
    (Source : option USceneCaptureComponent2D) (SingleCapture : bool) : SM unit :=
  match Source with
  | Some c => pipeline (call (CaptureLayer (ProcessorId P) (Component c) (Some SingleCapture)))
  | None => Session_call (CaptureLayer_nullptr (ProcessorId P) SingleCapture)
  end.

(** [DisableLivePreviewForLayer] (lines 469-486). *)
Definition DisableLivePreviewForLayer : SM unit :=
  let+ Preview := pipeline (gets LayerPreviewCapture) in
  let+ Previewed := pipeline (gets PreviewedLayer) in
  match SceneCapture Preview, Previewed with
  | Some _, Some _ => Session_AsyncTask_GameThread DisableLivePreviewForLayer_lambda
  | _, _ => Session_ret tt
  end;+
  pipeline (modify (set_PreviewedLayer None)).

(** The render target of a layer processor. *)
Inductive UTextureRenderTarget2D : Type := RenderTarget_of (Processor : ObjectId).

(** [SetLivePreviewForLayer] (lines 436-467).  [check(Layer)] is in the type
    of [Layer]. *)
Definition SetLivePreviewForLayer (Size : FIntPoint) (Layer : ULayerProcessorBase)
    (Source : option USceneCaptureComponent2D) : SM UTextureRenderTarget2D :=
  let+ Previewed := pipeline (gets PreviewedLayer) in
  match Previewed with
  | Some _ => DisableLivePreviewForLayer
  | None => Session_ret tt
  end;+
  pipeline (modify (set_PreviewedLayer (Some Layer)));+
  match Source with
  | Some _ => Session_ret tt
  | None =>
      let+ Preview := pipeline (gets LayerPreviewCapture) in
      match SceneCapture Preview with
      | None =>
          let+ Capture := pipeline CreateSceneCaptureCamera in
          pipeline (modify (set_LayerPreviewCapture Capture));+
          let+ h := AddLambda FEditorDelegates_OnEditorCameraMoved
                      LayerPreview_CameraMoved_lambda in
          Session_modify (set_OnLayerPreviewUpdateHandle h)
      | Some _ => Session_ret tt
      end;+
      let+ Preview := pipeline (gets LayerPreviewCapture) in
      let+ ActiveCaptureComponent := pipeline (GetCaptureComponent2D (SceneCapture Preview)) in
      Session_ret tt
  end;+
  let+ Previewed := pipeline (gets PreviewedLayer) in
  let+ P := pipeline (deref Previewed) in
  let+ Preview := pipeline (gets LayerPreviewCapture) in
  let+ c := pipeline (GetCaptureComponent2D (SceneCapture Preview)) in
  pipeline (call (BeginCaptureLayer (ProcessorId P) Size c));+
  ULayerProcessorBase_CaptureLayer P Source false;+
  Session_ret (RenderTarget_of (ProcessorId P)).

(** ** Running the session's lambdas *)

Definition RunSessionBackgroundTask (t : SessionBackgroundTask) : SM unit :=
  match t with
  | InstallDependency_lambda Dependency ForceReinstall =>      (* lines 111-119 *)
      let+ Manager := Session_gets DependencyManager in
      match Manager with
      | Some manager =>
          let result := Manager_InstallDependency manager Dependency ForceReinstall in
          Session_AsyncTask_GameThread (OnDependencyInstalled_lambda result)
      | None => Session_ret tt
      end
  | InitModel_lambda Model AllowNSFW PaddingMode =>            (* lines 156-164 *)
      InitModel_now Model AllowNSFW PaddingMode;+
      Session_AsyncTask_GameThread OnModelInitialized_lambda
  end.

Definition RunSessionGameThreadTask (t : SessionGameThreadTask) : SM unit :=
  match t with
  | OnDependencyInstalled_lambda result =>                     (* lines 115-117 *)
      let+ Manager := Session_gets DependencyManager in
      let+ _ := pipeline (deref Manager) in
      Session_broadcast (OnDependencyInstalled result)
  | OnModelInitialized_lambda =>                               (* lines 161-163, 171-173 *)
      let+ Initialised := pipeline (gets ModelInitialised) in
      Session_broadcast (OnModelInitializedEx Initialised)
  | DisableLivePreviewForLayer_lambda =>                       (* lines 472-482 *)
      let+ Previewed := pipeline (gets PreviewedLayer) in
      match Previewed with
      | Some P =>
          let+ Preview := pipeline (gets LayerPreviewCapture) in
          let+ c := pipeline (GetCaptureComponent2D (SceneCapture Preview)) in
          pipeline (call (EndCaptureLayer (ProcessorId P) c))
      | None => Session_ret tt
      end;+
      let+ h := Session_gets OnLayerPreviewUpdateHandle in
      Remove FEditorDelegates_OnEditorCameraMoved h;+
      Session_modify (set_OnLayerPreviewUpdateHandle None);+
      let+ Preview := pipeline (gets LayerPreviewCapture) in
      let+ a := pipeline (deref (SceneCapture Preview)) in
      pipeline (call (Destroy a));+
      pipeline (modify (set_LayerPreviewCapture (mkSceneCapture None (ViewportClient Preview))))
  end.

(** A lambda bound to a delegate runs; [Location], [Rotation] and the
    rest are what the broadcast carries, [Perspective] tells whether the
    captured source's [ProjectionType] is perspective at that moment. *)
Definition RunDelegateLambda (L : DelegateLambda) (CameraInfo : FEditorCameraLivePreview)
    (Perspective : bool) : SM unit :=
  match L with
  | LivePreview_TransformUpdated_lambda Delay Source =>
      LivePreview_moved Delay
        (mkCameraInfo (Location CameraInfo) (Rotation CameraInfo)
           (if Perspective then LVT_Perspective else LVT_OrthoFreelook) 0)
  | LivePreview_CameraMoved_lambda Delay =>
      LivePreview_moved Delay CameraInfo
  | LayerPreview_CameraMoved_lambda =>
      pipeline (let* Preview := gets LayerPreviewCapture in UpdateSceneCaptureCamera Preview)
  end.

Fixpoint Delegate_invoke (Bound : list FDelegateBinding) (CameraInfo : FEditorCameraLivePreview)
    (Perspective : bool) : SM unit :=
  match Bound with
  | [] => Session_ret tt
  | b :: rest =>
      RunDelegateLambda (Lambda b) CameraInfo Perspective;+
      Delegate_invoke rest CameraInfo Perspective
  end.

(** [Delegate.Broadcast(...)]: the lambdas bound to [D] run one after the
    other; the engine goes through its invocation list from the end. *)
Definition Delegate_Broadcast (D : Delegate) (CameraInfo : FEditorCameraLivePreview)
    (Perspective : bool) : SM unit :=
  let+ Bound := Session_gets Delegates in
  Delegate_invoke (rev (List.filter (fun b => bool_decide (BoundTo b = D)) Bound))
    CameraInfo Perspective.

(** The game thread and a background worker run their oldest lambda. *)
Definition Session_GameThread_tick : SM unit :=
  let+ Queue := Session_gets Session_GameThread in
  match Queue with
  | [] => Session_ret tt
  | t :: rest => Session_modify (set_Session_GameThread rest);+ RunSessionGameThreadTask t
  end.

Definition Session_Background_tick : SM unit :=
  let+ Queue := Session_gets Session_Background in
  match Queue with
  | [] => Session_ret tt
  | t :: rest => Session_modify (set_Session_Background rest);+ RunSessionBackgroundTask t
  end.

(** ** Sample sessions *)

Definition sample_bridge_session (Token : string) (ok : bool) : UStableDiffusionBridge_Session :=
  mkBridgeSession Token (fun token => negb (IsEmpty token)) (fun _ _ _ => ok).

Definition FVector_eqb (u v : FVector) : bool :=
  match u, v with
  | (ux, uy, uz), (vx, vy, vz) => (ux =? vx) && (uy =? vy) && (uz =? vz)
  end.

Definition ELevelViewportType_eqb (u v : ELevelViewportType) : bool :=
  match u, v with
  | LVT_OrthoXY, LVT_OrthoXY | LVT_OrthoXZ, LVT_OrthoXZ | LVT_OrthoYZ, LVT_OrthoYZ
  | LVT_Perspective, LVT_Perspective | LVT_OrthoFreelook, LVT_OrthoFreelook => true
  | _, _ => false
  end.

(** A comparison of camera poses, member by member. *)
Definition sample_equal (u v : FEditorCameraLivePreview) : bool :=
  FVector_eqb (Location u) (Location v) && FVector_eqb (Rotation u) (Rotation v)
  && ELevelViewportType_eqb (ViewportType u) (ViewportType v)
  && (ViewportIndex u =? ViewportIndex v).

Definition sample_pose (n : Z) : FEditorCameraLivePreview :=
  mkCameraInfo (n, 0, 0) (0, n, 0) LVT_Perspective 0.

(** Python knows one bridge class. *)
Definition sample_python (Name : string)
  : option (UStableDiffusionBridge * UStableDiffusionBridge_Session) :=
  if decide (Name = "DiffusersBridge"%string)
  then Some (echo_bridge true, sample_bridge_session "hf_token" true)
  else None.

Definition sample_classes : list UClass :=
  [["BrokenBridge"; "StableDiffusionBridge"; "Object"];
   ["DiffusersBridge"; "StableDiffusionBridge"; "Object"]]%string.

(** A session around the world [w]: Python not loaded yet, no dependency
    manager, no live preview, nothing queued. *)
Definition sample_session (w : World) : Session :=
  mkSession w false None None None (sample_pose 0) None
    (sample_bridge_session EmptyString false) []
    sample_equal (Some ["DiffusersBridge"; "StableDiffusionBridge"; "Object"]%string)
    sample_classes sample_python [] 1%nat [] [] [] [].


(** ** More vocabulary *)

(** What the capture lambda of [GenerateImage] borrows from the editor. *)
Definition editor_state (w : World) : bool * option UEditorEngine :=
  (GAreScreenMessagesEnabled w, GEditor w).

(** Between [w] and [w'] either no capture actor was spawned or destroyed,
    or one was spawned and that one destroyed. *)
Definition camera_balance (w w' : World) : Prop :=
  (SpawnedActors w' = SpawnedActors w /\ camera_calls w' = camera_calls w) \/
  (SpawnedActors w' = S (SpawnedActors w) /\
   camera_calls w' =
     camera_calls w ++ [SpawnActor_ASceneCapture2D (SpawnedActors w); Destroy (SpawnedActors w)]).

(** No world context of the list is an editor world or a play-in-editor
    world. *)
Definition no_editor_or_play_world (Contexts : list FWorldContext) : Prop :=
  Forall (fun Context => WorldType Context <> EWorldType_Editor /\
                         WorldType Context <> EWorldType_PIE) Contexts.

(** How many times the subsystem's [UpdateImageProgress] is bound. *)
Definition bound_to_subsystem (Bound : list DynamicBinding) : nat :=
  length (List.filter (fun b => bool_decide (b = Subsystem_UpdateImageProgress)) Bound).

(** The delegate a live preview of [Source] listens to, and its lambda. *)
Definition LivePreview_delegate (Source : option ComponentRef) : Delegate :=
  match Source with
  | Some c => TransformUpdated c
  | None => FEditorDelegates_OnEditorCameraMoved
  end.

Definition LivePreview_lambda (Delay : float_bits) (Source : option ComponentRef)
  : DelegateLambda :=
  match Source with
  | Some c => LivePreview_TransformUpdated_lambda Delay c
  | None => LivePreview_CameraMoved_lambda Delay
  end.

(** Every handle in use was handed out before. *)
Definition handles_are_fresh (s : Session) : Prop :=
  Forall (fun b => (Handle b < NextDelegateHandle s)%nat) (Delegates s).

(** The editor camera moves through [Poses], one broadcast of
    [OnEditorCameraMoved] each. *)
Fixpoint EditorCamera_moves (Poses : list FEditorCameraLivePreview) : SM unit :=
  match Poses with
  | [] => Session_ret tt
  | Pose :: rest =>
      Delegate_Broadcast FEditorDelegates_OnEditorCameraMoved Pose false;+
      EditorCamera_moves rest
  end.

(** The lambdas bound to the editor camera. *)
Definition OnEditorCameraMoved_lambdas (s : Session) : list DelegateLambda :=
  Lambda <$> List.filter (fun b => bool_decide (BoundTo b = FEditorDelegates_OnEditorCameraMoved))
               (Delegates s).

(** ** More samples *)

(** An editor with a level viewport and one play session whose viewport
    tab shows nothing, though the session has a window of its own. *)
Definition sample_play_session : FSlatePlayInEditorInfo :=
  mkPlayInEditorInfo (Some (mkAssetViewport None)) (Some (mkViewport (mkFIntPoint 640 480))).

Definition sample_engine : UEngine :=
  mkEngine true
    [mkWorldContext EWorldType_Editor "Context_0"; mkWorldContext EWorldType_PIE "Context_1";
     mkWorldContext EWorldType_Inactive "Context_2"]
    true (Some (mkAssetViewport (Some sample_viewport)))
    (Some {[ "Context_1"%string := sample_play_session ]})
    None.

(** A commandlet: the editor's globals are set, no world is an editor or a
    play world. *)
Definition headless_engine : UEngine :=
  mkEngine true [mkWorldContext EWorldType_Inactive "Context_0"] false None (Some ∅) None.

Definition headless_world : World :=
  mkWorld (Some (echo_bridge true)) true [] false false None
    (mkSceneCapture None None) (mkSceneCapture None None) None
    true (Some (sample_editor [Some sample_client])) None 0%nat
    [] [] [] [].

(** A session whose bridge holds a token and loads every model. *)
Definition ready_session : Session :=
  set_GeneratorBridge_Session (sample_bridge_session "hf_token" true)
    (sample_session layered_world).

(** Half a second, as the bits of a [float]. *)
Definition half_a_second : float_bits := 1056964608.

(** The editor camera is watched for a live preview. *)
Definition watching_session : Session :=
  snd (SetLivePreviewEnabled true half_a_second None (sample_session idle_world)).

(** The depth layer is previewed through a camera of the subsystem's own. *)
Definition previewing_session : Session :=
  snd (SetLivePreviewForLayer (mkFIntPoint 2 2) sample_depth None
         (sample_session layered_world)).

(** * Properties *)

(** ** [CopyFrameData] *)

Section CopyFrameData_facts.

Implicit Types (Buffer : list FColor) (Storage : list (option FColor)).

Lemma int32_small z : - 2 ^ 31 <= z < 2 ^ 31 -> int32 z = z.
Proof. intros H. unfold int32. rewrite Z.mod_small; lia. Qed.

Lemma InsertUninitialized_empty Count :
  0 <= Count -> InsertUninitialized [] 0 Count = Done (replicate (Z.to_nat Count) None).
Proof.
  intros H. unfold InsertUninitialized.
  destruct (Z.ltb_spec Count 0); [lia|]. cbn. rewrite app_nil_r. reflexivity.
Qed.

Lemma ElementAddress_first Storage :
  (0 < length Storage)%nat -> ElementAddress Storage 0 = Done 0.
Proof.
  intros H. unfold ElementAddress.
  destruct (Z.ltb_spec 0 (Z.of_nat (length Storage))); [reflexivity|lia].
Qed.

Lemma source_row_length Buffer Start Stride Width Row :
  (Start + Row * Stride + Width <= length Buffer)%nat ->
  length (source_row Buffer Start Stride Width Row) = Width.
Proof.
  intros H. unfold source_row. rewrite length_fmap, length_take, length_drop. lia.
Qed.

(** One in-range [Memcpy] replaces [Width] cells at [Dest] by source cells. *)
Lemma Memcpy_row Storage Dest Buffer Src Width :
  (Src + Width <= length Buffer)%nat ->
  (Dest + Width <= length Storage)%nat ->
  Memcpy Storage (Z.of_nat Dest) Buffer (Z.of_nat Src) (Z.of_nat Width) =
    Done (take Dest Storage ++ source_row Buffer Src 0 Width 0 ++ drop (Dest + Width) Storage).
Proof.
  intros HS HD. unfold Memcpy, source_row.
  destruct (Z.ltb_spec (Z.of_nat Width) 0); [lia|].
  replace (Src + 0 * 0)%nat with Src by lia.
  destruct (Z.eqb_spec (Z.of_nat Width) 0) as [H0|H0].
  - assert (Width = 0%nat) as -> by lia.
    rewrite Nat.add_0_r, take_0, fmap_nil, app_nil_l, take_drop. reflexivity.
  - destruct (Z.leb_spec 0 (Z.of_nat Src)); [|lia].
    destruct (Z.leb_spec (Z.of_nat Src + Z.of_nat Width) (Z.of_nat (length Buffer))); [|lia].
    destruct (Z.leb_spec 0 (Z.of_nat Dest)); [|lia].
    destruct (Z.leb_spec (Z.of_nat Dest + Z.of_nat Width) (Z.of_nat (length Storage))); [|lia].
    cbn. rewrite <- Nat2Z.inj_add, !Nat2Z.id. reflexivity.
Qed.

Lemma Memcpy_length Storage Dest Buffer Src Count Storage' :
  Memcpy Storage Dest Buffer Src Count = Done Storage' ->
  length Storage' = length Storage.
Proof.
  unfold Memcpy. destruct (Z.ltb_spec Count 0); [discriminate|].
  destruct (Z.eqb_spec Count 0); [congruence|].
  destruct (Z.leb_spec 0 Src); cbn [andb]; [|discriminate].
  destruct (Z.leb_spec (Src + Count) (Z.of_nat (length Buffer))); cbn [andb]; [|discriminate].
  destruct (Z.leb_spec 0 Dest); cbn [andb]; [|discriminate].
  destruct (Z.leb_spec (Dest + Count) (Z.of_nat (length Storage))); [|discriminate].
  intros [= <-].
  rewrite !length_app, length_fmap, !length_take, !length_drop. lia.
Qed.

Lemma CopyFrameData_rows_length Rows MaxWidth BufferSizeX Buffer :
  forall ColorBuffer Dest CopiedFrame out,
  CopyFrameData_rows Rows MaxWidth BufferSizeX Buffer ColorBuffer Dest CopiedFrame = Done out ->
  length out = length CopiedFrame.
Proof.
  induction Rows as [|Rows IH]; intros ColorBuffer Dest CopiedFrame out; cbn.
  - congruence.
  - destruct (Memcpy CopiedFrame Dest Buffer ColorBuffer MaxWidth) as [CopiedFrame'|] eqn:HM;
      cbn; [|discriminate].
    intros Hrest. rewrite (IH _ _ _ _ Hrest). eapply Memcpy_length. exact HM.
Qed.

Lemma packed_rows_S Buffer Start Stride Width Rows :
  packed_rows Buffer Start Stride Width (S Rows) =
    source_row Buffer Start 0 Width 0 ++ packed_rows Buffer (Start + Stride) Stride Width Rows.
Proof.
  unfold packed_rows. cbn [seq fmap list_fmap concat]. f_equal.
  rewrite <- fmap_S_seq, <- list_fmap_compose. f_equal.
  apply list_fmap_ext. intros _ r _. unfold compose, source_row.
  replace (Start + S r * Stride)%nat with (Start + Stride + r * Stride)%nat
    by (cbn [Nat.mul]; lia).
  reflexivity.
Qed.

Lemma packed_rows_length Buffer Start Stride Width Rows :
  (Width <= Stride)%nat ->
  (Start + Rows * Stride <= length Buffer)%nat ->
  length (packed_rows Buffer Start Stride Width Rows) = (Rows * Width)%nat.
Proof.
  intros HW. revert Start. induction Rows as [|Rows IH]; intros Start HS; [reflexivity|].
  cbn [Nat.mul] in HS. rewrite packed_rows_S, length_app, IH by lia.
  rewrite source_row_length by lia. reflexivity.
Qed.

(** Cell [c] of packed row [r] is the source pixel of row [r], column [c]. *)
Lemma packed_rows_lookup Buffer Stride Width Rows :
  (Width <= Stride)%nat ->
  forall Start r c,
  (Start + Rows * Stride <= length Buffer)%nat ->
  (r < Rows)%nat -> (c < Width)%nat ->
  packed_rows Buffer Start Stride Width Rows !! (r * Width + c)%nat =
    Some (Buffer !! (Start + r * Stride + c)%nat).
Proof.
  intros HW. induction Rows as [|Rows IH]; intros Start r c HS Hr Hc; [lia|].
  cbn [Nat.mul] in HS. rewrite packed_rows_S.
  assert (length (source_row Buffer Start 0 Width 0) = Width) as Hrow
    by (apply source_row_length; lia).
  destruct r as [|r].
  - rewrite lookup_app_l by (rewrite Hrow; lia).
    unfold source_row. cbn [Nat.mul Nat.add]. rewrite !Nat.add_0_r.
    rewrite list_lookup_fmap, lookup_take_lt, lookup_drop by lia.
    destruct (Buffer !! (Start + c)%nat) eqn:E; [reflexivity|].
    apply lookup_ge_None in E. lia.
  - rewrite lookup_app_r by (rewrite Hrow; cbn [Nat.mul]; lia).
    rewrite Hrow. replace (S r * Width + c - Width)%nat with (r * Width + c)%nat
      by (cbn [Nat.mul]; lia).
    rewrite IH by lia. do 2 f_equal. cbn [Nat.mul]. lia.
Qed.

(** The row loop on in-range pointers: the rows land end to end from [Dest],
    whatever the row pitch of the destination is meant to be. *)
Lemma CopyFrameData_rows_packed Buffer Stride Width Rows :
  (Width <= Stride)%nat ->
  forall Src Dest Storage,
  (Src + Rows * Stride <= length Buffer)%nat ->
  (Dest + Rows * Width <= length Storage)%nat ->
  CopyFrameData_rows Rows (Z.of_nat Width) (Z.of_nat Stride) Buffer
    (Z.of_nat Src) (Z.of_nat Dest) Storage =
    Done (take Dest Storage ++ packed_rows Buffer Src Stride Width Rows
          ++ drop (Dest + Rows * Width) Storage).
Proof.
  intros HW. induction Rows as [|Rows IH]; intros Src Dest Storage HS HD.
  - cbn. rewrite Nat.add_0_r, take_drop. reflexivity.
  - cbn [Nat.mul] in HS, HD. cbn [CopyFrameData_rows].
    rewrite Memcpy_row by lia. cbn [Outcome_bind].
    assert (length (source_row Buffer Src 0 Width 0) = Width) as Hrow
      by (apply source_row_length; lia).
    assert (length (take Dest Storage) = Dest) as Htake by (rewrite length_take; lia).
    rewrite <- !Nat2Z.inj_add, IH.
    + rewrite packed_rows_S. f_equal.
      rewrite (app_assoc (take Dest Storage)).
      rewrite take_app_length' by (rewrite length_app; lia).
      rewrite drop_app_ge by (rewrite length_app; lia).
      rewrite length_app, Htake, Hrow, drop_drop, <- !app_assoc.
      do 4 f_equal. cbn [Nat.mul]. lia.
    + lia.
    + rewrite !length_app, Htake, Hrow, length_drop. lia.
Qed.

(** [CopyFrameData] in closed form, for sizes a viewport can have and a
    source buffer as large as [BufferSize] says. *)
Lemma CopyFrameData_packed (TargetSize BufferSize : FIntPoint) (ColorBuffer : list FColor) :
  0 < X TargetSize -> 0 < Y TargetSize -> X TargetSize * Y TargetSize < 2 ^ 31 ->
  0 <= X BufferSize -> 0 <= Y BufferSize ->
  X BufferSize * Y BufferSize <= Z.of_nat (length ColorBuffer) ->
  CopyFrameData TargetSize BufferSize ColorBuffer =
    Done (packed_rows ColorBuffer 0 (Z.to_nat (X BufferSize))
            (Z.to_nat (Z.min (X TargetSize) (X BufferSize)))
            (Z.to_nat (Z.min (Y TargetSize) (Y BufferSize)))
          ++ replicate (Z.to_nat (X TargetSize * Y TargetSize)
                        - Z.to_nat (Z.min (Y TargetSize) (Y BufferSize))
                          * Z.to_nat (Z.min (X TargetSize) (X BufferSize))) None).
Proof.
  destruct TargetSize as [TX TY], BufferSize as [BX BY]. cbn [X Y].
  intros HTX HTY H31 HBX HBY Hlen.
  unfold CopyFrameData. cbn [X Y]. rewrite int32_small by lia.
  rewrite InsertUninitialized_empty by lia. cbn [Outcome_bind].
  rewrite ElementAddress_first by (rewrite length_replicate; lia). cbn [Outcome_bind].
  set (W := Z.to_nat (Z.min TX BX)). set (H := Z.to_nat (Z.min TY BY)).
  replace (Z.min TX BX) with (Z.of_nat W) by (subst W; lia).
  replace BX with (Z.of_nat (Z.to_nat BX)) at 1 by lia.
  change 0 with (Z.of_nat 0).
  rewrite CopyFrameData_rows_packed.
  - cbn [take Nat.add app]. rewrite drop_replicate. reflexivity.
  - subst W. lia.
  - subst H. cbn [Nat.add]. nia.
  - rewrite length_replicate. subst W H. cbn [Nat.add]. nia.
Qed.

End CopyFrameData_facts.

(** C4, at a source narrower than the target.  The claim puts source pixel
    (r, c) at destination position (r, c) and leaves everything outside the
    overlap alone.  The loop advances [Dest] by the clamped width and not by
    the target's width, so whenever the source is narrower than the target
    and two rows are copied, source pixel (1, 0) lands in cell [BufferSize.X]
    of the buffer, which is position (0, [BufferSize.X]) of the destination,
    a column outside the overlap; the claim wants it in cell [TargetSize.X],
    position (1, 0). *)
Theorem C4_narrow_source_rows_are_packed
    (TargetSize BufferSize : FIntPoint) (ColorBuffer : list FColor) :
  0 < X BufferSize < X TargetSize ->
  2 <= Y TargetSize -> 2 <= Y BufferSize ->
  X TargetSize * Y TargetSize < 2 ^ 31 ->
  X BufferSize * Y BufferSize <= Z.of_nat (length ColorBuffer) ->
  exists CopiedFrame pixel,
    CopyFrameData TargetSize BufferSize ColorBuffer = Done CopiedFrame /\
    ColorBuffer !! (1 * Z.to_nat (X BufferSize) + 0)%nat = Some pixel /\
    CopiedFrame !! (0 * Z.to_nat (X TargetSize) + Z.to_nat (X BufferSize))%nat
      = Some (Some pixel).
Proof.
  intros HX HTY HBY H31 Hlen.
  destruct (ColorBuffer !! (1 * Z.to_nat (X BufferSize) + 0)%nat) as [pixel|] eqn:Hpixel.
  2: { apply lookup_ge_None in Hpixel. nia. }
  eexists. exists pixel. split; [apply CopyFrameData_packed; lia|]. split; [reflexivity|].
  replace (Z.min (X TargetSize) (X BufferSize)) with (X BufferSize) by lia.
  set (W := Z.to_nat (X BufferSize)) in *.
  set (H := Z.to_nat (Z.min (Y TargetSize) (Y BufferSize))).
  assert (length (packed_rows ColorBuffer 0 W W H) = (H * W)%nat) as HP
    by (apply packed_rows_length; subst W H; cbn [Nat.add]; nia).
  rewrite lookup_app_l by (rewrite HP; subst W H; nia).
  replace (0 * Z.to_nat (X TargetSize) + W)%nat with (1 * W + 0)%nat by lia.
  rewrite packed_rows_lookup; [|subst W H; cbn [Nat.add]; nia..].
  cbn [Nat.add]. rewrite Hpixel. reflexivity.
Qed.

Lemma C4_narrow_source_witness :
  CopyFrameData (mkFIntPoint 4 2) (mkFIntPoint 2 2) [grey 0; grey 1; grey 2; grey 3] =
    Done [Some (grey 0); Some (grey 1); Some (grey 2); Some (grey 3);
          None; None; None; None] /\
  exists CopiedFrame pixel,
    CopyFrameData (mkFIntPoint 4 2) (mkFIntPoint 2 2) [grey 0; grey 1; grey 2; grey 3]
      = Done CopiedFrame /\
    [grey 0; grey 1; grey 2; grey 3] !! (1 * Z.to_nat 2 + 0)%nat = Some pixel /\
    CopiedFrame !! (0 * Z.to_nat 4 + Z.to_nat 2)%nat = Some (Some pixel).
Proof.
  split; [reflexivity|].
  apply (C4_narrow_source_rows_are_packed (mkFIntPoint 4 2) (mkFIntPoint 2 2)
           [grey 0; grey 1; grey 2; grey 3]); cbn; lia.
Defined.

(** C9, at a target of zero area.  The claim expects an empty buffer and no
    failure.  The code allocates zero cells and then takes the address of
    cell 0 of the empty array, which fails the array's range check. *)
Theorem C9_zero_area_target_fails_range_check
    (TargetSize BufferSize : FIntPoint) (ColorBuffer : list FColor) :
  X TargetSize * Y TargetSize = 0 ->
  CopyFrameData TargetSize BufferSize ColorBuffer = Crash ArrayIndexOutOfBounds.
Proof. intros H. unfold CopyFrameData. rewrite H. reflexivity. Qed.

Lemma C9_zero_area_target_witness :
  X (mkFIntPoint 0 1080) * Y (mkFIntPoint 0 1080) = 0 /\
  CopyFrameData (mkFIntPoint 0 1080) (mkFIntPoint 3 2) sample_frame =
    Crash ArrayIndexOutOfBounds.
Proof.
  split; [reflexivity|].
  apply (C9_zero_area_target_fails_range_check (mkFIntPoint 0 1080)). reflexivity.
Defined.

(** Whenever [CopyFrameData] returns, the buffer it returns has exactly
    [TargetSize.X * TargetSize.Y] cells (the product as the [int32] the code
    computes), and that number is positive. *)
Theorem CopyFrameData_length (TargetSize BufferSize : FIntPoint) (ColorBuffer : list FColor)
    (CopiedFrame : TArray_FColor) :
  CopyFrameData TargetSize BufferSize ColorBuffer = Done CopiedFrame ->
  0 < int32 (X TargetSize * Y TargetSize) /\
  Z.of_nat (length CopiedFrame) = int32 (X TargetSize * Y TargetSize).
Proof.
  unfold CopyFrameData. set (Count := int32 (X TargetSize * Y TargetSize)).
  destruct (Z.ltb_spec Count 0) as [Hneg|Hnn].
  - unfold InsertUninitialized. destruct (Z.ltb_spec Count 0); [discriminate|lia].
  - rewrite InsertUninitialized_empty by exact Hnn. cbn [Outcome_bind].
    unfold ElementAddress. rewrite length_replicate, Z2Nat.id by exact Hnn.
    destruct (Z.ltb_spec 0 Count) as [Hpos|]; cbn [Z.leb Z.compare andb Outcome_bind];
      [|discriminate].
    intros Hrows. apply CopyFrameData_rows_length in Hrows.
    rewrite Hrows, length_replicate, Z2Nat.id by exact Hnn. split; [exact Hpos|reflexivity].
Qed.

Lemma CopyFrameData_length_witness :
  CopyFrameData (mkFIntPoint 2 2) (mkFIntPoint 3 2) sample_frame =
    Done [Some (grey 0); Some (grey 1); Some (grey 3); Some (grey 4)] /\
  0 < int32 (2 * 2) /\
  Z.of_nat (length [Some (grey 0); Some (grey 1); Some (grey 3); Some (grey 4)]) = int32 (2 * 2).
Proof.
  split; [reflexivity|].
  apply (CopyFrameData_length (mkFIntPoint 2 2) (mkFIntPoint 3 2) sample_frame). reflexivity.
Defined.

(** For positive target sizes whose product fits an [int32] and a source
    buffer that holds [BufferSize.X * BufferSize.Y] pixels, [CopyFrameData]
    returns; source pixel (r, c) of the overlap is cell
    [r * min(TargetSize.X, BufferSize.X) + c] of the result, no source pixel
    outside the overlap is in the result, and the cells after the last
    copied row are unwritten.  When the source is at least as wide as the
    target the cell is [r * TargetSize.X + c], position (r, c). *)
Theorem CopyFrameData_overlap (TargetSize BufferSize : FIntPoint) (ColorBuffer : list FColor) :
  0 < X TargetSize -> 0 < Y TargetSize -> X TargetSize * Y TargetSize < 2 ^ 31 ->
  0 <= X BufferSize -> 0 <= Y BufferSize ->
  X BufferSize * Y BufferSize <= Z.of_nat (length ColorBuffer) ->
  exists CopiedFrame,
    CopyFrameData TargetSize BufferSize ColorBuffer = Done CopiedFrame /\
    (forall r c : nat,
        Z.of_nat r < Z.min (Y TargetSize) (Y BufferSize) ->
        Z.of_nat c < Z.min (X TargetSize) (X BufferSize) ->
        CopiedFrame !! (r * Z.to_nat (Z.min (X TargetSize) (X BufferSize)) + c)%nat =
          Some (ColorBuffer !! (r * Z.to_nat (X BufferSize) + c)%nat)) /\
    (forall i : nat,
        Z.min (Y TargetSize) (Y BufferSize) * Z.min (X TargetSize) (X BufferSize) <= Z.of_nat i ->
        Z.of_nat i < X TargetSize * Y TargetSize ->
        CopiedFrame !! i = Some None).
Proof.
  intros HTX HTY H31 HBX HBY Hlen. eexists. split; [apply CopyFrameData_packed; assumption|].
  set (W := Z.to_nat (Z.min (X TargetSize) (X BufferSize))).
  set (H := Z.to_nat (Z.min (Y TargetSize) (Y BufferSize))).
  assert (length (packed_rows ColorBuffer 0 (Z.to_nat (X BufferSize)) W H) = (H * W)%nat) as HP
    by (apply packed_rows_length; subst W H; cbn [Nat.add]; nia).
  split.
  - intros r c Hr Hc. rewrite lookup_app_l by (rewrite HP; subst W H; nia).
    rewrite packed_rows_lookup; [reflexivity| | | |]; subst W H; cbn [Nat.add]; nia.
  - intros i Hlo Hhi. rewrite lookup_app_r by (rewrite HP; subst W H; nia).
    rewrite HP. apply lookup_replicate_2. subst W H. nia.
Qed.

Lemma CopyFrameData_overlap_witness :
  exists CopiedFrame,
    CopyFrameData (mkFIntPoint 2 2) (mkFIntPoint 3 2) sample_frame = Done CopiedFrame /\
    (forall r c : nat,
        Z.of_nat r < Z.min 2 2 -> Z.of_nat c < Z.min 2 3 ->
        CopiedFrame !! (r * Z.to_nat (Z.min 2 3) + c)%nat =
          Some (sample_frame !! (r * Z.to_nat 3 + c)%nat)) /\
    (forall i : nat,
        Z.min 2 2 * Z.min 2 3 <= Z.of_nat i -> Z.of_nat i < 2 * 2 ->
        CopiedFrame !! i = Some None).
Proof.
  apply (CopyFrameData_overlap (mkFIntPoint 2 2) (mkFIntPoint 3 2) sample_frame);
    cbn; lia.
Defined.

Lemma packed_rows_ext (Buffer1 Buffer2 : list FColor) (Stride Width Rows : nat) :
  (Width <= Stride)%nat ->
  (Rows * Stride <= length Buffer1)%nat ->
  (Rows * Stride <= length Buffer2)%nat ->
  (forall r c, (r < Rows)%nat -> (c < Width)%nat ->
     Buffer1 !! (r * Stride + c)%nat = Buffer2 !! (r * Stride + c)%nat) ->
  packed_rows Buffer1 0 Stride Width Rows = packed_rows Buffer2 0 Stride Width Rows.
Proof.
  intros HW H1 H2 Hagree. apply list_eq. intros i.
  assert (length (packed_rows Buffer1 0 Stride Width Rows) = (Rows * Width)%nat) as HL1
    by (apply packed_rows_length; [exact HW|exact H1]).
  assert (length (packed_rows Buffer2 0 Stride Width Rows) = (Rows * Width)%nat) as HL2
    by (apply packed_rows_length; [exact HW|exact H2]).
  destruct (Nat.lt_ge_cases i (Rows * Width)) as [Hi|Hi].
  - assert (0 < Width)%nat as Hpos by (destruct Width; lia).
    pose proof (Nat.div_mod_eq i Width) as Hdm.
    pose proof (Nat.mod_upper_bound i Width ltac:(lia)) as Hc.
    assert (i / Width < Rows)%nat as Hr
      by (apply Nat.Div0.div_lt_upper_bound; lia).
    replace i with ((i / Width) * Width + i mod Width)%nat at 1 2 by lia.
    rewrite !packed_rows_lookup by (cbn [Nat.add]; lia).
    cbn [Nat.add]. rewrite Hagree by lia. reflexivity.
  - rewrite !(proj2 (lookup_ge_None _ _)) by lia. reflexivity.
Qed.

(** [CopyFrameData] reads no source pixel outside the overlap: two source
    buffers that agree on the pixels (r, c) with r below both heights and c
    below both widths give the same result. *)
Theorem CopyFrameData_reads_only_the_overlap
    (TargetSize BufferSize : FIntPoint) (Buffer1 Buffer2 : list FColor) :
  0 < X TargetSize -> 0 < Y TargetSize -> X TargetSize * Y TargetSize < 2 ^ 31 ->
  0 <= X BufferSize -> 0 <= Y BufferSize ->
  X BufferSize * Y BufferSize <= Z.of_nat (length Buffer1) ->
  X BufferSize * Y BufferSize <= Z.of_nat (length Buffer2) ->
  (forall r c : nat,
      Z.of_nat r < Z.min (Y TargetSize) (Y BufferSize) ->
      Z.of_nat c < Z.min (X TargetSize) (X BufferSize) ->
      Buffer1 !! (r * Z.to_nat (X BufferSize) + c)%nat =
      Buffer2 !! (r * Z.to_nat (X BufferSize) + c)%nat) ->
  CopyFrameData TargetSize BufferSize Buffer1 = CopyFrameData TargetSize BufferSize Buffer2.
Proof.
  intros HTX HTY H31 HBX HBY Hlen1 Hlen2 Hagree.
  rewrite !CopyFrameData_packed by assumption. do 2 f_equal.
  apply packed_rows_ext; try nia.
  intros r c Hr Hc. apply Hagree; lia.
Qed.

Lemma CopyFrameData_reads_only_the_overlap_witness :
  CopyFrameData (mkFIntPoint 2 2) (mkFIntPoint 3 2) sample_frame =
  CopyFrameData (mkFIntPoint 2 2) (mkFIntPoint 3 2)
    [grey 0; grey 1; grey 99; grey 3; grey 4; grey 77].
Proof.
  apply (CopyFrameData_reads_only_the_overlap (mkFIntPoint 2 2) (mkFIntPoint 3 2));
    try (cbn; lia).
  intros r c Hr Hc. cbn in Hr, Hc.
  destruct r as [|[|r]]; [| |lia]; (destruct c as [|[|c]]; [| |lia]); reflexivity.
Defined.

(** ** Running monadic code *)

Lemma bind_done {A B : Type} (m : M A) (k : A -> M B) (w : World) (a : A) (w' : World) :
  m w = (Done a, w') -> bind m k w = k a w'.
Proof. intros H. unfold bind. rewrite H. reflexivity. Qed.

Lemma bind_assoc {A B C : Type} (m : M A) (k1 : A -> M B) (k2 : B -> M C) (w : World) :
  bind (bind m k1) k2 w = bind m (fun a => bind (k1 a) k2) w.
Proof. unfold bind. destruct (m w) as [[a|why] w']; reflexivity. Qed.

Lemma set_Calls_same (w : World) : set_Calls (Calls w) w = w.
Proof. destruct w; reflexivity. Qed.

Lemma set_Calls_nil (w : World) : set_Calls (Calls w ++ []) w = w.
Proof. rewrite app_nil_r. apply set_Calls_same. Qed.

Lemma set_Calls_twice (u v : list Call) (w : World) :
  set_Calls v (set_Calls u w) = set_Calls v w.
Proof. reflexivity. Qed.

Lemma set_bIsGenerating_same (w : World) : set_bIsGenerating (bIsGenerating w) w = w.
Proof. destruct w; reflexivity. Qed.

(** Name the members of a world and compute with them. *)
Ltac open_world w :=
  destruct w as [bridge initialised layers generating upsampling grabber current
                 preview previewed messages editor viewport spawned game_thread
                 background calls broadcasts];
  cbn in *; subst.

(** ** What a computation leaves alone *)

Section Preservation.

Context {T : Type} (I : World -> T).

Lemma preserves_ret {A : Type} (a : A) : preserves I (ret a).
Proof. intros w. reflexivity. Qed.

Lemma preserves_crash {A : Type} (why : Fault) : preserves I (@crash A why).
Proof. intros w. reflexivity. Qed.

Lemma preserves_gets {A : Type} (f : World -> A) : preserves I (gets f).
Proof. intros w. reflexivity. Qed.

Lemma preserves_lift {A : Type} (o : Outcome A) : preserves I (lift o).
Proof. destruct o; intros w; reflexivity. Qed.

Lemma preserves_deref {A : Type} (p : option A) : preserves I (deref p).
Proof. destruct p; intros w; reflexivity. Qed.

Lemma preserves_deref_shared {A : Type} (p : option A) : preserves I (deref_shared p).
Proof. destruct p; intros w; reflexivity. Qed.

Lemma preserves_modify (f : World -> World) :
  (forall w, I (f w) = I w) -> preserves I (modify f).
Proof. intros H w. apply H. Qed.

Lemma preserves_bind {A B : Type} (m : M A) (k : A -> M B) :
  preserves I m -> (forall a, preserves I (k a)) -> preserves I (bind m k).
Proof.
  intros Hm Hk w. unfold bind. specialize (Hm w).
  destruct (m w) as [[a|why] w1]; cbn in *.
  - rewrite Hk. exact Hm.
  - exact Hm.
Qed.

End Preservation.

Ltac preserve_step :=
  first
    [ apply preserves_ret | apply preserves_crash | apply preserves_gets
    | apply preserves_lift | apply preserves_deref | apply preserves_deref_shared
    | apply preserves_bind; [|intros ?]
    | apply preserves_modify; intros ?; reflexivity
    | match goal with
      | |- preserves _ (match ?x with _ => _ end) => destruct x
      end ].

(** ** Cameras and the scene capture path with an explicit source *)

Lemma cameras_call (c : Call) : is_camera_call c = false -> preserves cameras (call c).
Proof.
  intros Hc w. unfold cameras, camera_calls. cbn.
  rewrite List.filter_app. cbn. rewrite Hc, app_nil_r. reflexivity.
Qed.

Ltac cameras_step :=
  first [ preserve_step | apply cameras_call; reflexivity ].

Lemma cameras_ProcessLayer (P : ULayerProcessorBase) :
  preserves cameras (ULayerProcessorBase_ProcessLayer P).
Proof. unfold ULayerProcessorBase_ProcessLayer. repeat cameras_step. Qed.

Lemma cameras_scene_layers (Layers : list FLayerData) (Size : FIntPoint) (c : ComponentRef) :
  forall Processed,
  preserves cameras (CaptureFromSceneCaptureSource_layers Layers Size c Processed).
Proof.
  induction Layers as [|Layer rest IH]; intros Processed;
    cbn [CaptureFromSceneCaptureSource_layers].
  - apply preserves_ret.
  - repeat first [ apply cameras_ProcessLayer | apply IH | cameras_step ].
Qed.

Lemma cameras_StartImageGeneration (Input : FStableDiffusionInput) :
  preserves cameras (StartImageGeneration Input).
Proof. unfold StartImageGeneration, AsyncTask_AnyBackgroundHiPriTask. repeat cameras_step. Qed.

Lemma cameras_scene_source (Input : FStableDiffusionInput) (Source : USceneCaptureComponent2D) :
  CaptureSource Input = Some Source ->
  preserves cameras (CaptureFromSceneCaptureSource Input).
Proof.
  intros HS. unfold CaptureFromSceneCaptureSource, GetCapturingViewport. rewrite HS.
  repeat first [ apply cameras_scene_layers | apply cameras_StartImageGeneration
               | cameras_step ].
Qed.

Lemma cameras_EditorSetGameView (ed : UEditorEngine) (b : bool) :
  preserves cameras (EditorSetGameView_ ed b).
Proof. unfold EditorSetGameView_. repeat cameras_step. Qed.

Lemma cameras_scene_lambda (Input : FStableDiffusionInput) (Source : USceneCaptureComponent2D) :
  CaptureSource Input = Some Source ->
  preserves cameras (RunGameThreadTask (GenerateImage_lambda Input SceneCapture2D)).
Proof.
  intros HS. cbn [RunGameThreadTask]. unfold GenerateImage_lambda_body.
  repeat first [ apply (cameras_scene_source _ _ HS) | apply cameras_EditorSetGameView
               | cameras_step ].
Qed.

Lemma cameras_GenerateImage (Input : FStableDiffusionInput) (ImageSourceType : EInputImageSource) :
  preserves cameras (GenerateImage Input ImageSourceType).
Proof. unfold GenerateImage, AsyncTask_GameThread. repeat cameras_step. Qed.

(** ** The layer loops *)

Lemma scene_layer_step (P : ULayerProcessorBase) (Layer : FLayerData) (rest : list FLayerData)
    (Size : FIntPoint) (c : ComponentRef) (Processed : list FLayerData) (w : World) :
  Processor Layer = Some P ->
  CaptureFromSceneCaptureSource_layers (Layer :: rest) Size c Processed w =
  CaptureFromSceneCaptureSource_layers rest Size c
    (Processed ++ [mkLayer (Some P)
       (ProcessLayer_pixels P (Calls w ++ [BeginCaptureLayer (ProcessorId P) Size c;
          CaptureLayer (ProcessorId P) c None; EndCaptureLayer (ProcessorId P) c]))])
    (set_Calls (Calls w ++ layer_calls P Size c) w).
Proof.
  intros HP. cbn. unfold bind at 1. rewrite HP. cbn.
  unfold layer_calls. rewrite <- !app_assoc. reflexivity.
Qed.

Lemma viewport_layer_step (P : ULayerProcessorBase) (Layer : FLayerData)
    (rest : list FLayerData) (Size : FIntPoint) (a : ActorId)
    (vc : option FLevelEditorViewportClient) (Processed : list FLayerData) (w : World) :
  Processor Layer = Some P ->
  CaptureFromViewportSource_layers (Layer :: rest) Size (mkSceneCapture (Some a) vc) Processed w =
  CaptureFromViewportSource_layers rest Size (mkSceneCapture (Some a) vc)
    (Processed ++ [mkLayer (Some P)
       (ProcessLayer_pixels P
          (Calls w ++ [BeginCaptureLayer (ProcessorId P) Size (ComponentOfActor a);
                       CaptureLayer (ProcessorId P) (ComponentOfActor a) None;
                       EndCaptureLayer (ProcessorId P) (ComponentOfActor a)]))])
    (set_Calls (Calls w ++ layer_calls P Size (ComponentOfActor a)) w).
Proof.
  intros HP. cbn. unfold bind at 1. rewrite HP. cbn.
  unfold layer_calls. rewrite <- !app_assoc. reflexivity.
Qed.

Lemma capture_calls_are_layer_calls (Layers : list FLayerData) (Size : FIntPoint)
    (c : ComponentRef) :
  Forall (fun x => is_layer_call x = true) (capture_calls Layers Size c).
Proof.
  induction Layers as [|Layer rest IH]; [constructor|].
  unfold capture_calls in *. cbn [flat_map]. apply Forall_app. split; [|exact IH].
  destruct (Processor Layer); repeat constructor.
Qed.

Lemma capture_calls_length (Layers : list FLayerData) (Size : FIntPoint) (c : ComponentRef) :
  Forall has_processor Layers ->
  length (capture_calls Layers Size c) = (4 * length Layers)%nat.
Proof.
  induction 1 as [|Layer rest [P HP] _ IH]; [reflexivity|].
  unfold capture_calls in *. cbn [flat_map]. rewrite HP, length_app, IH.
  cbn [length layer_calls]. lia.
Qed.

Lemma captured_layers_length (Layers : list FLayerData) (Size : FIntPoint) (c : ComponentRef) :
  Forall has_processor Layers ->
  forall History, length (captured_layers Layers Size c History) = length Layers.
Proof.
  induction 1 as [|Layer rest [P HP] _ IH]; intros History; [reflexivity|].
  cbn. rewrite HP. cbn. rewrite IH. reflexivity.
Qed.

(** The layer collected at position [k] was read back after the calls of the
    [k] layers before it and its own begin, capture and end. *)
Lemma captured_layers_lookup (Layers : list FLayerData) (Size : FIntPoint) (c : ComponentRef) :
  Forall has_processor Layers ->
  forall History k Layer P,
  Layers !! k = Some Layer -> Processor Layer = Some P ->
  captured_layers Layers Size c History !! k =
    Some (mkLayer (Some P)
            (ProcessLayer_pixels P
               (History ++ capture_calls (take k Layers) Size c ++ capture_of P Size c))).
Proof.
  induction 1 as [|First rest [P0 HP0] _ IH]; intros History k Layer P Hk HP.
  - rewrite lookup_nil in Hk. discriminate.
  - cbn [captured_layers]. rewrite HP0. destruct k as [|k]; cbn in Hk.
    + injection Hk as ->. rewrite HP in HP0. injection HP0 as ->. reflexivity.
    + cbn [lookup list_lookup]. rewrite (IH _ k Layer P Hk HP).
      unfold capture_calls. cbn [take flat_map]. rewrite HP0, <- !app_assoc. reflexivity.
Qed.



Lemma scene_layers_exact (Layers : list FLayerData) (Size : FIntPoint) (c : ComponentRef) :
  Forall has_processor Layers ->
  forall Processed w,
  CaptureFromSceneCaptureSource_layers Layers Size c Processed w =
    (Done (Processed ++ captured_layers Layers Size c (Calls w)),
     set_Calls (Calls w ++ capture_calls Layers Size c) w).
Proof.
  induction 1 as [|Layer rest [P HP] _ IH]; intros Processed w.
  - cbn. rewrite !app_nil_r, set_Calls_same. reflexivity.
  - rewrite (scene_layer_step P) by exact HP. rewrite IH.
    cbn [captured_layers capture_calls flat_map]. rewrite HP.
    rewrite set_Calls_twice. cbn [Calls set_Calls].
    rewrite <- !app_assoc. reflexivity.
Qed.

Lemma viewport_layers_exact (Layers : list FLayerData) (Size : FIntPoint) (a : ActorId)
    (vc : option FLevelEditorViewportClient) :
  Forall has_processor Layers ->
  forall Processed w,
  CaptureFromViewportSource_layers Layers Size (mkSceneCapture (Some a) vc) Processed w =
    (Done (Processed ++ captured_layers Layers Size (ComponentOfActor a) (Calls w)),
     set_Calls (Calls w ++ capture_calls Layers Size (ComponentOfActor a)) w).
Proof.
  induction 1 as [|Layer rest [P HP] _ IH]; intros Processed w.
  - cbn. rewrite !app_nil_r, set_Calls_same. reflexivity.
  - rewrite (viewport_layer_step P) by exact HP. rewrite IH.
    cbn [captured_layers capture_calls flat_map]. rewrite HP.
    rewrite set_Calls_twice. cbn [Calls set_Calls].
    rewrite <- !app_assoc. reflexivity.
Qed.

(** The four calls of the layer at position [k], where the loop makes them. *)
Lemma capture_calls_at (Layers : list FLayerData) (Size : FIntPoint) (c : ComponentRef) :
  Forall has_processor Layers ->
  forall k Layer P,
  Layers !! k = Some Layer -> Processor Layer = Some P ->
  take 4 (drop (4 * k) (capture_calls Layers Size c)) = layer_calls P Size c.
Proof.
  induction 1 as [|First rest [P0 HP0] _ IH]; intros k Layer P Hk HP.
  - rewrite lookup_nil in Hk. discriminate.
  - unfold capture_calls in *. cbn [flat_map]. rewrite HP0. destruct k as [|k]; cbn in Hk.
    + injection Hk as ->. rewrite HP in HP0. injection HP0 as ->. reflexivity.
    + replace (4 * S k)%nat with (4 + 4 * k)%nat by lia.
      cbn [layer_calls app Nat.add drop]. apply (IH k Layer P Hk HP).
Qed.

#[local] Arguments CaptureFromViewportSource_layers : simpl never.
#[local] Arguments CaptureFromSceneCaptureSource_layers : simpl never.
#[local] Arguments captured_layers : simpl never.
#[local] Arguments capture_calls : simpl never.

(** ** The scene capture path *)

Lemma scene_source_exact (Input : FStableDiffusionInput) (Source : USceneCaptureComponent2D)
    (SceneViewport : FSceneViewport) (w : World) :
  CaptureSource Input = Some Source ->
  CapturingViewport w = Some SceneViewport ->
  Forall has_processor (ModelOptions_Layers w) ->
  CaptureFromSceneCaptureSource Input w =
    (Done tt,
     set_AnyBackgroundHiPriTask
       (AnyBackgroundHiPriTask w ++
          [StartImageGeneration_lambda
             (mkInput (mkOptions (X (CaptureSize_of Source SceneViewport))
                                 (Y (CaptureSize_of Source SceneViewport)))
                (Some Source)
                (captured_layers (ModelOptions_Layers w) (CaptureSize_of Source SceneViewport)
                   (Component Source) (Calls w)))])
       (set_Calls
          (Calls w ++
           capture_calls (ModelOptions_Layers w) (CaptureSize_of Source SceneViewport)
             (Component Source)) w)).
Proof.
  intros HS HV HL.
  unfold CaptureFromSceneCaptureSource, GetCapturingViewport.
  rewrite HS. cbn. rewrite HV. cbn. fold (CaptureSize_of Source SceneViewport).
  erewrite bind_done by (apply scene_layers_exact; exact HL). cbn. reflexivity.
Qed.

(** C7.  A request of kind [SceneCapture2D] that brings its own capture
    source: accepting it and running its capture step on the game thread
    spawn no capture actor, destroy none and leave the subsystem's current
    camera alone, whatever happens.  With a capturing viewport and
    processors on all declared layers the step returns; the calls it made
    are, between the switch to game view and back, the begin, capture, end
    and process of every declared layer in order, each against the supplied
    source at its capture size; every layer of the request it dispatches
    holds what its processor read back after exactly the calls up to its own
    end of capture; and that request is the one dispatch to the background. *)
Theorem C7_explicit_capture_source_needs_no_camera
    (w : World) (Input : FStableDiffusionInput) (Source : USceneCaptureComponent2D) :
  CaptureSource Input = Some Source ->
  cameras (snd (GenerateImage Input SceneCapture2D w)) = cameras w /\
  cameras (snd (RunGameThreadTask (GenerateImage_lambda Input SceneCapture2D) w)) = cameras w /\
  (forall SceneViewport,
      CapturingViewport w = Some SceneViewport ->
      Forall has_processor (ModelOptions_Layers w) ->
      exists w' Processed,
        RunGameThreadTask (GenerateImage_lambda Input SceneCapture2D) w = (Done tt, w') /\
        Calls w' =
          Calls w ++ enter_game_view w ++
          capture_calls (ModelOptions_Layers w) (CaptureSize_of Source SceneViewport)
            (Component Source) ++
          leave_game_view w /\
        length Processed = length (ModelOptions_Layers w) /\
        (forall k Layer P,
            ModelOptions_Layers w !! k = Some Layer ->
            Processor Layer = Some P ->
            Processed !! k =
              Some (mkLayer (Some P)
                      (ProcessLayer_pixels P
                         (Calls w ++ enter_game_view w ++
                          capture_calls (take k (ModelOptions_Layers w))
                            (CaptureSize_of Source SceneViewport) (Component Source) ++
                          capture_of P (CaptureSize_of Source SceneViewport)
                            (Component Source))))) /\
        AnyBackgroundHiPriTask w' =
          AnyBackgroundHiPriTask w ++
            [StartImageGeneration_lambda
               (mkInput (mkOptions (X (CaptureSize_of Source SceneViewport))
                                   (Y (CaptureSize_of Source SceneViewport)))
                        (Some Source) Processed)]).
Proof.
  intros HS. split; [apply cameras_GenerateImage|].
  split; [apply cameras_scene_lambda with Source; exact HS|].
  intros SceneViewport HV HL. cbn [RunGameThreadTask].
  unfold GenerateImage_lambda_body, enter_game_view, leave_game_view, saved_game_view.
  cbn.
  destruct (GEditor w) as [[play [gv|] clients]|] eqn:HE; cbn;
    try destruct play; cbn.
  all: match goal with
       | |- context [bind (CaptureFromSceneCaptureSource ?I) _ ?w0] =>
           erewrite (bind_done (CaptureFromSceneCaptureSource I) _ w0)
             by (apply (scene_source_exact I Source SceneViewport w0 HS HV HL))
       end; cbn.
  all: eexists; eexists; split; [reflexivity|]; cbn.
  all: split; [rewrite <- ?app_assoc, ?app_nil_r; reflexivity|].
  all: split; [apply captured_layers_length; exact HL|].
  all: split; [|reflexivity].
  all: intros k Layer P Hk HP;
       rewrite (captured_layers_lookup _ _ _ HL _ k Layer P Hk HP);
       rewrite <- ?app_assoc, ?app_nil_r; reflexivity.
Qed.

Lemma C7_explicit_capture_source_witness :
  CaptureSource request_B = Some sample_source /\
  exists w',
    RunGameThreadTask (GenerateImage_lambda request_B SceneCapture2D) probed_world
      = (Done tt, w') /\
    cameras w' = cameras probed_world /\
    Calls w' =
      [EditorSetGameView true;
       BeginCaptureLayer 1 (mkFIntPoint 512 512) (ComponentOfCaller 7);
       CaptureLayer 1 (ComponentOfCaller 7) None;
       EndCaptureLayer 1 (ComponentOfCaller 7);
       ProcessLayer 1;
       BeginCaptureLayer 2 (mkFIntPoint 512 512) (ComponentOfCaller 7);
       CaptureLayer 2 (ComponentOfCaller 7) None;
       EndCaptureLayer 2 (ComponentOfCaller 7);
       ProcessLayer 2;
       BeginCaptureLayer 3 (mkFIntPoint 512 512) (ComponentOfCaller 7);
       CaptureLayer 3 (ComponentOfCaller 7) None;
       EndCaptureLayer 3 (ComponentOfCaller 7);
       ProcessLayer 3;
       EditorSetGameView false] /\
    AnyBackgroundHiPriTask w' =
      [StartImageGeneration_lambda
         (mkInput (mkOptions 512 512) (Some sample_source)
            [mkLayer (Some sample_final_color) [Some (grey 100)];
             mkLayer (Some sample_depth) [Some (grey 8)];
             mkLayer (Some sample_normal) [Some (mkFColor 512 512 (-7) 255)]])].
Proof.
  destruct (C7_explicit_capture_source_needs_no_camera probed_world request_B sample_source
              eq_refl) as (_ & Hcameras & Hrun).
  destruct (Hrun sample_viewport eq_refl) as (w' & Processed & Hw & Hcalls & Hlen & Hlayers & Hqueue).
  { repeat constructor; eexists; reflexivity. }
  split; [reflexivity|]. exists w'. split; [exact Hw|].
  split; [rewrite Hw in Hcameras; exact Hcameras|].
  split; [exact Hcalls|].
  pose proof (Hlayers 0%nat _ _ eq_refl eq_refl) as H0.
  pose proof (Hlayers 1%nat _ _ eq_refl eq_refl) as H1.
  pose proof (Hlayers 2%nat _ _ eq_refl eq_refl) as H2.
  destruct Processed as [|L0 [|L1 [|L2 [|L3 Processed]]]]; try discriminate Hlen.
  injection H0 as ->. injection H1 as ->. injection H2 as ->.
  exact Hqueue.
Defined.

(** ** The capture camera *)

Lemma CreateSceneCaptureCamera_found (w : World) (ed : UEditorEngine)
    (vc : FLevelEditorViewportClient) :
  GEditor w = Some ed ->
  FindPerspectiveViewportClient (GetLevelViewportClients ed) = Some vc ->
  CreateSceneCaptureCamera w =
    (Done (mkSceneCapture (Some (SpawnedActors w)) (Some vc)),
     set_SpawnedActors (S (SpawnedActors w))
       (set_Calls (Calls w ++ camera_setup_calls (SpawnedActors w) vc ++ preview_calls w) w)).
Proof.
  intros HE HF. unfold CreateSceneCaptureCamera, UpdateSceneCaptureCamera.
  unfold preview_calls. open_world w. unfold bind; cbn. rewrite HF. cbn.
  destruct previewed as [P|]; [destruct (SceneCapture preview)|];
    cbn; rewrite <- ?app_assoc; cbn; rewrite ?app_nil_r; reflexivity.
Qed.

Lemma CreateSceneCaptureCamera_none (w : World) (ed : UEditorEngine) :
  GEditor w = Some ed ->
  FindPerspectiveViewportClient (GetLevelViewportClients ed) = None ->
  CreateSceneCaptureCamera w = (Done (mkSceneCapture None None), w).
Proof.
  intros HE HF. unfold CreateSceneCaptureCamera. cbn. rewrite HE. cbn. rewrite HF. reflexivity.
Qed.

(** ** The viewport path *)

Lemma StartCapturingViewport_ok (w : World) (SceneViewport : FSceneViewport) :
  CapturingViewport w = Some SceneViewport ->
  StartCapturingViewport w =
    (Done tt,
     set_ViewportCapture (Some (mkGrabber (GetSizeXY SceneViewport) true None))
       (set_Calls (Calls w ++ [MakeShared_FFrameGrabber (GetSizeXY SceneViewport);
                               StartCapturingFrames]) w)).
Proof.
  intros HV. unfold StartCapturingViewport, GetCapturingViewport.
  open_world w. unfold bind; cbn.
  rewrite <- app_assoc. reflexivity.
Qed.

Lemma viewport_source_exact (Input : FStableDiffusionInput) (w : World)
    (SceneViewport : FSceneViewport) (ed : UEditorEngine) (vc : FLevelEditorViewportClient) :
  CapturingViewport w = Some SceneViewport ->
  GEditor w = Some ed ->
  FindPerspectiveViewportClient (GetLevelViewportClients ed) = Some vc ->
  ModelOptions_Layers w <> [] ->
  Forall has_processor (ModelOptions_Layers w) ->
  CaptureFromViewportSource Input w =
    (Done tt,
     set_ViewportCapture
       (Some (mkGrabber (GetSizeXY SceneViewport) true
                (Some (frame_request Input
                         (captured_layers (ModelOptions_Layers w) (GetSizeXY SceneViewport)
                            (ComponentOfActor (SpawnedActors w))
                            (Calls w ++ viewport_setup_calls w (GetSizeXY SceneViewport) vc))
                         (GetSizeXY SceneViewport)))))
       (set_SpawnedActors (S (SpawnedActors w))
          (set_Calls
             (Calls w ++ viewport_setup_calls w (GetSizeXY SceneViewport) vc ++
              capture_calls (ModelOptions_Layers w) (GetSizeXY SceneViewport)
                (ComponentOfActor (SpawnedActors w)) ++
              [Destroy (SpawnedActors w); CaptureThisFrame]) w))).
Proof.
  intros HV HE HF Hne HL.
  unfold CaptureFromViewportSource, GetCapturingViewport. cbn. rewrite HV. cbn.
  erewrite bind_done by (apply StartCapturingViewport_ok; exact HV).
  cbn. destruct (ModelOptions_Layers w) as [|Layer rest] eqn:Hlayers; [congruence|].
  cbn. rewrite bind_assoc.
  erewrite bind_done by (eapply CreateSceneCaptureCamera_found; cbn; eassumption).
  cbn. rewrite bind_assoc.
  erewrite bind_done by (apply viewport_layers_exact; exact HL).
  unfold viewport_setup_calls.
  open_world w. unfold bind. cbn. unfold frame_request. cbn.
  rewrite <- ?app_assoc. cbn. reflexivity.
Qed.

Lemma viewport_source_no_layers (Input : FStableDiffusionInput) (w : World)
    (SceneViewport : FSceneViewport) :
  CapturingViewport w = Some SceneViewport ->
  ModelOptions_Layers w = [] ->
  CaptureFromViewportSource Input w =
    (Done tt,
     set_ViewportCapture
       (Some (mkGrabber (GetSizeXY SceneViewport) true
                (Some (frame_request Input (ProcessedLayers Input) (GetSizeXY SceneViewport)))))
       (set_Calls
          (Calls w ++
           [MakeShared_FFrameGrabber (GetSizeXY SceneViewport); StartCapturingFrames;
            CaptureThisFrame]) w)).
Proof.
  intros HV HL. unfold CaptureFromViewportSource, StartCapturingViewport, GetCapturingViewport.
  open_world w. unfold bind. cbn. unfold frame_request.
  rewrite <- ?app_assoc. reflexivity.
Qed.

(** Frame delivery to a pending request that holds one lambda. *)
Lemma FrameReady_dispatches (w : World) (Size : FIntPoint) (L : FrameCaptureLambda)
    (Pixels : list FColor) (BufferSize TargetSize : FIntPoint)
    (CopiedFrame : TArray_FColor) (found : option nat) :
  ViewportCapture w = Some (mkGrabber Size true (Some (mkPayload [L]))) ->
  CopyFrameData TargetSize BufferSize Pixels = Done CopiedFrame ->
  FindByPredicate_IsFinalColor (ProcessedLayers (Captured_Input L)) = Done found ->
  FFrameGrabber_FrameReady Pixels BufferSize TargetSize w =
    (Done tt,
     set_AnyBackgroundHiPriTask
       (AnyBackgroundHiPriTask w ++
        [StartImageGeneration_lambda
           (mkInput (mkOptions (X (Captured_ViewportSize L)) (Y (Captured_ViewportSize L)))
              (CaptureSource (Captured_Input L))
              (with_copied_frame CopiedFrame (ProcessedLayers (Captured_Input L)) found))])
       (set_ViewportCapture (Some (mkGrabber Size false None))
          (set_Calls (Calls w ++ [StopCapturingFrames]) w))).
Proof.
  intros HG HC HF. unfold FFrameGrabber_FrameReady, OnFrameReady_RenderThread.
  open_world w. unfold bind. cbn. unfold OnFrameCapture_lambda, bind. cbn.
  rewrite HC. cbn. rewrite HF. cbn. reflexivity.
Qed.

(** ** Which layer takes the viewport frame *)


(** What [FindByPredicate] finds is the first final colour layer. *)
Lemma FindByPredicate_IsFinalColor_Some (Layers : list FLayerData) (i : nat) :
  FindByPredicate_IsFinalColor Layers = Done (Some i) ->
  (exists Layer, Layers !! i = Some Layer /\ is_final_color Layer = true) /\
  (forall j Layer, (j < i)%nat -> Layers !! j = Some Layer -> is_final_color Layer = false).
Proof.
  revert i. induction Layers as [|Layer rest IH]; intros i; cbn; [discriminate|].
  destruct (Processor Layer) as [P|] eqn:HP; [|discriminate].
  destruct (IsA_UFinalColorLayerProcessor P) eqn:HA.
  - intros [= <-]. split.
    + exists Layer. split; [reflexivity|]. unfold is_final_color. rewrite HP. exact HA.
    + intros j ? Hj. lia.
  - destruct (FindByPredicate_IsFinalColor rest) as [[i'|]|] eqn:HF; cbn; [|discriminate..].
    intros [= <-]. destruct (IH i' eq_refl) as [Hat Hbefore]. split.
    + exact Hat.
    + intros [|j] L Hj HL; cbn in HL.
      * injection HL as <-. unfold is_final_color. rewrite HP. exact HA.
      * apply (Hbefore j); [lia|exact HL].
Qed.

Lemma FindByPredicate_IsFinalColor_None (Layers : list FLayerData) :
  FindByPredicate_IsFinalColor Layers = Done None ->
  forall j Layer, Layers !! j = Some Layer -> is_final_color Layer = false.
Proof.
  induction Layers as [|Layer rest IH]; cbn; [intros _ j L; rewrite lookup_nil; discriminate|].
  destruct (Processor Layer) as [P|] eqn:HP; [|discriminate].
  destruct (IsA_UFinalColorLayerProcessor P) eqn:HA; [discriminate|].
  destruct (FindByPredicate_IsFinalColor rest) as [[i'|]|] eqn:HF; cbn;
    [discriminate| |discriminate].
  intros _ [|j] L HL; cbn in HL.
  - injection HL as <-. unfold is_final_color. rewrite HP. exact HA.
  - apply (IH eq_refl j). exact HL.
Qed.

Lemma with_copied_frame_length (CopiedFrame : TArray_FColor) (Layers : list FLayerData)
    (found : option nat) :
  length (with_copied_frame CopiedFrame Layers found) = length Layers.
Proof. destruct found; cbn; [apply length_alter|reflexivity]. Qed.

(** The first final colour layer leaves with the copied frame. *)
Lemma with_copied_frame_first (CopiedFrame : TArray_FColor) (Layers : list FLayerData)
    (found : option nat) (i : nat) (Layer : FLayerData) :
  FindByPredicate_IsFinalColor Layers = Done found ->
  Layers !! i = Some Layer ->
  is_final_color Layer = true ->
  (forall j Other, (j < i)%nat -> Layers !! j = Some Other -> is_final_color Other = false) ->
  with_copied_frame CopiedFrame Layers found !! i = Some (set_LayerPixels CopiedFrame Layer).
Proof.
  intros HF Hi Hfinal Hfirst. destruct found as [i'|].
  - destruct (FindByPredicate_IsFinalColor_Some _ _ HF) as [(L & Hi' & Hfinal') Hbefore].
    assert (i' = i) as ->.
    { destruct (Nat.lt_trichotomy i' i) as [Hlt|[Heq|Hgt]]; [|exact Heq|].
      - specialize (Hfirst _ _ Hlt Hi'). congruence.
      - specialize (Hbefore _ _ Hgt Hi). congruence. }
    cbn. rewrite list_lookup_alter_eq, Hi. reflexivity.
  - pose proof (FindByPredicate_IsFinalColor_None _ HF _ _ Hi). congruence.
Qed.

(** The first final colour layer leaves with the copied frame as its pixels
    and with its processor. *)
Lemma with_copied_frame_first_pixels (CopiedFrame : TArray_FColor) (Layers : list FLayerData)
    (found : option nat) (i : nat) (Layer : FLayerData) :
  FindByPredicate_IsFinalColor Layers = Done found ->
  Layers !! i = Some Layer ->
  is_final_color Layer = true ->
  (forall j Other, (j < i)%nat -> Layers !! j = Some Other -> is_final_color Other = false) ->
  exists Overwritten,
    with_copied_frame CopiedFrame Layers found !! i = Some Overwritten /\
    LayerPixels Overwritten = CopiedFrame /\
    Processor Overwritten = Processor Layer.
Proof.
  intros HF Hi Hfinal Hfirst. eexists. split.
  - eapply with_copied_frame_first; eassumption.
  - split; reflexivity.
Qed.

(** Every other layer passes through the frame lambda as it is. *)
Lemma with_copied_frame_elsewhere (CopiedFrame : TArray_FColor) (Layers : list FLayerData)
    (found : option nat) (j : nat) :
  found <> Some j ->
  with_copied_frame CopiedFrame Layers found !! j = Layers !! j.
Proof.
  intros Hj. destruct found as [i|]; [|reflexivity]. cbn.
  apply list_lookup_alter_ne. congruence.
Qed.

(** The layer [FindByPredicate] found is the first final colour layer. *)
Lemma with_copied_frame_found (CopiedFrame : TArray_FColor) (Layers : list FLayerData)
    (i : nat) :
  FindByPredicate_IsFinalColor Layers = Done (Some i) ->
  exists Layer Overwritten,
    Layers !! i = Some Layer /\ is_final_color Layer = true /\
    (forall j Other, (j < i)%nat -> Layers !! j = Some Other ->
                     is_final_color Other = false) /\
    with_copied_frame CopiedFrame Layers (Some i) !! i = Some Overwritten /\
    LayerPixels Overwritten = CopiedFrame /\
    Processor Overwritten = Processor Layer.
Proof.
  intros HF. destruct (FindByPredicate_IsFinalColor_Some _ _ HF) as [(Layer & Hi & Hfinal) Hbefore].
  destruct (with_copied_frame_first_pixels CopiedFrame Layers (Some i) i Layer HF Hi Hfinal Hbefore)
    as (Overwritten & Hat & Hpixels & Hproc).
  exists Layer, Overwritten. repeat split; assumption.
Qed.


(** Lists of calls that differ in how their appends are nested. *)
Ltac same_calls :=
  repeat (progress (rewrite <- ?app_assoc; cbn [app])); rewrite ?app_nil_r; reflexivity.

(** ** The claims about the viewport path *)




(** The scenario of the spec on a 2x2 viewport with a 3x2 back buffer: the
    request that reaches the background queue. *)
Example viewport_scenario :
  AnyBackgroundHiPriTask
    (snd (run [Ev_GenerateImage sample_input Viewport; Ev_GameThread;
               Ev_FrameReady sample_frame (mkFIntPoint 3 2) (mkFIntPoint 2 2)]
            layered_world)) =
  [StartImageGeneration_lambda
     (mkInput (mkOptions 2 2) None
        [mkLayer (Some sample_final_color)
           [Some (grey 0); Some (grey 1); Some (grey 3); Some (grey 4)];
         mkLayer (Some sample_depth) [Some (grey 15)]])].
Proof. reflexivity. Qed.

(** C6, amended.  A request of kind [Viewport] for a model that declares no
    layers, with a capturing viewport: its capture step returns without any
    call on a layer processor or a camera and without a dispatch, having set
    up the grabber and requested one frame.  Delivery of a frame whose copy
    succeeds, with [CopiedFrame] as the copy, where the search for a final
    colour layer among the caller's own [ProcessedLayers] returns [found],
    stops the grabber and dispatches exactly one generation stamped with the
    viewport's size.  The request dispatched carries the caller's layers:
    the layer found, if any, is the first final colour layer among them and
    has [CopiedFrame] as its pixels, every other layer is as the caller gave
    it, and when none is found no layer is a final colour layer, the layers
    are the caller's and the copied frame is in none of them.  A later frame
    dispatches nothing more. *)
Theorem C6_viewport_without_declared_layers
    (w : World) (Input : FStableDiffusionInput) (SceneViewport : FSceneViewport)
    (Pixels : list FColor) (BufferSize TargetSize : FIntPoint)
    (CopiedFrame : TArray_FColor) (found : option nat) :
  CapturingViewport w = Some SceneViewport ->
  ModelOptions_Layers w = [] ->
  CopyFrameData TargetSize BufferSize Pixels = Done CopiedFrame ->
  FindByPredicate_IsFinalColor (ProcessedLayers Input) = Done found ->
  exists w1 w2 Sent,
    RunGameThreadTask (GenerateImage_lambda Input Viewport) w = (Done tt, w1) /\
    Calls w1 =
      Calls w ++ enter_game_view w ++
      [MakeShared_FFrameGrabber (GetSizeXY SceneViewport); StartCapturingFrames;
       CaptureThisFrame] ++
      leave_game_view w /\
    layer_calls_of w1 = layer_calls_of w /\
    camera_calls w1 = camera_calls w /\
    AnyBackgroundHiPriTask w1 = AnyBackgroundHiPriTask w /\
    FFrameGrabber_FrameReady Pixels BufferSize TargetSize w1 = (Done tt, w2) /\
    Calls w2 = Calls w1 ++ [StopCapturingFrames] /\
    AnyBackgroundHiPriTask w2 =
      AnyBackgroundHiPriTask w ++
        [StartImageGeneration_lambda
           (mkInput (mkOptions (X (GetSizeXY SceneViewport)) (Y (GetSizeXY SceneViewport)))
              (CaptureSource Input) Sent)] /\
    length Sent = length (ProcessedLayers Input) /\
    (forall i, found = Some i ->
       exists Layer Overwritten,
         ProcessedLayers Input !! i = Some Layer /\ is_final_color Layer = true /\
         (forall j Other, (j < i)%nat -> ProcessedLayers Input !! j = Some Other ->
                          is_final_color Other = false) /\
         Sent !! i = Some Overwritten /\
         LayerPixels Overwritten = CopiedFrame /\
         Processor Overwritten = Processor Layer) /\
    (forall j, found <> Some j -> Sent !! j = ProcessedLayers Input !! j) /\
    (found = None ->
       Sent = ProcessedLayers Input /\
       forall j Layer, ProcessedLayers Input !! j = Some Layer -> is_final_color Layer = false) /\
    (forall Pixels' BufferSize' TargetSize',
        FFrameGrabber_FrameReady Pixels' BufferSize' TargetSize' w2 = (Done tt, w2)).
Proof.
  intros HV HL HC HF. cbn [RunGameThreadTask].
  unfold GenerateImage_lambda_body, enter_game_view, leave_game_view, saved_game_view.
  cbn.
  destruct (GEditor w) as [[play [gv|] clients]|] eqn:HE; cbn; try destruct play; cbn.
  all: match goal with
       | |- context [bind (CaptureFromViewportSource ?I) _ ?w0] =>
           erewrite (bind_done (CaptureFromViewportSource I) _ w0)
             by (apply viewport_source_no_layers; [exact HV|exact HL])
       end; cbn.
  all: eexists; eexists; exists (with_copied_frame CopiedFrame (ProcessedLayers Input) found).
  all: split; [reflexivity|].
  all: split; [cbn; same_calls|].
  all: split; [unfold layer_calls_of; cbn; rewrite ?List.filter_app; cbn;
               rewrite ?app_nil_r; reflexivity|].
  all: split; [unfold camera_calls; cbn; rewrite ?List.filter_app; cbn;
               rewrite ?app_nil_r; reflexivity|].
  all: split; [reflexivity|].
  all: split; [eapply FrameReady_dispatches; [reflexivity|exact HC|exact HF]|].
  all: split; [reflexivity|].
  all: split; [reflexivity|].
  all: split; [apply with_copied_frame_length|].
  all: split; [intros i ->; apply with_copied_frame_found; exact HF|].
  all: split; [intros j Hj; apply with_copied_frame_elsewhere; exact Hj|].
  all: split; [intros ->; split;
               [reflexivity|exact (FindByPredicate_IsFinalColor_None _ HF)]|].
  all: intros; reflexivity.
Qed.

Lemma C6_viewport_without_declared_layers_witness :
  exists w1 w2,
    RunGameThreadTask (GenerateImage_lambda request_A Viewport) idle_world = (Done tt, w1) /\
    Calls w1 =
      [EditorSetGameView true; MakeShared_FFrameGrabber (mkFIntPoint 2 2);
       StartCapturingFrames; CaptureThisFrame; EditorSetGameView false] /\
    AnyBackgroundHiPriTask w1 = [] /\
    FFrameGrabber_FrameReady sample_frame (mkFIntPoint 3 2) (mkFIntPoint 2 2) w1
      = (Done tt, w2) /\
    Calls w2 = Calls w1 ++ [StopCapturingFrames] /\
    AnyBackgroundHiPriTask w2 =
      [StartImageGeneration_lambda
         (mkInput (mkOptions 2 2) None
            [mkLayer (Some sample_final_color)
               [Some (grey 0); Some (grey 1); Some (grey 3); Some (grey 4)]])].
Proof.
  destruct (C6_viewport_without_declared_layers idle_world request_A sample_viewport
              sample_frame (mkFIntPoint 3 2) (mkFIntPoint 2 2)
              [Some (grey 0); Some (grey 1); Some (grey 3); Some (grey 4)] (Some 0%nat))
    as (w1 & w2 & Sent & Hw1 & Hcalls & _ & _ & Hidle & Hw2 & Hstop & Hqueue & Hlen & Hfound
        & _); try reflexivity.
  exists w1, w2. split; [exact Hw1|]. split; [exact Hcalls|]. split; [exact Hidle|].
  split; [exact Hw2|]. split; [exact Hstop|].
  destruct (Hfound 0%nat eq_refl) as (Layer & Overwritten & HLayer & _ & _ & H0 & Hpixels & Hproc).
  injection HLayer as <-.
  destruct Sent as [|L0 [|L1 Sent]]; try discriminate Hlen.
  injection H0 as ->.
  destruct Overwritten as [Proc Px]. cbn in Hpixels, Hproc. subst Proc Px.
  exact Hqueue.
Defined.

(** C6 as stated fails: with no declared layers and a request that brings no
    final colour layer, the frame is copied ([CopyFrameData] returns its four
    pixels) and then dropped: the one request dispatched has no layer at
    all, and the result published for it by a bridge that echoes its input
    has no pixel. *)
Lemma C6_counterexample :
  ModelOptions_Layers idle_world = [] /\
  CopyFrameData (mkFIntPoint 2 2) (mkFIntPoint 3 2) sample_frame =
    Done [Some (grey 0); Some (grey 1); Some (grey 3); Some (grey 4)] /\
  AnyBackgroundHiPriTask
    (snd (run [Ev_GenerateImage sample_input Viewport; Ev_GameThread;
               Ev_FrameReady sample_frame (mkFIntPoint 3 2) (mkFIntPoint 2 2)]
            idle_world)) =
    [StartImageGeneration_lambda (mkInput (mkOptions 2 2) None [])] /\
  fst (run [Ev_GenerateImage sample_input Viewport; Ev_GameThread;
            Ev_FrameReady sample_frame (mkFIntPoint 3 2) (mkFIntPoint 2 2);
            Ev_Background; Ev_GameThread] idle_world) = Done tt /\
  Broadcasts
    (snd (run [Ev_GenerateImage sample_input Viewport; Ev_GameThread;
               Ev_FrameReady sample_frame (mkFIntPoint 3 2) (mkFIntPoint 2 2);
               Ev_Background; Ev_GameThread] idle_world)) =
    [OnImageGenerationCompleteEx (mkResult [] (mkOptions 2 2) true)] /\
  Calls
    (snd (run [Ev_GenerateImage sample_input Viewport; Ev_GameThread;
               Ev_FrameReady sample_frame (mkFIntPoint 3 2) (mkFIntPoint 2 2);
               Ev_Background; Ev_GameThread] idle_world)) =
    [EditorSetGameView true; MakeShared_FFrameGrabber (mkFIntPoint 2 2);
     StartCapturingFrames; CaptureThisFrame; EditorSetGameView false;
     StopCapturingFrames].
Proof. repeat split. Qed.

(** ** No perspective viewport *)

(** C5, where no level viewport client is a perspective one.  The first half
    of the claim holds: [CreateSceneCaptureCamera] returns the capture with
    both members null and changes nothing.  The second half does not: with
    declared layers the viewport path reaches for the capture component
    through the null actor before any layer processor is called, and so does
    the scene capture path of a request without a capture source; both end
    in a null dereference. *)
Theorem C5_sentinel_camera_is_dereferenced
    (w : World) (Input : FStableDiffusionInput) (SceneViewport : FSceneViewport)
    (ed : UEditorEngine) :
  GEditor w = Some ed ->
  FindPerspectiveViewportClient (GetLevelViewportClients ed) = None ->
  CapturingViewport w = Some SceneViewport ->
  ModelOptions_Layers w <> [] ->
  CreateSceneCaptureCamera w = (Done (mkSceneCapture None None), w) /\
  (exists w', CaptureFromViewportSource Input w = (Crash NullDereference, w')) /\
  (CaptureSource Input = None ->
   exists w', CaptureFromSceneCaptureSource Input w = (Crash NullDereference, w')).
Proof.
  intros HE HF HV Hne. split; [|split].
  - apply CreateSceneCaptureCamera_none with ed; assumption.
  - unfold CaptureFromViewportSource, GetCapturingViewport. cbn. rewrite HV. cbn.
    erewrite bind_done by (apply StartCapturingViewport_ok; exact HV).
    cbn. destruct (ModelOptions_Layers w) as [|Layer rest]; [congruence|].
    cbn. rewrite bind_assoc.
    erewrite bind_done by (eapply CreateSceneCaptureCamera_none; cbn; eassumption).
    unfold CaptureFromViewportSource_layers. cbn.
    destruct (Processor Layer); cbn; eexists; reflexivity.
  - intros HS. unfold CaptureFromSceneCaptureSource. rewrite HS. cbn.
    rewrite bind_assoc.
    erewrite bind_done by (eapply CreateSceneCaptureCamera_none; cbn; eassumption).
    cbn. eexists; reflexivity.
Qed.

Lemma C5_sentinel_camera_witness :
  FindPerspectiveViewportClient
    [Some (mkViewportClient false (0, 0, 0) (0, 0, 0) 90)] = None /\
  CreateSceneCaptureCamera orthographic_world
    = (Done (mkSceneCapture None None), orthographic_world) /\
  (exists w', CaptureFromViewportSource sample_input orthographic_world
              = (Crash NullDereference, w')) /\
  (CaptureSource sample_input = None ->
   exists w', CaptureFromSceneCaptureSource sample_input orthographic_world
              = (Crash NullDereference, w')).
Proof.
  split; [reflexivity|].
  apply (C5_sentinel_camera_is_dereferenced orthographic_world sample_input sample_viewport
           (sample_editor [Some (mkViewportClient false (0, 0, 0) (0, 0, 0) 90)]));
    [reflexivity|reflexivity|reflexivity|discriminate].
Defined.

(** ** Accepting, completing and cancelling a generation *)

(** C1, amended.  A call of [GenerateImage] while [bIsGenerating] is set is
    turned away only when no generator bridge is loaded, and then nothing
    changes; with a bridge loaded the call is accepted: the flag stays set,
    one more capture lambda joins the game thread's queue, nothing else
    changes at the call. *)
Theorem C1_in_flight_call_is_accepted
    (w : World) (Input : FStableDiffusionInput) (ImageSourceType : EInputImageSource) :
  bIsGenerating w = true ->
  (GeneratorBridge w = None -> GenerateImage Input ImageSourceType w = (Done tt, w)) /\
  (forall bridge, GeneratorBridge w = Some bridge ->
     GenerateImage Input ImageSourceType w =
       (Done tt,
        set_GameThread (GameThread w ++ [GenerateImage_lambda Input ImageSourceType]) w)).
Proof.
  intros Hg. unfold GenerateImage, bind, gets. split.
  - intros ->. reflexivity.
  - intros bridge ->. cbn. rewrite <- Hg at 1. rewrite set_bIsGenerating_same. reflexivity.
Qed.

Lemma C1_in_flight_call_witness :
  bIsGenerating awaiting_frame_world = true /\
  GenerateImage request_B Viewport awaiting_frame_world =
    (Done tt,
     set_GameThread
       (GameThread awaiting_frame_world ++ [GenerateImage_lambda request_B Viewport])
       awaiting_frame_world).
Proof.
  split; [reflexivity|].
  destruct (C1_in_flight_call_is_accepted awaiting_frame_world request_B Viewport eq_refl)
    as [_ Haccepted].
  apply (Haccepted (echo_bridge true)). reflexivity.
Defined.

(** C1 as stated fails: [request_A] is in flight and waits for its frame
    when [request_B] arrives.  The second call is not turned away, its
    lambda is queued; once that lambda has run, the frame that would have
    dispatched [request_A] dispatches [request_B] alone, and [request_A] is
    never generated. *)
Lemma C1_counterexample :
  bIsGenerating awaiting_frame_world = true /\
  GameThread awaiting_frame_world = [] /\
  GameThread (snd (GenerateImage request_B Viewport awaiting_frame_world)) =
    [GenerateImage_lambda request_B Viewport] /\
  AnyBackgroundHiPriTask
    (snd (run [Ev_FrameReady sample_frame (mkFIntPoint 3 2) (mkFIntPoint 2 2)]
            awaiting_frame_world)) =
    [StartImageGeneration_lambda
       (mkInput (mkOptions 2 2) None
          [mkLayer (Some sample_final_color)
             [Some (grey 0); Some (grey 1); Some (grey 3); Some (grey 4)]])] /\
  AnyBackgroundHiPriTask
    (snd (run [Ev_GenerateImage request_B Viewport; Ev_GameThread;
               Ev_FrameReady sample_frame (mkFIntPoint 3 2) (mkFIntPoint 2 2);
               Ev_FrameReady sample_frame (mkFIntPoint 3 2) (mkFIntPoint 2 2)]
            awaiting_frame_world)) =
    [StartImageGeneration_lambda (mkInput (mkOptions 2 2) (Some sample_source) [])].
Proof. repeat split. Qed.

(** C2, amended.  [GenerateImage] without a generator bridge returns at once
    and changes nothing: no flag, no queued work, no broadcast, nothing the
    caller could read as a signal.  With a bridge loaded the request is
    accepted whether or not the model is initialised: the flag is set and
    the capture lambda queued. *)
Theorem C2_missing_bridge_is_a_silent_no_op
    (w : World) (Input : FStableDiffusionInput) (ImageSourceType : EInputImageSource) :
  (GeneratorBridge w = None -> GenerateImage Input ImageSourceType w = (Done tt, w)) /\
  (forall bridge, GeneratorBridge w = Some bridge ->
     GenerateImage Input ImageSourceType w =
       (Done tt,
        set_GameThread (GameThread w ++ [GenerateImage_lambda Input ImageSourceType])
          (set_bIsGenerating true w))).
Proof.
  unfold GenerateImage, bind, gets. split.
  - intros ->. reflexivity.
  - intros bridge ->. reflexivity.
Qed.

Lemma C2_missing_bridge_witness :
  GenerateImage sample_input Viewport bridgeless_world = (Done tt, bridgeless_world) /\
  GenerateImage sample_input Viewport uninitialised_world =
    (Done tt,
     set_GameThread
       (GameThread uninitialised_world ++ [GenerateImage_lambda sample_input Viewport])
       (set_bIsGenerating true uninitialised_world)).
Proof.
  destruct (C2_missing_bridge_is_a_silent_no_op bridgeless_world sample_input Viewport)
    as [Hnone _].
  destruct (C2_missing_bridge_is_a_silent_no_op uninitialised_world sample_input Viewport)
    as [_ Hsome].
  split; [apply Hnone; reflexivity|apply (Hsome (echo_bridge true)); reflexivity].
Defined.

(** C2 as stated fails: a bridge is loaded and its model was never
    initialised; the request is not rejected, the in-flight flag goes up and
    the capture lambda is queued. *)
Lemma C2_counterexample :
  ModelInitialised uninitialised_world = false /\
  bIsGenerating uninitialised_world = false /\
  bIsGenerating (snd (GenerateImage sample_input Viewport uninitialised_world)) = true /\
  GameThread (snd (GenerateImage sample_input Viewport uninitialised_world)) =
    [GenerateImage_lambda sample_input Viewport].
Proof. repeat split. Qed.

(** C8.  A generation dispatched on a loaded bridge.  [StartImageGeneration]
    queues one lambda for the background and publishes nothing.  The lambda
    calls the backend and returns, whatever the result says: afterwards
    [bIsGenerating] is false, one lambda holding the result waits in the
    game thread's queue, and nothing was broadcast off the game thread.
    That lambda returns with the result appended to the broadcasts of
    [OnImageGenerationCompleteEx] and the flag as it was.  With nothing else
    queued, the background and the game thread running one lambda each
    after the dispatch end with the flag false, the bridge's result for the
    request as the one new broadcast, and both queues empty.  The result is
    a value: its success indicator is never looked at, and no step faults on
    a failed one. *)
Theorem C8_backend_completion_is_published
    (w : World) (Input : FStableDiffusionInput) (loaded : UStableDiffusionBridge) :
  GeneratorBridge w = Some loaded ->
  (exists w1,
     StartImageGeneration Input w = (Done tt, w1) /\
     AnyBackgroundHiPriTask w1 = AnyBackgroundHiPriTask w ++ [StartImageGeneration_lambda Input] /\
     GameThread w1 = GameThread w /\
     Broadcasts w1 = Broadcasts w) /\
  (exists w2,
     RunBackgroundTask (StartImageGeneration_lambda Input) w = (Done tt, w2) /\
     bIsGenerating w2 = false /\
     GameThread w2 =
       GameThread w ++
         [ImageGenerationComplete_lambda (GenerateImageFromStartImage loaded Input)] /\
     Broadcasts w2 = Broadcasts w) /\
  (forall result w2,
     exists w3,
       RunGameThreadTask (ImageGenerationComplete_lambda result) w2 = (Done tt, w3) /\
       Broadcasts w3 = Broadcasts w2 ++ [OnImageGenerationCompleteEx result] /\
       bIsGenerating w3 = bIsGenerating w2) /\
  (AnyBackgroundHiPriTask w = [] ->
   GameThread w = [] ->
   exists w3,
     run [Ev_Background; Ev_GameThread] (snd (StartImageGeneration Input w)) = (Done tt, w3) /\
     bIsGenerating w3 = false /\
     Broadcasts w3 =
       Broadcasts w ++
         [OnImageGenerationCompleteEx (GenerateImageFromStartImage loaded Input)] /\
     AnyBackgroundHiPriTask w3 = [] /\
     GameThread w3 = []).
Proof.
  intros Hb. split; [|split; [|split]].
  - eexists. split; [reflexivity|]. repeat split.
  - eexists. cbn [RunBackgroundTask]. unfold bind, gets. rewrite Hb. cbn.
    split; [reflexivity|]. repeat split.
  - intros result w2. eexists. split; [reflexivity|]. split; reflexivity.
  - intros Ha Hg. open_world w. eexists. split; [reflexivity|]. repeat split.
Qed.

Lemma C8_backend_completion_witness :
  GeneratorBridge failing_backend_world = Some (echo_bridge false) /\
  bIsGenerating failing_backend_world = true /\
  Completed (GenerateImageFromStartImage (echo_bridge false) request_A) = false /\
  exists w3,
    run [Ev_Background; Ev_GameThread]
        (snd (StartImageGeneration request_A failing_backend_world)) = (Done tt, w3) /\
    bIsGenerating w3 = false /\
    Broadcasts w3 = [OnImageGenerationCompleteEx (mkResult [] (mkOptions 512 512) false)] /\
    AnyBackgroundHiPriTask w3 = [] /\
    GameThread w3 = [].
Proof.
  destruct (C8_backend_completion_is_published failing_backend_world request_A
              (echo_bridge false) eq_refl) as (_ & _ & _ & Hrun).
  split; [reflexivity|]. split; [reflexivity|]. split; [reflexivity|].
  exact (Hrun eq_refl eq_refl).
Defined.

(** C10.  [StopGeneratingImage] goes through the bridge pointer unchecked:
    with no bridge loaded the call is a null dereference; with a bridge it
    signals [StopImageGeneration] and then clears [bIsGenerating].
    [GenerateImage] and [UpsampleImage] test the pointer first and return
    without effect when it is null. *)
Theorem C10_StopGeneratingImage_needs_a_bridge (w : World) :
  (GeneratorBridge w = None -> StopGeneratingImage w = (Crash NullDereference, w)) /\
  (forall bridge, GeneratorBridge w = Some bridge ->
     StopGeneratingImage w =
       (Done tt, set_bIsGenerating false (set_Calls (Calls w ++ [StopImageGeneration]) w))) /\
  (GeneratorBridge w = None ->
     forall Input ImageSourceType input,
       GenerateImage Input ImageSourceType w = (Done tt, w) /\
       UpsampleImage input w = (Done tt, w)).
Proof.
  unfold StopGeneratingImage, GenerateImage, UpsampleImage, bind, gets.
  repeat split; intros; rewrite H; reflexivity.
Qed.

Lemma C10_StopGeneratingImage_witness :
  StopGeneratingImage bridgeless_world = (Crash NullDereference, bridgeless_world) /\
  GenerateImage sample_input Viewport bridgeless_world = (Done tt, bridgeless_world) /\
  StopGeneratingImage failing_backend_world =
    (Done tt,
     set_bIsGenerating false
       (set_Calls (Calls failing_backend_world ++ [StopImageGeneration])
          failing_backend_world)).
Proof.
  destruct (C10_StopGeneratingImage_needs_a_bridge bridgeless_world) as (Hcrash & _ & Hguard).
  destruct (C10_StopGeneratingImage_needs_a_bridge failing_backend_world) as (_ & Hstop & _).
  split; [apply Hcrash; reflexivity|].
  split; [apply (Hguard eq_refl sample_input Viewport (mkResult [] (mkOptions 0 0) true))|].
  apply (Hstop (echo_bridge false)). reflexivity.
Defined.

(** ** The transient camera's life *)

Lemma layer_calls_are_no_camera_calls (new : list Call) :
  Forall (fun x => is_layer_call x = true) new -> List.filter is_camera_call new = [].
Proof.
  induction 1 as [|c new Hc _ IH]; [reflexivity|].
  cbn. rewrite IH. destruct c; try discriminate; reflexivity.
Qed.

Lemma preview_calls_are_no_camera_calls (w : World) :
  List.filter is_camera_call (preview_calls w) = [].
Proof.
  unfold preview_calls.
  destruct (PreviewedLayer w); [destruct (SceneCapture (LayerPreviewCapture w))|]; reflexivity.
Qed.

(** The scene capture path of a request without a capture source, in an
    editor with a perspective view: one capture actor is spawned, aimed and
    remembered as the current one; begin, capture, end and process of every
    declared layer follow in order, each against that actor's component at
    the viewport's size; the actor is destroyed; and the request dispatched,
    stamped with the viewport's size, holds for every declared layer what
    its processor read back after exactly the calls up to its own end of
    capture. *)
Theorem transient_camera_of_scene_capture
    (w : World) (Input : FStableDiffusionInput) (SceneViewport : FSceneViewport)
    (ed : UEditorEngine) (vc : FLevelEditorViewportClient) :
  CaptureSource Input = None ->
  CapturingViewport w = Some SceneViewport ->
  GEditor w = Some ed ->
  FindPerspectiveViewportClient (GetLevelViewportClients ed) = Some vc ->
  Forall has_processor (ModelOptions_Layers w) ->
  exists w' Processed,
    CaptureFromSceneCaptureSource Input w = (Done tt, w') /\
    Calls w' =
      Calls w ++ camera_setup_calls (SpawnedActors w) vc ++ preview_calls w ++
      capture_calls (ModelOptions_Layers w) (GetSizeXY SceneViewport)
        (ComponentOfActor (SpawnedActors w)) ++
      [Destroy (SpawnedActors w)] /\
    camera_calls w' =
      camera_calls w ++
        [SpawnActor_ASceneCapture2D (SpawnedActors w); Destroy (SpawnedActors w)] /\
    CurrentSceneCapture w' = mkSceneCapture (Some (SpawnedActors w)) None /\
    length Processed = length (ModelOptions_Layers w) /\
    (forall k Layer P,
        ModelOptions_Layers w !! k = Some Layer ->
        Processor Layer = Some P ->
        Processed !! k =
          Some (mkLayer (Some P)
                  (ProcessLayer_pixels P
                     (Calls w ++ camera_setup_calls (SpawnedActors w) vc ++ preview_calls w ++
                      capture_calls (take k (ModelOptions_Layers w)) (GetSizeXY SceneViewport)
                        (ComponentOfActor (SpawnedActors w)) ++
                      capture_of P (GetSizeXY SceneViewport)
                        (ComponentOfActor (SpawnedActors w)))))) /\
    AnyBackgroundHiPriTask w' =
      AnyBackgroundHiPriTask w ++
        [StartImageGeneration_lambda
           (mkInput (mkOptions (X (GetSizeXY SceneViewport)) (Y (GetSizeXY SceneViewport)))
              None Processed)].
Proof.
  intros HS HV HE HF HL.
  unfold CaptureFromSceneCaptureSource, GetCapturingViewport. rewrite HS.
  rewrite !bind_assoc.
  erewrite bind_done by (eapply CreateSceneCaptureCamera_found; eassumption).
  cbn. rewrite HV. cbn.
  erewrite bind_done by (apply scene_layers_exact; exact HL). cbn.
  eexists. eexists. split; [reflexivity|]. cbn.
  split; [rewrite <- !app_assoc; reflexivity|].
  split.
  { unfold camera_calls. cbn. rewrite !List.filter_app. cbn.
    rewrite preview_calls_are_no_camera_calls,
      (layer_calls_are_no_camera_calls _ (capture_calls_are_layer_calls _ _ _)).
    cbn. rewrite <- !app_assoc. reflexivity. }
  split; [reflexivity|].
  split; [apply captured_layers_length; exact HL|].
  split; [|reflexivity].
  intros k Layer P Hk HP. rewrite (captured_layers_lookup _ _ _ HL _ k Layer P Hk HP).
  rewrite <- !app_assoc. reflexivity.
Qed.

Lemma transient_camera_of_scene_capture_witness :
  exists w',
    CaptureFromSceneCaptureSource sample_input probed_world = (Done tt, w') /\
    Calls w' =
      [SpawnActor_ASceneCapture2D 0;
       SetCaptureSettings 0 true false true SCCM_Overwrite SCS_FinalToneCurveHDR;
       SetActorLocation 0 (1, 2, 3); SetActorRotation 0 (4, 5, 6); SetFOVAngle 0 90;
       BeginCaptureLayer 1 (mkFIntPoint 2 2) (ComponentOfActor 0);
       CaptureLayer 1 (ComponentOfActor 0) None;
       EndCaptureLayer 1 (ComponentOfActor 0);
       ProcessLayer 1;
       BeginCaptureLayer 2 (mkFIntPoint 2 2) (ComponentOfActor 0);
       CaptureLayer 2 (ComponentOfActor 0) None;
       EndCaptureLayer 2 (ComponentOfActor 0);
       ProcessLayer 2;
       BeginCaptureLayer 3 (mkFIntPoint 2 2) (ComponentOfActor 0);
       CaptureLayer 3 (ComponentOfActor 0) None;
       EndCaptureLayer 3 (ComponentOfActor 0);
       ProcessLayer 3;
       Destroy 0] /\
    camera_calls w' = [SpawnActor_ASceneCapture2D 0; Destroy 0] /\
    CurrentSceneCapture w' = mkSceneCapture (Some 0%nat) None /\
    AnyBackgroundHiPriTask w' =
      [StartImageGeneration_lambda
         (mkInput (mkOptions 2 2) None
            [mkLayer (Some sample_final_color) [Some (grey 100)];
             mkLayer (Some sample_depth) [Some (grey 12)];
             mkLayer (Some sample_normal) [Some (mkFColor 2 2 0 255)]])].
Proof.
  destruct (transient_camera_of_scene_capture probed_world sample_input sample_viewport
              (sample_editor [None; Some sample_client]) sample_client)
    as (w' & Processed & Hw & Hcalls & Hcameras & Hcurrent & Hlen & Hlayers & Hqueue);
    try reflexivity.
  { repeat constructor; eexists; reflexivity. }
  exists w'. split; [exact Hw|]. split; [exact Hcalls|]. split; [exact Hcameras|].
  split; [exact Hcurrent|].
  pose proof (Hlayers 0%nat _ _ eq_refl eq_refl) as H0.
  pose proof (Hlayers 1%nat _ _ eq_refl eq_refl) as H1.
  pose proof (Hlayers 2%nat _ _ eq_refl eq_refl) as H2.
  destruct Processed as [|L0 [|L1 [|L2 [|L3 Processed]]]]; try discriminate Hlen.
  injection H0 as ->. injection H1 as ->. injection H2 as ->.
  exact Hqueue.
Defined.

(** The viewport path with declared layers, call by call: the grabber is
    made and started, the capture actor is spawned and aimed, every declared
    layer in order is begun, captured, ended and processed against that
    actor's component at the viewport's size, the actor is destroyed, and
    only then is the viewport frame requested; nothing is dispatched by
    then. *)
Theorem viewport_layers_precede_the_frame_request
    (w : World) (Input : FStableDiffusionInput) (SceneViewport : FSceneViewport)
    (ed : UEditorEngine) (vc : FLevelEditorViewportClient) :
  CapturingViewport w = Some SceneViewport ->
  GEditor w = Some ed ->
  FindPerspectiveViewportClient (GetLevelViewportClients ed) = Some vc ->
  ModelOptions_Layers w <> [] ->
  Forall has_processor (ModelOptions_Layers w) ->
  exists w1,
    CaptureFromViewportSource Input w = (Done tt, w1) /\
    Calls w1 =
      Calls w ++
        [MakeShared_FFrameGrabber (GetSizeXY SceneViewport); StartCapturingFrames] ++
        camera_setup_calls (SpawnedActors w) vc ++ preview_calls w ++
        capture_calls (ModelOptions_Layers w) (GetSizeXY SceneViewport)
          (ComponentOfActor (SpawnedActors w)) ++
        [Destroy (SpawnedActors w); CaptureThisFrame] /\
    length (capture_calls (ModelOptions_Layers w) (GetSizeXY SceneViewport)
              (ComponentOfActor (SpawnedActors w))) =
      (4 * length (ModelOptions_Layers w))%nat /\
    (forall k Layer P,
        ModelOptions_Layers w !! k = Some Layer ->
        Processor Layer = Some P ->
        take 4 (drop (4 * k)
                  (capture_calls (ModelOptions_Layers w) (GetSizeXY SceneViewport)
                     (ComponentOfActor (SpawnedActors w)))) =
          [BeginCaptureLayer (ProcessorId P) (GetSizeXY SceneViewport)
             (ComponentOfActor (SpawnedActors w));
           CaptureLayer (ProcessorId P) (ComponentOfActor (SpawnedActors w)) None;
           EndCaptureLayer (ProcessorId P) (ComponentOfActor (SpawnedActors w));
           ProcessLayer (ProcessorId P)]) /\
    AnyBackgroundHiPriTask w1 = AnyBackgroundHiPriTask w.
Proof.
  intros HV HE HF Hne HL.
  rewrite (viewport_source_exact Input w SceneViewport ed vc HV HE HF Hne HL).
  eexists. split; [reflexivity|]. cbn.
  split; [unfold viewport_setup_calls; rewrite <- ?app_assoc; reflexivity|].
  split; [apply capture_calls_length; exact HL|].
  split; [|reflexivity].
  intros k Layer P Hk HP. exact (capture_calls_at _ _ _ HL k Layer P Hk HP).
Qed.

Lemma viewport_layers_precede_witness :
  exists w1,
    CaptureFromViewportSource sample_input probed_world = (Done tt, w1) /\
    Calls w1 =
      [MakeShared_FFrameGrabber (mkFIntPoint 2 2); StartCapturingFrames;
       SpawnActor_ASceneCapture2D 0;
       SetCaptureSettings 0 true false true SCCM_Overwrite SCS_FinalToneCurveHDR;
       SetActorLocation 0 (1, 2, 3); SetActorRotation 0 (4, 5, 6); SetFOVAngle 0 90;
       BeginCaptureLayer 1 (mkFIntPoint 2 2) (ComponentOfActor 0);
       CaptureLayer 1 (ComponentOfActor 0) None;
       EndCaptureLayer 1 (ComponentOfActor 0);
       ProcessLayer 1;
       BeginCaptureLayer 2 (mkFIntPoint 2 2) (ComponentOfActor 0);
       CaptureLayer 2 (ComponentOfActor 0) None;
       EndCaptureLayer 2 (ComponentOfActor 0);
       ProcessLayer 2;
       BeginCaptureLayer 3 (mkFIntPoint 2 2) (ComponentOfActor 0);
       CaptureLayer 3 (ComponentOfActor 0) None;
       EndCaptureLayer 3 (ComponentOfActor 0);
       ProcessLayer 3;
       Destroy 0; CaptureThisFrame] /\
    AnyBackgroundHiPriTask w1 = [].
Proof.
  destruct (viewport_layers_precede_the_frame_request probed_world sample_input sample_viewport
              (sample_editor [None; Some sample_client]) sample_client)
    as (w1 & Hw & Hcalls & _ & _ & Hqueue); try reflexivity.
  { discriminate. }
  { repeat constructor; eexists; reflexivity. }
  exists w1. split; [exact Hw|]. split; [exact Hcalls|exact Hqueue].
Defined.

(** The second scenario of the spec: a capture source with a 512x512 render
    target.  Both declared layers are captured from it at that size, the
    request is stamped 512x512, and the frame grabber is never touched. *)
Example scene_capture_scenario :
  run [Ev_GenerateImage request_B SceneCapture2D; Ev_GameThread] layered_world =
    (Done tt,
     set_AnyBackgroundHiPriTask
       [StartImageGeneration_lambda
          (mkInput (mkOptions 512 512) (Some sample_source)
             [mkLayer (Some sample_final_color) [Some (grey 100)];
              mkLayer (Some sample_depth) [Some (grey 8)]])]
       (set_Calls
          [EditorSetGameView true;
           BeginCaptureLayer 1 (mkFIntPoint 512 512) (ComponentOfCaller 7);
           CaptureLayer 1 (ComponentOfCaller 7) None;
           EndCaptureLayer 1 (ComponentOfCaller 7);
           ProcessLayer 1;
           BeginCaptureLayer 2 (mkFIntPoint 512 512) (ComponentOfCaller 7);
           CaptureLayer 2 (ComponentOfCaller 7) None;
           EndCaptureLayer 2 (ComponentOfCaller 7);
           ProcessLayer 2;
           EditorSetGameView false]
          (set_bIsGenerating true layered_world))).
Proof. reflexivity. Qed.

(** ** More of the generation pipeline *)

Lemma bind_returns {A B : Type} (m : M A) (k : A -> M B) (w w' : World) (b : B) :
  bind m k w = (Done b, w') ->
  exists a w1, m w = (Done a, w1) /\ k a w1 = (Done b, w').
Proof.
  unfold bind. destruct (m w) as [[a|why] w1]; [|discriminate].
  intros H. exists a, w1. split; [reflexivity|exact H].
Qed.

(** Upsampling from request to broadcast, on a subsystem with a bridge and
    nothing else queued: the request is accepted whatever [bIsUpsampling]
    and [bIsGenerating] are, [bIsUpsampling] is still set after the
    background lambda has called the bridge, and only the game thread
    lambda clears it, together with the broadcast of the bridge's answer;
    nothing else of the world has changed by then. *)
Theorem UpsampleImage_round_trip
    (w : World) (input : FStableDiffusionImageResult) (loaded : UStableDiffusionBridge) :
  GeneratorBridge w = Some loaded ->
  GameThread w = [] ->
  AnyBackgroundHiPriTask w = [] ->
  bIsUpsampling (snd (run [Ev_UpsampleImage input] w)) = true /\
  bIsUpsampling (snd (run [Ev_UpsampleImage input; Ev_Background] w)) = true /\
  run [Ev_UpsampleImage input; Ev_Background; Ev_GameThread] w =
    (Done tt,
     set_Broadcasts
       (Broadcasts w ++ [OnImageUpsampleCompleteEx (Bridge_UpsampleImage loaded input)])
       (set_bIsUpsampling false w)).
Proof.
  intros Hb Hg Ha. open_world w. repeat split.
Qed.

Lemma UpsampleImage_round_trip_witness :
  run [Ev_UpsampleImage (mkResult [Some (grey 7)] (mkOptions 512 512) true);
       Ev_Background; Ev_GameThread] failing_backend_world =
    (Done tt,
     set_Broadcasts
       [OnImageUpsampleCompleteEx (mkResult [Some (grey 7)] (mkOptions 512 512) true)]
       failing_backend_world).
Proof.
  destruct (UpsampleImage_round_trip failing_backend_world
              (mkResult [Some (grey 7)] (mkOptions 512 512) true) (echo_bridge false)
              eq_refl eq_refl eq_refl) as (_ & _ & Hrun).
  exact Hrun.
Defined.

(** [StopGeneratingImage] cancels nothing that is queued: with a bridge
    loaded it returns with [bIsGenerating] cleared and leaves both task
    queues and the frame grabber, with its pending frame request, as they
    were; a generation that was already handed to the background still
    calls the bridge and still broadcasts its result. *)
Theorem StopGeneratingImage_leaves_queued_work (w : World) (loaded : UStableDiffusionBridge) :
  GeneratorBridge w = Some loaded ->
  (exists w1,
     StopGeneratingImage w = (Done tt, w1) /\
     bIsGenerating w1 = false /\
     GameThread w1 = GameThread w /\
     AnyBackgroundHiPriTask w1 = AnyBackgroundHiPriTask w /\
     ViewportCapture w1 = ViewportCapture w) /\
  (forall Input rest,
     AnyBackgroundHiPriTask w = StartImageGeneration_lambda Input :: rest ->
     GameThread w = [] ->
     exists w',
       run [Ev_StopGeneratingImage; Ev_Background; Ev_GameThread] w = (Done tt, w') /\
       Broadcasts w' =
         Broadcasts w ++
           [OnImageGenerationCompleteEx (GenerateImageFromStartImage loaded Input)]).
Proof.
  intros Hb. split.
  - eexists. unfold StopGeneratingImage, bind, gets. rewrite Hb. cbn.
    split; [reflexivity|]. repeat split.
  - intros Input rest Ha Hg. open_world w. eexists. split; reflexivity.
Qed.

Lemma StopGeneratingImage_leaves_queued_work_witness :
  exists w',
    run [Ev_StopGeneratingImage; Ev_Background; Ev_GameThread]
        (snd (StartImageGeneration request_A failing_backend_world)) = (Done tt, w') /\
    Broadcasts w' = [OnImageGenerationCompleteEx (mkResult [] (mkOptions 512 512) false)].
Proof.
  destruct (StopGeneratingImage_leaves_queued_work
              (snd (StartImageGeneration request_A failing_backend_world))
              (echo_bridge false) eq_refl) as [_ Hrun].
  exact (Hrun request_A [] eq_refl eq_refl).
Defined.

(** [StartCapturingViewport] puts a new frame grabber in the place of the
    old one: whatever [ViewportCapture] held, afterwards it is a capturing
    grabber of the viewport's size with no frame request pending, so a
    frame that arrives next is handed to nobody. *)
Theorem StartCapturingViewport_replaces_the_grabber
    (w : World) (SceneViewport : FSceneViewport) :
  CapturingViewport w = Some SceneViewport ->
  exists w1,
    StartCapturingViewport w = (Done tt, w1) /\
    ViewportCapture w1 = Some (mkGrabber (GetSizeXY SceneViewport) true None) /\
    (forall ColorBuffer BufferSize TargetSize,
       FFrameGrabber_FrameReady ColorBuffer BufferSize TargetSize w1 = (Done tt, w1)).
Proof.
  intros HV. rewrite (StartCapturingViewport_ok w SceneViewport HV).
  eexists. split; [reflexivity|]. split; reflexivity.
Qed.

Lemma StartCapturingViewport_replaces_the_grabber_witness :
  ViewportCapture awaiting_frame_world =
    Some (mkGrabber (mkFIntPoint 2 2) true
            (Some (frame_request request_A (ProcessedLayers request_A) (mkFIntPoint 2 2)))) /\
  exists w1,
    StartCapturingViewport awaiting_frame_world = (Done tt, w1) /\
    ViewportCapture w1 = Some (mkGrabber (mkFIntPoint 2 2) true None) /\
    (forall ColorBuffer BufferSize TargetSize,
       FFrameGrabber_FrameReady ColorBuffer BufferSize TargetSize w1 = (Done tt, w1)).
Proof.
  split; [reflexivity|].
  exact (StartCapturingViewport_replaces_the_grabber awaiting_frame_world sample_viewport
           eq_refl).
Defined.

(** *** What the capture lambda gives back *)

Lemma editor_state_ProcessLayer (P : ULayerProcessorBase) :
  preserves editor_state (ULayerProcessorBase_ProcessLayer P).
Proof. unfold ULayerProcessorBase_ProcessLayer, call. repeat preserve_step. Qed.

Lemma scene_layers_unfold (Layer : FLayerData) (rest : list FLayerData) (Size : FIntPoint)
    (c : ComponentRef) (Processed : list FLayerData) :
  CaptureFromSceneCaptureSource_layers (Layer :: rest) Size c Processed =
    (let* P := deref (Processor Layer) in
     call (BeginCaptureLayer (ProcessorId P) Size c);;
     call (CaptureLayer (ProcessorId P) c None);;
     call (EndCaptureLayer (ProcessorId P) c);;
     let* Pixels := ULayerProcessorBase_ProcessLayer P in
     CaptureFromSceneCaptureSource_layers rest Size c
       (Processed ++ [mkLayer (Processor Layer) Pixels])).
Proof. reflexivity. Qed.

Lemma viewport_layers_unfold (Layer : FLayerData) (rest : list FLayerData) (Size : FIntPoint)
    (Capture : FViewportSceneCapture) (Processed : list FLayerData) :
  CaptureFromViewportSource_layers (Layer :: rest) Size Capture Processed =
    (let* P := deref (Processor Layer) in
     let* c := GetCaptureComponent2D (SceneCapture Capture) in
     call (BeginCaptureLayer (ProcessorId P) Size c);;
     let* c := GetCaptureComponent2D (SceneCapture Capture) in
     call (CaptureLayer (ProcessorId P) c None);;
     let* c := GetCaptureComponent2D (SceneCapture Capture) in
     call (EndCaptureLayer (ProcessorId P) c);;
     let* Pixels := ULayerProcessorBase_ProcessLayer P in
     CaptureFromViewportSource_layers rest Size Capture
       (Processed ++ [mkLayer (Processor Layer) Pixels])).
Proof. reflexivity. Qed.

Lemma editor_state_scene_layers (Layers : list FLayerData) (Size : FIntPoint) (c : ComponentRef) :
  forall Processed,
  preserves editor_state (CaptureFromSceneCaptureSource_layers Layers Size c Processed).
Proof.
  induction Layers as [|Layer rest IH]; intros Processed.
  - apply preserves_ret.
  - rewrite scene_layers_unfold. unfold call.
    repeat first [ apply editor_state_ProcessLayer | apply IH | preserve_step ].
Qed.

Lemma editor_state_viewport_layers (Layers : list FLayerData) (Size : FIntPoint)
    (Capture : FViewportSceneCapture) :
  forall Processed,
  preserves editor_state (CaptureFromViewportSource_layers Layers Size Capture Processed).
Proof.
  induction Layers as [|Layer rest IH]; intros Processed.
  - apply preserves_ret.
  - rewrite viewport_layers_unfold. unfold call, GetCaptureComponent2D.
    repeat first [ apply editor_state_ProcessLayer | apply IH | preserve_step ].
Qed.

Lemma editor_state_CreateSceneCaptureCamera : preserves editor_state CreateSceneCaptureCamera.
Proof.
  unfold CreateSceneCaptureCamera, UpdateSceneCaptureCamera, SpawnActor, call.
  repeat preserve_step.
Qed.

Lemma editor_state_viewport_source (Input : FStableDiffusionInput) :
  preserves editor_state (CaptureFromViewportSource Input).
Proof.
  unfold CaptureFromViewportSource, StartCapturingViewport, SetCaptureViewport,
    ViewportCapture_invoke, GetCapturingViewport, call.
  repeat first [ apply editor_state_viewport_layers | apply editor_state_CreateSceneCaptureCamera
               | preserve_step ].
Qed.

Lemma editor_state_scene_source (Input : FStableDiffusionInput) :
  preserves editor_state (CaptureFromSceneCaptureSource Input).
Proof.
  unfold CaptureFromSceneCaptureSource, StartImageGeneration, AsyncTask_AnyBackgroundHiPriTask,
    GetCapturingViewport, GetCaptureComponent2D, call.
  repeat first [ apply editor_state_scene_layers | apply editor_state_CreateSceneCaptureCamera
               | preserve_step ].
Qed.

(** The capture lambda of [GenerateImage] gives the editor back as it found
    it: whenever the lambda returns, [GAreScreenMessagesEnabled] has the
    value it had before, and [GEditor], game view included, is as before,
    for either source kind and whatever the capture did in between. *)
Theorem GenerateImage_lambda_restores_the_editor
    (w w' : World) (Input : FStableDiffusionInput) (ImageSourceType : EInputImageSource) :
  RunGameThreadTask (GenerateImage_lambda Input ImageSourceType) w = (Done tt, w') ->
  GAreScreenMessagesEnabled w' = GAreScreenMessagesEnabled w /\
  GEditor w' = GEditor w.
Proof.
  cbn [RunGameThreadTask]. unfold GenerateImage_lambda_body.
  assert (forall w0, editor_state
            (snd (match ImageSourceType with
                  | Viewport => CaptureFromViewportSource Input
                  | SceneCapture2D => CaptureFromSceneCaptureSource Input
                  end w0)) = editor_state w0) as Hcapture.
  { intros w0. destruct ImageSourceType;
      [apply editor_state_viewport_source|apply editor_state_scene_source]. }
  set (capture := match ImageSourceType with
                 | Viewport => CaptureFromViewportSource Input
                 | SceneCapture2D => CaptureFromSceneCaptureSource Input
                 end) in *.
  clearbody capture. unfold editor_state in Hcapture.
  unfold bind at 1 2 3 4. cbn.
  destruct (GEditor w) as [[play [gv|] clients]|] eqn:HE; cbn;
    try destruct play; cbn.
  all: intros Hrun; apply bind_returns in Hrun; destruct Hrun as ([] & w1 & Hc & Hrest).
  all: match type of Hc with _ ?w0 = _ =>
         pose proof (Hcapture w0) as Hp; rewrite Hc in Hp; cbn in Hp;
         injection Hp as Hm He end.
  all: revert Hrest; unfold bind, gets, modify, EditorSetGameView_, call; cbn;
       rewrite ?He; cbn; intros [= <-]; cbn; split; congruence.
Qed.

Lemma GenerateImage_lambda_restores_the_editor_witness :
  GAreScreenMessagesEnabled
    (snd (RunGameThreadTask (GenerateImage_lambda sample_input Viewport) layered_world)) =
    GAreScreenMessagesEnabled layered_world /\
  GEditor (snd (RunGameThreadTask (GenerateImage_lambda sample_input Viewport) layered_world)) =
    GEditor layered_world.
Proof.
  apply (GenerateImage_lambda_restores_the_editor layered_world
           (snd (RunGameThreadTask (GenerateImage_lambda sample_input Viewport) layered_world))
           sample_input Viewport).
  vm_compute. reflexivity.
Defined.

(** *** No capture actor is left behind *)

Lemma scene_layers_returned (Layers : list FLayerData) (Size : FIntPoint) (c : ComponentRef) :
  forall Processed w r w',
  CaptureFromSceneCaptureSource_layers Layers Size c Processed w = (Done r, w') ->
  exists new, w' = set_Calls (Calls w ++ new) w /\ Forall (fun x => is_layer_call x = true) new.
Proof.
  induction Layers as [|Layer rest IH]; intros Processed w r w' Hrun.
  - exists []. injection Hrun as _ <-. rewrite set_Calls_nil. split; [reflexivity|constructor].
  - destruct (Processor Layer) as [P|] eqn:HP.
    + rewrite (scene_layer_step P) in Hrun by exact HP.
      apply IH in Hrun. destruct Hrun as (new & -> & Hn).
      exists (layer_calls P Size c ++ new). split.
      * rewrite set_Calls_twice. cbn [Calls set_Calls]. rewrite <- app_assoc. reflexivity.
      * apply Forall_app. split; [|exact Hn]. repeat constructor.
    + exfalso. revert Hrun. rewrite scene_layers_unfold. unfold bind. rewrite HP. discriminate.
Qed.

Lemma viewport_layers_returned (Layers : list FLayerData) (Size : FIntPoint)
    (Capture : FViewportSceneCapture) :
  Layers <> [] ->
  forall Processed w r w',
  CaptureFromViewportSource_layers Layers Size Capture Processed w = (Done r, w') ->
  exists a new,
    SceneCapture Capture = Some a /\
    w' = set_Calls (Calls w ++ new) w /\ Forall (fun x => is_layer_call x = true) new.
Proof.
  intros Hne Processed w r w' Hrun.
  destruct Capture as [[a|] vc].
  - exists a. cbn [SceneCapture].
    assert (exists new, w' = set_Calls (Calls w ++ new) w /\
                        Forall (fun x => is_layer_call x = true) new) as (new & Hw & Hn).
    { clear Hne. revert Processed w r w' Hrun.
      induction Layers as [|Layer rest IH]; intros Processed w r w' Hrun.
      - exists []. injection Hrun as _ <-. rewrite set_Calls_nil.
        split; [reflexivity|constructor].
      - destruct (Processor Layer) as [P|] eqn:HP.
        + rewrite (viewport_layer_step P) in Hrun by exact HP.
          apply IH in Hrun. destruct Hrun as (new & -> & Hn).
          exists (layer_calls P Size (ComponentOfActor a) ++ new). split.
          * rewrite set_Calls_twice. cbn [Calls set_Calls]. rewrite <- app_assoc. reflexivity.
          * apply Forall_app. split; [|exact Hn]. repeat constructor.
        + exfalso. revert Hrun. rewrite viewport_layers_unfold. unfold bind. rewrite HP.
          discriminate. }
    exists new. auto.
  - exfalso. destruct Layers as [|Layer rest]; [congruence|]. revert Hrun.
    rewrite viewport_layers_unfold. unfold bind. destruct (Processor Layer); cbn; discriminate.
Qed.

Lemma CreateSceneCaptureCamera_returned (w w' : World) (Capture : FViewportSceneCapture) :
  CreateSceneCaptureCamera w = (Done Capture, w') ->
  (SceneCapture Capture = None /\ w' = w) \/
  (exists vc,
     Capture = mkSceneCapture (Some (SpawnedActors w)) (Some vc) /\
     w' = set_SpawnedActors (S (SpawnedActors w))
            (set_Calls (Calls w ++ camera_setup_calls (SpawnedActors w) vc ++ preview_calls w) w)).
Proof.
  destruct (GEditor w) as [ed|] eqn:HE.
  - destruct (FindPerspectiveViewportClient (GetLevelViewportClients ed)) as [vc|] eqn:HF.
    + rewrite (CreateSceneCaptureCamera_found w ed vc HE HF). intros [= <- <-].
      right. exists vc. split; reflexivity.
    + rewrite (CreateSceneCaptureCamera_none w ed HE HF). intros [= <- <-].
      left. split; reflexivity.
  - unfold CreateSceneCaptureCamera, bind, gets. rewrite HE. discriminate.
Qed.

Lemma viewport_source_balance (Input : FStableDiffusionInput) (w w' : World) :
  CaptureFromViewportSource Input w = (Done tt, w') -> camera_balance w w'.
Proof.
  destruct (CapturingViewport w) as [V|] eqn:HV.
  2:{ unfold CaptureFromViewportSource, GetCapturingViewport, bind, gets. rewrite HV.
      discriminate. }
  destruct (ModelOptions_Layers w) as [|Layer rest] eqn:HL.
  { rewrite (viewport_source_no_layers Input w V HV HL). intros [= <-]. left.
    split; [reflexivity|]. unfold camera_calls. cbn. rewrite List.filter_app. cbn.
    apply app_nil_r. }
  unfold CaptureFromViewportSource, GetCapturingViewport. cbn. rewrite HV. cbn.
  erewrite bind_done by (apply StartCapturingViewport_ok; exact HV).
  cbn. rewrite HL. cbn. rewrite !bind_assoc.
  intros Hrun. apply bind_returns in Hrun. destruct Hrun as (Capture & w1 & Hcam & Hrun).
  rewrite bind_assoc in Hrun.
  apply bind_returns in Hrun. destruct Hrun as (Processed & w2 & Hloop & Hrun).
  apply viewport_layers_returned in Hloop; [|discriminate].
  destruct Hloop as (a & new & Ha & -> & Hn).
  apply CreateSceneCaptureCamera_returned in Hcam.
  destruct Hcam as [[Hnone _]|(vc & -> & ->)]; [congruence|].
  injection Ha as <-. revert Hrun.
  unfold bind, call, modify, deref, ViewportCapture_invoke, bind, gets, deref_shared. cbn.
  intros [= <-]. right. split; [reflexivity|].
  unfold camera_calls. cbn. rewrite !List.filter_app. cbn.
  rewrite preview_calls_are_no_camera_calls, (layer_calls_are_no_camera_calls _ Hn).
  cbn. rewrite <- !app_assoc. reflexivity.
Qed.

Lemma scene_source_balance (Input : FStableDiffusionInput) (w w' : World) :
  CaptureFromSceneCaptureSource Input w = (Done tt, w') -> camera_balance w w'.
Proof.
  destruct (CaptureSource Input) as [Source|] eqn:HS.
  { intros Hrun. pose proof (cameras_scene_source Input Source HS w) as Hc.
    rewrite Hrun in Hc. cbn in Hc. injection Hc as Hn _ Hcalls. left. auto. }
  unfold CaptureFromSceneCaptureSource, GetCapturingViewport. rewrite HS.
  rewrite !bind_assoc.
  intros Hrun. apply bind_returns in Hrun. destruct Hrun as (Capture & w1 & Hcam & Hrun).
  apply CreateSceneCaptureCamera_returned in Hcam.
  destruct Hcam as [[Hnone ->]|(vc & -> & ->)].
  { exfalso. revert Hrun. unfold bind, modify, gets, GetCaptureComponent2D. cbn.
    rewrite Hnone. discriminate. }
  revert Hrun. cbn.
  destruct (CapturingViewport w) as [V|] eqn:HV; [|discriminate]. cbn.
  intros Hrun. apply bind_returns in Hrun. destruct Hrun as (Processed & w2 & Hloop & Hrun).
  apply scene_layers_returned in Hloop. destruct Hloop as (new & -> & Hn).
  revert Hrun. cbn. intros Hrun. apply (f_equal snd) in Hrun. cbn [snd] in Hrun. subst w'.
  right. split; [reflexivity|].
  unfold camera_calls. cbn. rewrite !List.filter_app. cbn.
  rewrite preview_calls_are_no_camera_calls, (layer_calls_are_no_camera_calls _ Hn).
  cbn. rewrite <- !app_assoc. reflexivity.
Qed.

(** Whenever the capture lambda of [GenerateImage] returns, for either
    source kind and any world, it has either spawned and destroyed no
    capture actor at all or spawned exactly one and destroyed that one:
    no actor it created is left in the level. *)
Theorem no_capture_actor_outlives_its_request
    (w w' : World) (Input : FStableDiffusionInput) (ImageSourceType : EInputImageSource) :
  RunGameThreadTask (GenerateImage_lambda Input ImageSourceType) w = (Done tt, w') ->
  camera_balance w w'.
Proof.
  cbn [RunGameThreadTask]. unfold GenerateImage_lambda_body.
  assert (forall w0 w1,
            match ImageSourceType with
            | Viewport => CaptureFromViewportSource Input
            | SceneCapture2D => CaptureFromSceneCaptureSource Input
            end w0 = (Done tt, w1) -> camera_balance w0 w1) as Hcapture.
  { intros w0 w1. destruct ImageSourceType;
      [apply viewport_source_balance|apply scene_source_balance]. }
  set (capture := match ImageSourceType with
                 | Viewport => CaptureFromViewportSource Input
                 | SceneCapture2D => CaptureFromSceneCaptureSource Input
                 end) in *.
  clearbody capture.
  unfold bind at 1 2 3 4. cbn.
  destruct (GEditor w) as [[play [gv|] clients]|] eqn:HE; cbn;
    try destruct play; cbn.
  all: intros Hrun; apply bind_returns in Hrun; destruct Hrun as ([] & w1 & Hc & Hrest).
  all: apply Hcapture in Hc.
  all: revert Hrest; unfold bind, gets, modify, EditorSetGameView_, call, bind, modify, ret; cbn;
       try destruct (GEditor w1); cbn; intros [= <-];
       unfold camera_balance, camera_calls in *; cbn in *;
       rewrite ?List.filter_app in *; cbn in *; rewrite ?app_nil_r in *; exact Hc.
Qed.

Lemma no_capture_actor_outlives_its_request_witness :
  camera_balance layered_world
    (snd (RunGameThreadTask (GenerateImage_lambda sample_input SceneCapture2D) layered_world)).
Proof.
  apply (no_capture_actor_outlives_its_request layered_world
           (snd (RunGameThreadTask (GenerateImage_lambda sample_input SceneCapture2D)
                   layered_world))
           sample_input SceneCapture2D).
  vm_compute. reflexivity.
Defined.

(** ** Finding the viewport to capture *)

Lemma GetCapturingViewport_Contexts_app (Engine : UEngine) (Before After : list FWorldContext) :
  forall Out,
  GetCapturingViewport_Contexts Engine (Before ++ After) Out =
    let! Mid := GetCapturingViewport_Contexts Engine Before Out in
    GetCapturingViewport_Contexts Engine After Mid.
Proof.
  induction Before as [|Context rest IH]; intros Out; cbn; [reflexivity|].
  destruct (GetCapturingViewport_Context Engine Context Out); cbn; [apply IH|reflexivity].
Qed.

(** With [GEditor] set the search cannot fail. *)
Lemma GetCapturingViewport_Contexts_total (Engine : UEngine)
    (Map : gmap string FSlatePlayInEditorInfo) (Contexts : list FWorldContext) :
  SlatePlayInEditorMap Engine = Some Map ->
  forall Out, exists Out', GetCapturingViewport_Contexts Engine Contexts Out = Done Out'.
Proof.
  intros HM. induction Contexts as [|Context rest IH]; intros Out; cbn.
  - eexists; reflexivity.
  - unfold GetCapturingViewport_Context. rewrite HM.
    destruct (WorldType Context); cbn; try apply IH.
    + destruct (IsModuleLoaded_LevelEditor Engine); [destruct (GetFirstActiveViewport Engine)|];
        cbn; apply IH.
    + destruct (Map !! ContextHandle Context) as [PlaySession|]; cbn; [|apply IH].
      destruct (DestinationSlateViewport PlaySession); cbn; [apply IH|].
      destruct (SlatePlayInEditorWindowViewport PlaySession); cbn; apply IH.
Qed.

Lemma GetCapturingViewport_Contexts_idle (Engine : UEngine) (Contexts : list FWorldContext) :
  no_editor_or_play_world Contexts ->
  forall Out, GetCapturingViewport_Contexts Engine Contexts Out = Done Out.
Proof.
  induction 1 as [|Context rest [HE HP] _ IH]; intros Out; cbn; [reflexivity|].
  unfold GetCapturingViewport_Context.
  destruct (WorldType Context); try congruence; cbn; apply IH.
Qed.

(** In the editor the last world context that has something to offer
    decides.  When that context is a play-in-editor world with a session:
    the level viewport the session plays in wins over whatever earlier
    contexts found, even when the scene viewport it shows is an empty
    pointer; without such a level viewport the session's own window wins;
    with neither, the result is what the earlier contexts found. *)
Theorem GetCapturingViewport_last_session_wins
    (Engine : UEngine) (Map : gmap string FSlatePlayInEditorInfo)
    (Before After : list FWorldContext) (Context : FWorldContext)
    (PlaySession : FSlatePlayInEditorInfo) :
  GIsEditor Engine = true ->
  GetWorldContexts Engine = Before ++ Context :: After ->
  SlatePlayInEditorMap Engine = Some Map ->
  WorldType Context = EWorldType_PIE ->
  Map !! ContextHandle Context = Some PlaySession ->
  no_editor_or_play_world After ->
  (forall DestinationLevelViewport,
     DestinationSlateViewport PlaySession = Some DestinationLevelViewport ->
     GetCapturingViewport_of Engine =
       Done (GetSharedActiveViewport DestinationLevelViewport)) /\
  (forall WindowViewport,
     DestinationSlateViewport PlaySession = None ->
     SlatePlayInEditorWindowViewport PlaySession = Some WindowViewport ->
     GetCapturingViewport_of Engine = Done (Some WindowViewport)) /\
  (DestinationSlateViewport PlaySession = None ->
   SlatePlayInEditorWindowViewport PlaySession = None ->
   GetCapturingViewport_of Engine = GetCapturingViewport_Contexts Engine Before None).
Proof.
  intros HG HC HM HT HS HA. unfold GetCapturingViewport_of. rewrite HG, HC.
  rewrite GetCapturingViewport_Contexts_app.
  destruct (GetCapturingViewport_Contexts_total Engine Map Before HM None) as [Mid HB].
  rewrite HB. cbn. unfold GetCapturingViewport_Context. rewrite HT, HM, HS.
  split; [|split].
  - intros Destination ->. cbn. apply GetCapturingViewport_Contexts_idle. exact HA.
  - intros WindowViewport -> ->. cbn. apply GetCapturingViewport_Contexts_idle. exact HA.
  - intros -> ->. cbn. apply GetCapturingViewport_Contexts_idle. exact HA.
Qed.

Lemma GetCapturingViewport_last_session_witness :
  GetCapturingViewport_Contexts sample_engine [mkWorldContext EWorldType_Editor "Context_0"] None
    = Done (Some sample_viewport) /\
  GetCapturingViewport_of sample_engine = Done None.
Proof.
  split; [reflexivity|].
  destruct (GetCapturingViewport_last_session_wins sample_engine
              {[ "Context_1"%string := sample_play_session ]}
              [mkWorldContext EWorldType_Editor "Context_0"]
              [mkWorldContext EWorldType_Inactive "Context_2"]
              (mkWorldContext EWorldType_PIE "Context_1") sample_play_session)
    as (Hdestination & _ & _).
  - reflexivity.
  - reflexivity.
  - reflexivity.
  - reflexivity.
  - vm_compute. reflexivity.
  - repeat constructor; discriminate.
  - exact (Hdestination (mkAssetViewport None) eq_refl).
Defined.

(** Both capture paths go through the capturing viewport unchecked.  In an
    editor none of whose world contexts is an editor or a play world the
    search yields the empty pointer, and then [CaptureFromViewportSource]
    fails on it at once, and so does [CaptureFromSceneCaptureSource] for a
    request that brings its own capture source, whether or not that source
    has a render target to take the size from; the world is left as it
    was. *)
Theorem capture_needs_a_viewport
    (Engine : UEngine) (w : World) (Input : FStableDiffusionInput) :
  GIsEditor Engine = true ->
  no_editor_or_play_world (GetWorldContexts Engine) ->
  GetCapturingViewport_of Engine = Done (CapturingViewport w) ->
  CaptureFromViewportSource Input w = (Crash InvalidSharedPointer, w) /\
  (forall Source,
     CaptureSource Input = Some Source ->
     CaptureFromSceneCaptureSource Input w = (Crash InvalidSharedPointer, w)).
Proof.
  intros HG HC Hlink. unfold GetCapturingViewport_of in Hlink. rewrite HG in Hlink.
  rewrite (GetCapturingViewport_Contexts_idle Engine _ HC) in Hlink.
  injection Hlink as Hnone. symmetry in Hnone. split.
  - unfold CaptureFromViewportSource, GetCapturingViewport, bind, gets. rewrite Hnone.
    reflexivity.
  - intros Source HS. unfold CaptureFromSceneCaptureSource, GetCapturingViewport. rewrite HS.
    unfold bind, gets. cbn. rewrite Hnone. reflexivity.
Qed.

Lemma capture_needs_a_viewport_witness :
  CaptureFromViewportSource request_A headless_world =
    (Crash InvalidSharedPointer, headless_world) /\
  CaptureFromSceneCaptureSource request_B headless_world =
    (Crash InvalidSharedPointer, headless_world).
Proof.
  destruct (capture_needs_a_viewport headless_engine headless_world request_A) as [Hv _].
  { reflexivity. } { repeat constructor; discriminate. } { reflexivity. }
  destruct (capture_needs_a_viewport headless_engine headless_world request_B) as [_ Hs].
  { reflexivity. } { repeat constructor; discriminate. } { reflexivity. }
  split; [exact Hv|]. apply (Hs sample_source). reflexivity.
Defined.

(** ** Textures *)

Lemma frame_bytes (SizeX SizeY : Z) :
  0 < SizeX < 2 ^ 31 -> 0 < SizeY < 2 ^ 31 ->
  size_t (size_t (size_t (1 * size_t SizeX) * size_t SizeY) * 4) / 4 = SizeX * SizeY.
Proof.
  intros HX HY. unfold size_t.
  assert (0 < SizeX * SizeY < 2 ^ 62) by nia.
  rewrite (Z.mod_small SizeX), (Z.mod_small SizeY) by lia.
  rewrite Z.mul_1_l, (Z.mod_small SizeX) by lia.
  rewrite (Z.mod_small (SizeX * SizeY)) by lia.
  rewrite Z.mod_small by lia. apply Z.div_mul. lia.
Qed.

Lemma ColorBufferToTexture_enough_pixels
    (FrameName : string) (FrameColors : TArray_FColor) (FrameSize : FIntPoint)
    (OutTex : option UTexture2D) :
  0 < X FrameSize < 2 ^ 31 ->
  0 < Y FrameSize < 2 ^ 31 ->
  X FrameSize * Y FrameSize <= Z.of_nat (length FrameColors) ->
  ColorBufferToTexture FrameName FrameColors FrameSize OutTex =
    Done (Some (mkTexture (X FrameSize) (Y FrameSize)
                  (take (Z.to_nat (X FrameSize * Y FrameSize)) FrameColors)
                  TMGS_NoMipmaps true true)).
Proof.
  intros HX HY Hlen.
  assert (0 < X FrameSize * Y FrameSize) as Hpos by nia.
  unfold ColorBufferToTexture.
  destruct (Nat.eqb_spec (length FrameColors) 0); [lia|].
  unfold ColorBufferToTexture_FrameData, UTexture2D_CreateTransient.
  destruct (Z.ltb_spec 0 (X FrameSize)); [|lia].
  destruct (Z.ltb_spec 0 (Y FrameSize)); [|lia].
  assert (forall Tex,
            Memcpy_pixels (Source_Mip0 (FTextureSource_Init (X FrameSize) (Y FrameSize) Tex))
              FrameColors
              (size_t (size_t (size_t (1 * size_t (X FrameSize)) * size_t (Y FrameSize)) * 4))
            = Done (take (Z.to_nat (X FrameSize * Y FrameSize)) FrameColors)) as Hcopy.
  { intros Tex. unfold Memcpy_pixels. rewrite frame_bytes by assumption.
    cbn [Source_Mip0 FTextureSource_Init]. rewrite length_replicate.
    destruct (Z.eqb_spec (X FrameSize * Y FrameSize) 0); [lia|].
    destruct (Z.leb_spec (X FrameSize * Y FrameSize) (Z.of_nat (length FrameColors))); [|lia].
    destruct (Z.leb_spec (X FrameSize * Y FrameSize)
                (Z.of_nat (Z.to_nat (X FrameSize * Y FrameSize)))); [|lia].
    cbn. rewrite drop_ge by (rewrite length_replicate; lia). rewrite app_nil_r. reflexivity. }
  destruct OutTex as [Tex|]; cbn [andb]; rewrite Hcopy; reflexivity.
Qed.

(** [ColorBufferToTexture] for a frame size with positive [int32] members:
    the texture has the frame's size and settings and holds the first
    [FrameSize.X * FrameSize.Y] pixels of the array, all of them when the
    array has exactly that many, and it is the same whether a texture was
    passed in or not; an array that is not empty but shorter than the frame
    is read past its end; an empty array gives the null pointer. *)
Theorem ColorBufferToTexture_keeps_the_pixels
    (FrameName : string) (FrameColors : TArray_FColor) (FrameSize : FIntPoint)
    (OutTex : option UTexture2D) :
  0 < X FrameSize < 2 ^ 31 ->
  0 < Y FrameSize < 2 ^ 31 ->
  (X FrameSize * Y FrameSize <= Z.of_nat (length FrameColors) ->
   ColorBufferToTexture FrameName FrameColors FrameSize OutTex =
     Done (Some (mkTexture (X FrameSize) (Y FrameSize)
                   (take (Z.to_nat (X FrameSize * Y FrameSize)) FrameColors)
                   TMGS_NoMipmaps true true))) /\
  (Z.of_nat (length FrameColors) = X FrameSize * Y FrameSize ->
   ColorBufferToTexture FrameName FrameColors FrameSize OutTex =
     Done (Some (mkTexture (X FrameSize) (Y FrameSize) FrameColors TMGS_NoMipmaps true true))) /\
  (0 < Z.of_nat (length FrameColors) < X FrameSize * Y FrameSize ->
   ColorBufferToTexture FrameName FrameColors FrameSize OutTex = Crash AccessViolation) /\
  (FrameColors = [] ->
   ColorBufferToTexture FrameName FrameColors FrameSize OutTex = Done None).
Proof.
  intros HX HY. split; [|split; [|split]].
  - apply ColorBufferToTexture_enough_pixels; assumption.
  - intros Hlen. rewrite ColorBufferToTexture_enough_pixels by (assumption || lia).
    rewrite take_ge by lia. reflexivity.
  - intros Hlen. assert (0 < X FrameSize * Y FrameSize) as Hpos by nia.
    unfold ColorBufferToTexture.
    destruct (Nat.eqb_spec (length FrameColors) 0); [lia|].
    unfold ColorBufferToTexture_FrameData, UTexture2D_CreateTransient.
    destruct (Z.ltb_spec 0 (X FrameSize)); [|lia].
    destruct (Z.ltb_spec 0 (Y FrameSize)); [|lia].
    assert (forall Storage,
              Memcpy_pixels Storage FrameColors
                (size_t (size_t (size_t (1 * size_t (X FrameSize)) * size_t (Y FrameSize)) * 4))
              = Crash AccessViolation) as Hcopy.
    { intros Storage. unfold Memcpy_pixels. rewrite frame_bytes by assumption.
      destruct (Z.eqb_spec (X FrameSize * Y FrameSize) 0); [lia|].
      destruct (Z.leb_spec (X FrameSize * Y FrameSize) (Z.of_nat (length FrameColors)));
        [lia|].
      reflexivity. }
    destruct OutTex as [Tex|]; cbn [andb]; rewrite Hcopy; reflexivity.
  - intros ->. reflexivity.
Qed.

Lemma ColorBufferToTexture_keeps_the_pixels_witness :
  ColorBufferToTexture "Frame" [Some (grey 0); Some (grey 1); Some (grey 2); Some (grey 3)]
    (mkFIntPoint 2 2) None =
    Done (Some (mkTexture 2 2 [Some (grey 0); Some (grey 1); Some (grey 2); Some (grey 3)]
                  TMGS_NoMipmaps true true)) /\
  ColorBufferToTexture "Frame" [Some (grey 0); Some (grey 1); Some (grey 2)]
    (mkFIntPoint 2 2) None = Crash AccessViolation.
Proof.
  destruct (ColorBufferToTexture_keeps_the_pixels "Frame"
              [Some (grey 0); Some (grey 1); Some (grey 2); Some (grey 3)]
              (mkFIntPoint 2 2) None) as (_ & Hall & _); [cbn; lia|cbn; lia|].
  destruct (ColorBufferToTexture_keeps_the_pixels "Frame"
              [Some (grey 0); Some (grey 1); Some (grey 2)]
              (mkFIntPoint 2 2) None) as (_ & _ & Hshort & _); [cbn; lia|cbn; lia|].
  split; [apply Hall; reflexivity|apply Hshort; cbn; lia].
Defined.

Lemma CopyFrameData_returned_length (TargetSize BufferSize : FIntPoint)
    (ColorBuffer : list FColor) (CopiedFrame : TArray_FColor) :
  CopyFrameData TargetSize BufferSize ColorBuffer = Done CopiedFrame ->
  Z.of_nat (length CopiedFrame) = int32 (X TargetSize * Y TargetSize).
Proof.
  unfold CopyFrameData. set (Count := int32 (X TargetSize * Y TargetSize)).
  destruct (Z.ltb_spec Count 0) as [Hneg|Hnn].
  - unfold InsertUninitialized. destruct (Z.ltb_spec Count 0); [discriminate|lia].
  - rewrite InsertUninitialized_empty by exact Hnn. cbn [Outcome_bind].
    unfold ElementAddress. rewrite length_replicate, Z2Nat.id by exact Hnn.
    destruct (Z.ltb_spec 0 Count) as [Hpos|]; cbn [Z.leb Z.compare andb Outcome_bind];
      [|discriminate].
    intros Hrows. apply CopyFrameData_rows_length in Hrows.
    rewrite Hrows, length_replicate, Z2Nat.id by exact Hnn. reflexivity.
Qed.

(** What [CopyFrameData] returns for a target size can be made a texture
    of that size: for positive sizes whose product fits an [int32],
    [ColorBufferToTexture] on the copied frame returns a texture holding
    the copied frame cell for cell, unwritten cells included; it never
    reads past the frame's end. *)
Theorem a_copied_frame_makes_a_texture
    (FrameName : string) (TargetSize BufferSize : FIntPoint) (ColorBuffer : list FColor)
    (CopiedFrame : TArray_FColor) (OutTex : option UTexture2D) :
  0 < X TargetSize -> 0 < Y TargetSize ->
  X TargetSize * Y TargetSize < 2 ^ 31 ->
  CopyFrameData TargetSize BufferSize ColorBuffer = Done CopiedFrame ->
  ColorBufferToTexture FrameName CopiedFrame TargetSize OutTex =
    Done (Some (mkTexture (X TargetSize) (Y TargetSize) CopiedFrame TMGS_NoMipmaps true true)).
Proof.
  intros HX HY Hfit Hcopy. apply CopyFrameData_returned_length in Hcopy.
  rewrite int32_small in Hcopy by nia.
  rewrite ColorBufferToTexture_enough_pixels by nia.
  rewrite take_ge by lia. reflexivity.
Qed.

Lemma a_copied_frame_makes_a_texture_witness :
  ColorBufferToTexture "Frame" [Some (grey 0); Some (grey 1); Some (grey 3); Some (grey 4)]
    (mkFIntPoint 2 2) None =
    Done (Some (mkTexture 2 2 [Some (grey 0); Some (grey 1); Some (grey 3); Some (grey 4)]
                  TMGS_NoMipmaps true true)).
Proof.
  apply (a_copied_frame_makes_a_texture "Frame" (mkFIntPoint 2 2) (mkFIntPoint 3 2)
           sample_frame); cbn; try lia.
  reflexivity.
Defined.

(** ** The subsystem's session *)

Lemma Session_bind_done {A B : Type} (m : SM A) (k : A -> SM B) (s : Session) (a : A)
    (s' : Session) :
  m s = (Done a, s') -> Session_bind m k s = k a s'.
Proof. intros H. unfold Session_bind. rewrite H. reflexivity. Qed.

(** Name the members of a session and compute with them. *)
Ltac open_session s :=
  destruct s as [w python_loaded manager camera_handle layer_handle last_pose timer
                 bridge_session progress equal generator_type classes python delegates
                 next_handle session_game session_background session_calls
                 session_broadcasts];
  cbn in *; subst.

(** While [IsBridgeLoaded] answers false, every call that goes through the
    bridge returns its default and changes nothing at all: [GetToken] the
    empty string, [HasToken] and [LoginUsingToken] false, [InitModel] and
    [ReleaseModel] without any effect (no lambda queued, no
    [OnModelInitializedEx]), and likewise [GenerateImage] and
    [UpsampleImage]. *)
Theorem without_a_bridge_every_call_is_idle (s : Session) :
  fst (IsBridgeLoaded (Pipeline s)) = Done false ->
  GetToken s = (Done EmptyString, s) /\
  HasToken s = (Done false, s) /\
  (forall token, LoginUsingToken token s = (Done false, s)) /\
  (forall Model Async AllowNSFW PaddingMode,
     InitModel Model Async AllowNSFW PaddingMode s = (Done tt, s)) /\
  ReleaseModel s = (Done tt, s) /\
  (forall Input ImageSourceType,
     pipeline (GenerateImage Input ImageSourceType) s = (Done tt, s)) /\
  (forall input, pipeline (UpsampleImage input) s = (Done tt, s)).
Proof.
  intros Hb. open_session s. open_world w. destruct bridge; [discriminate|].
  repeat split.
Qed.

Lemma without_a_bridge_every_call_is_idle_witness :
  HasToken (sample_session bridgeless_world) = (Done false, sample_session bridgeless_world) /\
  InitModel (mkModelOptions sample_layers) true false 0 (sample_session bridgeless_world) =
    (Done tt, sample_session bridgeless_world) /\
  ReleaseModel (sample_session bridgeless_world) = (Done tt, sample_session bridgeless_world).
Proof.
  destruct (without_a_bridge_every_call_is_idle (sample_session bridgeless_world) eq_refl)
    as (_ & Htoken & _ & Hinit & Hrelease & _).
  split; [exact Htoken|]. split; [apply Hinit|exact Hrelease].
Defined.

(** [InitModel] on a loaded bridge, not asynchronous: [ModelInitialised]
    becomes the bridge's answer; the declared layers ([ModelOptions]) are
    replaced by the new model's only when the answer is true, so after a
    model failed to load the subsystem is marked uninitialised and still
    holds the layers of the model before; the bridge stays, nothing is
    broadcast at the call, and one lambda that will broadcast
    [OnModelInitializedEx] is queued for the game thread. *)
Theorem InitModel_failure_keeps_the_old_model
    (s : Session) (Model : FStableDiffusionModelOptions) (AllowNSFW : bool)
    (PaddingMode : EPaddingMode) (loaded : UStableDiffusionBridge) :
  GeneratorBridge (Pipeline s) = Some loaded ->
  exists s',
    InitModel Model false AllowNSFW PaddingMode s = (Done tt, s') /\
    ModelInitialised (Pipeline s') =
      Bridge_InitModel (GeneratorBridge_Session s) Model AllowNSFW PaddingMode /\
    ModelOptions_Layers (Pipeline s') =
      (if Bridge_InitModel (GeneratorBridge_Session s) Model AllowNSFW PaddingMode
       then Model_Layers Model else ModelOptions_Layers (Pipeline s)) /\
    GeneratorBridge (Pipeline s') = Some loaded /\
    Session_GameThread s' = Session_GameThread s ++ [OnModelInitialized_lambda] /\
    Session_Broadcasts s' = Session_Broadcasts s.
Proof.
  intros Hb. open_session s. open_world w.
  unfold InitModel, InitModel_now, Session_bind, pipeline. cbn.
  destruct (Bridge_InitModel bridge_session Model AllowNSFW PaddingMode) eqn:Hok; cbn;
    eexists; (split; [reflexivity|]); cbn; rewrite ?Hok; repeat split.
Qed.

Lemma InitModel_failure_keeps_the_old_model_witness :
  exists s',
    InitModel (mkModelOptions []) false false 0 (sample_session layered_world) = (Done tt, s') /\
    ModelInitialised (Pipeline s') = false /\
    ModelOptions_Layers (Pipeline s') = sample_layers.
Proof.
  destruct (InitModel_failure_keeps_the_old_model (sample_session layered_world)
              (mkModelOptions []) false 0 (echo_bridge true) eq_refl)
    as (s' & Hrun & Hflag & Hlayers & _).
  exists s'. split; [exact Hrun|]. split; [exact Hflag|exact Hlayers].
Defined.

(** Asynchronous [InitModel] followed by the background worker running
    its lambda ends in the very state that [InitModel] without [Async]
    reaches at once, on a loaded bridge with no other background lambda
    queued before it. *)
Theorem InitModel_async_is_InitModel_later
    (s : Session) (Model : FStableDiffusionModelOptions) (AllowNSFW : bool)
    (PaddingMode : EPaddingMode) (loaded : UStableDiffusionBridge) :
  GeneratorBridge (Pipeline s) = Some loaded ->
  Session_Background s = [] ->
  (InitModel Model true AllowNSFW PaddingMode;+ Session_Background_tick) s =
  InitModel Model false AllowNSFW PaddingMode s.
Proof.
  intros Hb Hq. open_session s. open_world w.
  unfold InitModel, Session_Background_tick, RunSessionBackgroundTask, InitModel_now,
    Session_bind, pipeline. cbn.
  destruct (Bridge_InitModel bridge_session Model AllowNSFW PaddingMode) eqn:Hok; cbn;
    rewrite ?Hok; cbn; reflexivity.
Qed.

Lemma InitModel_async_is_InitModel_later_witness :
  (InitModel (mkModelOptions sample_layers) true false 0;+ Session_Background_tick)
    ready_session =
  InitModel (mkModelOptions sample_layers) false false 0 ready_session.
Proof.
  exact (InitModel_async_is_InitModel_later ready_session (mkModelOptions sample_layers)
           false 0 (echo_bridge true) eq_refl eq_refl).
Defined.

(** The lambda that broadcasts [OnModelInitializedEx] reads
    [ModelInitialised] when it runs, not when it was queued: after an
    [InitModel] that succeeded the broadcast says true, but when
    [ReleaseModel] comes in between the broadcast says false, although the
    model did load and its layers are the declared ones. *)
Theorem OnModelInitializedEx_reports_the_flag_of_its_moment
    (s : Session) (Model : FStableDiffusionModelOptions) (AllowNSFW : bool)
    (PaddingMode : EPaddingMode) (loaded : UStableDiffusionBridge) :
  GeneratorBridge (Pipeline s) = Some loaded ->
  Session_GameThread s = [] ->
  Bridge_InitModel (GeneratorBridge_Session s) Model AllowNSFW PaddingMode = true ->
  (exists s',
     (InitModel Model false AllowNSFW PaddingMode;+ Session_GameThread_tick) s = (Done tt, s') /\
     Session_Broadcasts s' = Session_Broadcasts s ++ [OnModelInitializedEx true]) /\
  (exists s',
     (InitModel Model false AllowNSFW PaddingMode;+ ReleaseModel;+ Session_GameThread_tick) s
       = (Done tt, s') /\
     Session_Broadcasts s' = Session_Broadcasts s ++ [OnModelInitializedEx false] /\
     Session_Calls s' = Session_Calls s ++ [Bridge_ReleaseModel] /\
     ModelInitialised (Pipeline s') = false /\
     ModelOptions_Layers (Pipeline s') = Model_Layers Model).
Proof.
  intros Hb Hq Hok. open_session s. open_world w.
  unfold InitModel, ReleaseModel, Session_GameThread_tick, RunSessionGameThreadTask,
    InitModel_now, Session_bind, pipeline.
  cbn. rewrite Hok. cbn. split; eexists; (split; [reflexivity|]); repeat split.
Qed.

Lemma OnModelInitializedEx_reports_the_flag_witness :
  exists s',
    (InitModel (mkModelOptions []) false false 0;+ ReleaseModel;+ Session_GameThread_tick)
      ready_session = (Done tt, s') /\
    Session_Broadcasts s' = [OnModelInitializedEx false] /\
    ModelOptions_Layers (Pipeline s') = [].
Proof.
  destruct (OnModelInitializedEx_reports_the_flag_of_its_moment ready_session
              (mkModelOptions []) false 0 (echo_bridge true) eq_refl eq_refl eq_refl)
    as (_ & s' & Hrun & Hbroadcast & _ & _ & Hlayers).
  exists s'. split; [exact Hrun|]. split; [exact Hbroadcast|exact Hlayers].
Defined.

(** *** Forwarding the bridge's progress *)

Lemma OnImageProgressEx_invoke_counts (Bound : list DynamicBinding) (Step Timestep : Z)
    (Progress : float_bits) (Size : FIntPoint) (PixelData : TArray_FColor) :
  forall s,
  OnImageProgressEx_invoke Bound Step Timestep Progress Size PixelData s =
    (Done tt,
     set_Session_Broadcasts
       (Session_Broadcasts s ++
        replicate (bound_to_subsystem Bound)
          (OnImageProgressUpdated Step Timestep Progress Size PixelData)) s).
Proof.
  unfold bound_to_subsystem. induction Bound as [|b rest IH]; intros s.
  - cbn. rewrite app_nil_r. destruct s; reflexivity.
  - cbn [OnImageProgressEx_invoke]. destruct b as [|Object].
    + unfold Session_bind at 1. cbn. rewrite IH. destruct s; cbn.
      rewrite <- app_assoc. reflexivity.
    + unfold Session_bind at 1. cbn. apply IH.
Qed.

Lemma bound_to_subsystem_app (l1 l2 : list DynamicBinding) :
  bound_to_subsystem (l1 ++ l2) = (bound_to_subsystem l1 + bound_to_subsystem l2)%nat.
Proof. unfold bound_to_subsystem. rewrite List.filter_app, length_app. reflexivity. Qed.

Lemma bound_to_subsystem_elem (Bound : list DynamicBinding) :
  Subsystem_UpdateImageProgress ∈ Bound -> (0 < bound_to_subsystem Bound)%nat.
Proof.
  intros Hin. apply list_elem_of_split in Hin as (l1 & l2 & ->).
  change (Subsystem_UpdateImageProgress :: l2) with ([Subsystem_UpdateImageProgress] ++ l2).
  rewrite !bound_to_subsystem_app.
  change (bound_to_subsystem [Subsystem_UpdateImageProgress]) with 1%nat. lia.
Qed.

Lemma bound_to_subsystem_not_elem (Bound : list DynamicBinding) :
  Subsystem_UpdateImageProgress ∉ Bound -> bound_to_subsystem Bound = 0%nat.
Proof.
  induction Bound as [|b rest IH]; [reflexivity|].
  rewrite not_elem_of_cons. intros [Hne Hout]. unfold bound_to_subsystem. cbn.
  rewrite bool_decide_false by congruence. apply IH. exact Hout.
Qed.

Lemma bound_after_AddUniqueDynamic (Bound : list DynamicBinding) :
  (bound_to_subsystem Bound <= 1)%nat ->
  bound_to_subsystem (AddUniqueDynamic Subsystem_UpdateImageProgress Bound) = 1%nat.
Proof.
  intros Hle. unfold AddUniqueDynamic.
  destruct (decide (Subsystem_UpdateImageProgress ∈ Bound)) as [Hin|Hout].
  - apply bound_to_subsystem_elem in Hin. lia.
  - rewrite bound_to_subsystem_app, (bound_to_subsystem_not_elem _ Hout). reflexivity.
Qed.

Lemma bound_after_RemoveDynamic (Bound : list DynamicBinding) :
  (bound_to_subsystem Bound <= 1)%nat ->
  bound_to_subsystem (RemoveDynamic Subsystem_UpdateImageProgress Bound) = 0%nat.
Proof.
  intros Hle. unfold RemoveDynamic.
  destruct (list_find (fun x => x = Subsystem_UpdateImageProgress) Bound)
    as [[Index x]|] eqn:Hfind.
  - apply list_find_Some in Hfind as (Hlook & -> & _).
    apply list_elem_of_split_length in Hlook as (Before & After & -> & ->).
    rewrite bound_to_subsystem_app in Hle.
    change (Subsystem_UpdateImageProgress :: After)
      with ([Subsystem_UpdateImageProgress] ++ After) in Hle.
    rewrite bound_to_subsystem_app in Hle.
    change (bound_to_subsystem [Subsystem_UpdateImageProgress]) with 1%nat in Hle.
    unfold RemoveAtSwap.
    destruct After as [|a After0] using rev_ind.
    + rewrite last_snoc. rewrite list_insert_id by (apply list_lookup_middle; reflexivity).
      rewrite length_app. cbn [length].
      replace (length Before + 1 - 1)%nat with (length Before) by lia.
      rewrite take_app_length. lia.
    + clear IHAfter0. rewrite bound_to_subsystem_app in Hle.
      rewrite app_comm_cons, app_assoc, last_snoc.
      rewrite <- app_assoc, <- app_comm_cons.
      rewrite insert_app_r_alt by lia. rewrite Nat.sub_diag. cbn [insert list_insert].
      rewrite app_comm_cons, app_assoc.
      replace (length ((Before ++ Subsystem_UpdateImageProgress :: After0) ++ [a]) - 1)%nat
        with (length (Before ++ a :: After0)).
      2:{ rewrite !length_app. cbn. lia. }
      replace (Before ++ a :: After0 ++ [a]) with ((Before ++ a :: After0) ++ [a])
        by (rewrite <- app_assoc; reflexivity).
      rewrite take_app_length.
      rewrite bound_to_subsystem_app.
      change (a :: After0) with ([a] ++ After0). rewrite bound_to_subsystem_app. lia.
  - apply list_find_None in Hfind. apply bound_to_subsystem_not_elem.
    intros Hin. rewrite Forall_forall in Hfind. apply (Hfind _ Hin). reflexivity.
Qed.

(** The bridge's progress reaches [OnImageProgressUpdated] once per event,
    however often [InitModel] was called: on a loaded bridge to whose
    [OnImageProgressEx] the subsystem is bound at most once, it is bound
    exactly once after any [InitModel] and not at all after
    [ReleaseModel]; and a broadcast of [OnImageProgressEx] is passed on as
    many times as the subsystem is bound, with the bridge's arguments. *)
Theorem progress_is_forwarded_once (s : Session) (loaded : UStableDiffusionBridge) :
  GeneratorBridge (Pipeline s) = Some loaded ->
  (bound_to_subsystem (OnImageProgressEx s) <= 1)%nat ->
  (forall Model Async AllowNSFW PaddingMode,
     bound_to_subsystem
       (OnImageProgressEx (snd (InitModel Model Async AllowNSFW PaddingMode s))) = 1%nat) /\
  bound_to_subsystem (OnImageProgressEx (snd (ReleaseModel s))) = 0%nat /\
  (forall Step Timestep Progress Size PixelData,
     OnImageProgressEx_Broadcast Step Timestep Progress Size PixelData s =
       (Done tt,
        set_Session_Broadcasts
          (Session_Broadcasts s ++
           replicate (bound_to_subsystem (OnImageProgressEx s))
             (OnImageProgressUpdated Step Timestep Progress Size PixelData)) s)).
Proof.
  intros Hb Hle. split; [|split].
  - intros Model Async AllowNSFW PaddingMode.
    pose proof (bound_after_AddUniqueDynamic _ Hle) as Hone.
    open_session s. open_world w.
    unfold InitModel, InitModel_now, Session_bind, pipeline. cbn.
    destruct Async; cbn; [exact Hone|].
    destruct (Bridge_InitModel bridge_session Model AllowNSFW PaddingMode); cbn; exact Hone.
  - pose proof (bound_after_RemoveDynamic _ Hle) as Hnone.
    open_session s. open_world w. exact Hnone.
  - intros Step Timestep Progress Size PixelData.
    unfold OnImageProgressEx_Broadcast, Session_bind, Session_gets.
    apply OnImageProgressEx_invoke_counts.
Qed.

Lemma progress_is_forwarded_once_witness :
  bound_to_subsystem
    (OnImageProgressEx
       (snd ((InitModel (mkModelOptions sample_layers) true false 0;+
              InitModel (mkModelOptions []) false true 1) (sample_session idle_world))))
    = 1%nat.
Proof.
  pose (s1 := snd (InitModel (mkModelOptions sample_layers) true false 0
                     (sample_session idle_world))).
  destruct (progress_is_forwarded_once s1 (echo_bridge true) eq_refl) as (Hinit & _ & _).
  - vm_compute. lia.
  - exact (Hinit (mkModelOptions []) false true 1).
Defined.

(** *** Loading the bridge *)

Lemma CreateBridge_classes_skip (Before : list UClass) (BridgeClass : option UClass)
    (rest : list UClass) (s : Session) :
  Forall (fun Class => IsChildOf Class BridgeClass = false) Before ->
  CreateBridge_classes (Before ++ rest) BridgeClass s = CreateBridge_classes rest BridgeClass s.
Proof.
  induction 1 as [|Class Before Hc _ IH]; [reflexivity|].
  cbn [app CreateBridge_classes]. rewrite Hc. exact IH.
Qed.

Lemma CreateBridge_classes_none (Classes : list UClass) (BridgeClass : option UClass)
    (s : Session) :
  Forall (fun Class => IsChildOf Class BridgeClass = false) Classes ->
  CreateBridge_classes Classes BridgeClass s = (Done tt, s).
Proof.
  induction 1 as [|Class Classes Hc _ IH]; [reflexivity|].
  cbn [CreateBridge_classes]. rewrite Hc. exact IH.
Qed.

Lemma CreateBridge_classes_returns (Classes : list UClass) (BridgeClass : option UClass)
    (s : Session) :
  exists s',
    CreateBridge_classes Classes BridgeClass s = (Done tt, s') /\
    PythonLoaded s' = PythonLoaded s /\
    Session_Broadcasts s' = Session_Broadcasts s.
Proof.
  induction Classes as [|Class Classes IH].
  - exists s. repeat split.
  - cbn [CreateBridge_classes]. destruct (IsChildOf Class BridgeClass); [|exact IH].
    unfold ExecPythonCommandEx_CreateBridge, Session_bind, pipeline.
    open_session s. open_world w.
    destruct (python (UClass_GetName Class)) as [[Bridge Bridge_Session]|]; cbn;
      eexists; (split; [reflexivity|]); repeat split.
Qed.

(** [CreateBridge] for a class other than the base class runs one Python
    statement, for the first derived class, in the engine's order, that is
    the requested class or a child of it, and tries no class after it.
    When Python constructs the bridge it becomes [GeneratorBridge] and is
    announced on [OnBridgeLoadedEx]; when Python fails, [GeneratorBridge]
    keeps what it held, and if that was a bridge loaded earlier this older
    bridge is announced as loaded. *)
Theorem CreateBridge_tries_one_class
    (s : Session) (BridgeClass : option UClass) (Before After : list UClass)
    (DerivedBridgeClass : UClass) :
  BridgeClass <> Some UStableDiffusionBridge_StaticClass ->
  GetDerivedClasses s = Before ++ DerivedBridgeClass :: After ->
  Forall (fun Class => IsChildOf Class BridgeClass = false) Before ->
  IsChildOf DerivedBridgeClass BridgeClass = true ->
  exists s',
    CreateBridge BridgeClass s = (Done tt, s') /\
    Session_Calls s' =
      Session_Calls s ++
        [ExecPythonCommandEx (PythonCommand (UClass_GetName DerivedBridgeClass))] /\
    match Python_bridges s (UClass_GetName DerivedBridgeClass) with
    | Some (Bridge, Bridge_Session) =>
        GeneratorBridge (Pipeline s') = Some Bridge /\
        GeneratorBridge_Session s' = Bridge_Session /\
        Session_Broadcasts s' = Session_Broadcasts s ++ [OnBridgeLoadedEx Bridge]
    | None =>
        GeneratorBridge (Pipeline s') = GeneratorBridge (Pipeline s) /\
        GeneratorBridge_Session s' = GeneratorBridge_Session s /\
        Session_Broadcasts s' =
          Session_Broadcasts s ++
            match GeneratorBridge (Pipeline s) with
            | Some Stale => [OnBridgeLoadedEx Stale]
            | None => []
            end
    end.
Proof.
  intros Hbase HD HB HC. unfold CreateBridge.
  destruct (decide (BridgeClass = Some UStableDiffusionBridge_StaticClass)); [contradiction|].
  unfold Session_bind at 1. cbn. rewrite HD. unfold Session_bind at 1.
  rewrite (CreateBridge_classes_skip Before BridgeClass _ s HB).
  cbn [CreateBridge_classes]. rewrite HC.
  unfold ExecPythonCommandEx_CreateBridge, Session_bind, pipeline.
  open_session s. open_world w.
  destruct (python (UClass_GetName DerivedBridgeClass)) as [[Bridge Bridge_Session]|]; cbn.
  - eexists. split; [reflexivity|]. repeat split.
  - destruct bridge; cbn; eexists; (split; [reflexivity|]); cbn; rewrite ?app_nil_r;
      repeat split.
Qed.

Lemma CreateBridge_tries_one_class_witness :
  exists s',
    CreateBridge (Some ["DiffusersBridge"; "StableDiffusionBridge"; "Object"]%string)
      (sample_session bridgeless_world) = (Done tt, s') /\
    Session_Calls s' = [ExecPythonCommandEx (PythonCommand "DiffusersBridge")] /\
    GeneratorBridge (Pipeline s') = Some (echo_bridge true) /\
    Session_Broadcasts s' = [OnBridgeLoadedEx (echo_bridge true)].
Proof.
  destruct (CreateBridge_tries_one_class (sample_session bridgeless_world)
              (Some ["DiffusersBridge"; "StableDiffusionBridge"; "Object"]%string)
              [["BrokenBridge"; "StableDiffusionBridge"; "Object"]%string] []
              ["DiffusersBridge"; "StableDiffusionBridge"; "Object"]%string)
    as (s' & Hrun & Hcalls & Hloaded).
  - discriminate.
  - reflexivity.
  - repeat constructor.
  - reflexivity.
  - exists s'. split; [exact Hrun|]. split; [exact Hcalls|].
    destruct Hloaded as (Hbridge & _ & Hbroadcast). split; [exact Hbridge|exact Hbroadcast].
Defined.

(** [CreateBridge] without a class to load: for the base class itself it
    returns without any effect, not even the announcement of a bridge that
    is loaded; for any other class of which no derived class is a child it
    runs no Python statement, leaves the bridge alone and announces the
    bridge that is loaded, if there is one. *)
Theorem CreateBridge_without_a_class_to_load (s : Session) :
  CreateBridge (Some UStableDiffusionBridge_StaticClass) s = (Done tt, s) /\
  (forall BridgeClass,
     BridgeClass <> Some UStableDiffusionBridge_StaticClass ->
     Forall (fun Class => IsChildOf Class BridgeClass = false) (GetDerivedClasses s) ->
     CreateBridge BridgeClass s =
       (Done tt,
        set_Session_Broadcasts
          (Session_Broadcasts s ++
           match GeneratorBridge (Pipeline s) with
           | Some Stale => [OnBridgeLoadedEx Stale]
           | None => []
           end) s)).
Proof.
  split.
  - unfold CreateBridge. destruct (decide _); [reflexivity|congruence].
  - intros BridgeClass Hbase Hnone. unfold CreateBridge.
    destruct (decide (BridgeClass = Some UStableDiffusionBridge_StaticClass)); [contradiction|].
    unfold Session_bind at 1. cbn. unfold Session_bind at 1.
    rewrite (CreateBridge_classes_none _ _ s Hnone).
    open_session s. open_world w. unfold Session_bind, pipeline. cbn.
    destruct bridge; cbn; rewrite ?app_nil_r; reflexivity.
Qed.

(** The lambda the constructor leaves with [OnPythonInitialized] always
    returns, sets [PythonLoaded] and broadcasts [OnPythonLoadedEx] and
    then [OnPythonLoaded], whether or not a bridge could be created; a
    bridge that is loaded by then was announced on [OnBridgeLoadedEx] just
    before, unless the settings name the base class. *)
Theorem Python_is_announced_with_or_without_a_bridge (s : Session) :
  exists s' announced,
    OnPythonInitialized_lambda s = (Done tt, s') /\
    PythonLoaded s' = true /\
    Session_Broadcasts s' =
      Session_Broadcasts s ++ announced ++ [OnPythonLoadedEx; OnPythonLoaded] /\
    announced =
      match GeneratorBridge (Pipeline s') with
      | Some Bridge =>
          if decide (Settings_GeneratorType s = Some UStableDiffusionBridge_StaticClass)
          then [] else [OnBridgeLoadedEx Bridge]
      | None => []
      end.
Proof.
  unfold OnPythonInitialized_lambda, CreateBridge.
  destruct (decide (Settings_GeneratorType s = Some UStableDiffusionBridge_StaticClass))
    as [Hbase|Hbase].
  - open_session s. unfold Session_bind. cbn.
    destruct (decide _) as [_|Hne]; [|congruence]. cbn.
    eexists. exists []. split; [reflexivity|]. cbn.
    destruct (GeneratorBridge w); repeat split; rewrite <- app_assoc; reflexivity.
  - unfold Session_bind at 1. cbn. unfold Session_bind at 1. cbn.
    destruct (decide _) as [Heq|_]; [destruct s; cbn in *; congruence|].
    unfold Session_bind at 1 2 3. cbn.
    match goal with
    | |- context [CreateBridge_classes ?C ?B ?s0] =>
        destruct (CreateBridge_classes_returns C B s0) as (s1 & Hrun & Hp & Hb)
    end.
    rewrite Hrun.
    open_session s1. open_world w. unfold Session_bind, pipeline. cbn.
    destruct bridge; cbn; eexists; eexists; (split; [reflexivity|]); cbn.
    + split; [reflexivity|]. split; [|reflexivity].
      destruct s; cbn in *. subst. rewrite <- ?app_assoc. reflexivity.
    + split; [reflexivity|]. split; [|reflexivity].
      destruct s; cbn in *. subst. rewrite <- ?app_assoc. reflexivity.
Qed.

(** Installing a dependency reports through the dependency manager or not
    at all: with nothing else queued, [InstallDependency], its background
    lambda and the game thread lambda that follows end in one broadcast of
    [OnDependencyInstalled] with the manager's answer; without a manager
    they end in the session they started from, with no broadcast and no
    lambda left, and [DependenciesAreInstalled] answers false. *)
Theorem InstallDependency_reports_through_the_manager
    (s : Session) (Dependency : FDependencyManifestEntry) (ForceReinstall : bool) :
  Session_Background s = [] ->
  Session_GameThread s = [] ->
  (InstallDependency Dependency ForceReinstall;+
   Session_Background_tick;+ Session_GameThread_tick) s =
    (Done tt,
     match DependencyManager s with
     | Some manager =>
         set_Session_Broadcasts
           (Session_Broadcasts s ++
            [OnDependencyInstalled (Manager_InstallDependency manager Dependency ForceReinstall)])
           s
     | None => s
     end) /\
  fst (DependenciesAreInstalled s) =
    Done match DependencyManager s with
         | Some manager => AllDependenciesInstalled manager
         | None => false
         end.
Proof.
  intros Hb Hg. open_session s. split; [|reflexivity].
  unfold Session_bind, pipeline. destruct manager; cbn; reflexivity.
Qed.

Lemma InstallDependency_reports_through_the_manager_witness :
  (InstallDependency 3 true;+ Session_Background_tick;+ Session_GameThread_tick)
    (sample_session idle_world) = (Done tt, sample_session idle_world) /\
  fst (DependenciesAreInstalled (sample_session idle_world)) = Done false.
Proof.
  exact (InstallDependency_reports_through_the_manager (sample_session idle_world) 3 true
           eq_refl eq_refl).
Defined.

(** ** Live preview *)

Lemma Remove_fresh (From : Delegate) (n : nat) (Bound : list FDelegateBinding) :
  Forall (fun b => (Handle b < n)%nat) Bound ->
  List.filter (fun b => negb (bool_decide (BoundTo b = From) && (Handle b =? n)%nat)) Bound
    = Bound.
Proof.
  induction 1 as [|b Bound Hb _ IH]; [reflexivity|]. cbn.
  destruct (Nat.eqb_spec (Handle b) n); [lia|].
  rewrite andb_false_r. cbn. rewrite IH. reflexivity.
Qed.

(** [SetLivePreviewEnabled], from a subsystem that is not watching: the
    first call binds one lambda, to the source's [TransformUpdated] or,
    without a source, to the editor camera, and a second enabling call is
    ignored whatever delay and source it names; disabling with the source
    the preview was enabled with unbinds the lambda and invalidates the
    handle, so that only the handle counter has moved. *)
Theorem SetLivePreviewEnabled_round_trip
    (s : Session) (Delay Delay' Delay'' : float_bits) (Source Source' : option ComponentRef) :
  OnCaptureCameraUpdatedDlgHandle s = None ->
  handles_are_fresh s ->
  (SetLivePreviewEnabled true Delay Source;+ SetLivePreviewEnabled true Delay' Source') s =
    (Done tt,
     set_OnCaptureCameraUpdatedDlgHandle (Some (NextDelegateHandle s))
       (set_Delegates
          (Delegates s ++
           [mkBinding (LivePreview_delegate Source) (NextDelegateHandle s)
              (LivePreview_lambda Delay Source)])
          (set_NextDelegateHandle (S (NextDelegateHandle s)) s))) /\
  (SetLivePreviewEnabled true Delay Source;+ SetLivePreviewEnabled false Delay'' Source) s =
    (Done tt, set_NextDelegateHandle (S (NextDelegateHandle s)) s).
Proof.
  intros Hh Hfresh. unfold handles_are_fresh in Hfresh. open_session s. split.
  - destruct Source, Source'; reflexivity.
  - destruct Source as [c|]; unfold SetLivePreviewEnabled, Session_bind; cbn;
      rewrite List.filter_app, (Remove_fresh _ _ _ Hfresh); cbn;
      rewrite bool_decide_true by reflexivity; rewrite Nat.eqb_refl; cbn;
      rewrite app_nil_r; reflexivity.
Qed.

Lemma SetLivePreviewEnabled_round_trip_witness :
  (SetLivePreviewEnabled true half_a_second (Some (ComponentOfCaller 7%nat));+
   SetLivePreviewEnabled false 0 (Some (ComponentOfCaller 7%nat)))
    (sample_session idle_world) =
    (Done tt, set_NextDelegateHandle 2%nat (sample_session idle_world)).
Proof.
  destruct (SetLivePreviewEnabled_round_trip (sample_session idle_world) half_a_second 0 0
              (Some (ComponentOfCaller 7%nat)) None eq_refl) as [_ Hback].
  - constructor.
  - exact Hback.
Defined.

(** Disabling must name the source the preview was enabled with: when it
    names another one, or none, the lambda stays bound to the delegate it
    was added to while the handle is invalidated, so the subsystem no
    longer knows the binding and a later enabling call adds another. *)
Theorem SetLivePreviewEnabled_must_be_disabled_with_its_source
    (s : Session) (Delay Delay' : float_bits) (Source Source' : option ComponentRef) :
  OnCaptureCameraUpdatedDlgHandle s = None ->
  handles_are_fresh s ->
  Source <> Source' ->
  (SetLivePreviewEnabled true Delay Source;+ SetLivePreviewEnabled false Delay' Source') s =
    (Done tt,
     set_Delegates
       (Delegates s ++
        [mkBinding (LivePreview_delegate Source) (NextDelegateHandle s)
           (LivePreview_lambda Delay Source)])
       (set_NextDelegateHandle (S (NextDelegateHandle s)) s)).
Proof.
  intros Hh Hfresh Hne. unfold handles_are_fresh in Hfresh. open_session s.
  destruct Source as [c|], Source' as [c'|]; try congruence;
    unfold SetLivePreviewEnabled, Session_bind; cbn;
    rewrite List.filter_app, (Remove_fresh _ _ _ Hfresh); cbn;
    rewrite ?bool_decide_false by congruence; cbn; reflexivity.
Qed.

Lemma SetLivePreviewEnabled_must_be_disabled_witness :
  OnCaptureCameraUpdatedDlgHandle
    (snd ((SetLivePreviewEnabled true half_a_second (Some (ComponentOfCaller 7%nat));+
           SetLivePreviewEnabled false half_a_second None) (sample_session idle_world))) = None /\
  Delegates
    (snd ((SetLivePreviewEnabled true half_a_second (Some (ComponentOfCaller 7%nat));+
           SetLivePreviewEnabled false half_a_second None) (sample_session idle_world))) =
    [mkBinding (TransformUpdated (ComponentOfCaller 7%nat)) 1%nat
       (LivePreview_TransformUpdated_lambda half_a_second (ComponentOfCaller 7%nat))].
Proof.
  rewrite (SetLivePreviewEnabled_must_be_disabled_with_its_source (sample_session idle_world)
             half_a_second half_a_second (Some (ComponentOfCaller 7%nat)) None eq_refl).
  - split; reflexivity.
  - constructor.
  - discriminate.
Defined.

Lemma LivePreview_move (s : Session) (ed : UEditorEngine) (Delay : float_bits)
    (Pose : FEditorCameraLivePreview) :
  GEditor (Pipeline s) = Some ed ->
  OnEditorCameraMoved_lambdas s = [LivePreview_CameraMoved_lambda Delay] ->
  positive_rate Delay = true ->
  Delegate_Broadcast FEditorDelegates_OnEditorCameraMoved Pose false s =
    (Done tt,
     set_LastPreviewCameraInfo Pose
       (set_IdleCameraTimer
          (if CameraInfo_equal s (LastPreviewCameraInfo s) Pose
           then IdleCameraTimer s else Some Delay) s)).
Proof.
  intros HE HL HD. unfold OnEditorCameraMoved_lambdas in HL.
  unfold Delegate_Broadcast, Session_bind, Session_gets.
  destruct (List.filter _ (Delegates s)) as [|b [|b' rest]] eqn:Hf; try discriminate.
  injection HL as HL. cbn. rewrite HL. cbn.
  unfold LivePreview_moved, SetTimer_IdleCameraTimer, Session_bind, pipeline. cbn. rewrite HD.
  open_session s. open_world w.
  destruct (equal last_pose Pose); cbn; reflexivity.
Qed.

Lemma default_last_cons {T : Type} (d x : T) (l : list T) :
  default d (last (x :: l)) = default x (last l).
Proof.
  destruct l as [|y l]; [reflexivity|].
  change (last (x :: y :: l)) with (last (y :: l)).
  destruct (last (y :: l)) eqn:E; [reflexivity|].
  apply last_None in E. discriminate.
Qed.

Lemma EditorCamera_moves_end (Poses : list FEditorCameraLivePreview)
    (Pose : FEditorCameraLivePreview) (ed : UEditorEngine) (Delay : float_bits) :
  positive_rate Delay = true ->
  forall s,
  GEditor (Pipeline s) = Some ed ->
  OnEditorCameraMoved_lambdas s = [LivePreview_CameraMoved_lambda Delay] ->
  exists Timer,
    EditorCamera_moves (Poses ++ [Pose]) s =
      (Done tt, set_LastPreviewCameraInfo Pose (set_IdleCameraTimer Timer s)) /\
    (Timer = IdleCameraTimer s \/ Timer = Some Delay) /\
    (CameraInfo_equal s (default (LastPreviewCameraInfo s) (last Poses)) Pose = false ->
     Timer = Some Delay).
Proof.
  intros HD. induction Poses as [|First Poses IH]; intros s HE HL.
  - cbn [app EditorCamera_moves].
    erewrite Session_bind_done by (apply (LivePreview_move s ed Delay Pose HE HL HD)).
    eexists. split; [reflexivity|]. cbn [last default].
    destruct (CameraInfo_equal s (LastPreviewCameraInfo s) Pose); split; auto; discriminate.
  - cbn [app EditorCamera_moves].
    erewrite Session_bind_done by (apply (LivePreview_move s ed Delay First HE HL HD)).
    match goal with
    | |- context [EditorCamera_moves _ ?s1] =>
        destruct (IH s1) as (Timer & Hmoves & HT & Harm)
    end.
    { destruct s; exact HE. }
    { destruct s; exact HL. }
    exists Timer. split; [|split].
    + rewrite Hmoves. destruct s; reflexivity.
    + destruct HT as [-> | ->]; [|auto].
      open_session s. destruct (equal last_pose First); auto.
    + rewrite default_last_cons. intros Hmoved. apply Harm.
      destruct s; exact Hmoved.
Qed.

(** The live preview reports a camera at rest, once: with the editor
    camera watched by one live preview lambda of a positive delay, any
    number of camera moves broadcasts nothing, leaves at most the one idle
    timer pending and remembers the pose of the last move; the timer is
    pending if it was before or if the last move changed the pose; and
    when the timer then fires, [OnEditorCameraMovedEx] is broadcast once,
    with the pose of the last move, and no timer is left. *)
Theorem live_preview_reports_the_last_pose
    (Poses : list FEditorCameraLivePreview) (Pose : FEditorCameraLivePreview)
    (s : Session) (ed : UEditorEngine) (Delay : float_bits) :
  GEditor (Pipeline s) = Some ed ->
  OnEditorCameraMoved_lambdas s = [LivePreview_CameraMoved_lambda Delay] ->
  positive_rate Delay = true ->
  exists Timer,
    EditorCamera_moves (Poses ++ [Pose]) s =
      (Done tt, set_LastPreviewCameraInfo Pose (set_IdleCameraTimer Timer s)) /\
    (Timer = IdleCameraTimer s \/ Timer = Some Delay) /\
    (CameraInfo_equal s (default (LastPreviewCameraInfo s) (last Poses)) Pose = false ->
     Timer = Some Delay) /\
    (EditorCamera_moves (Poses ++ [Pose]);+ IdleCameraTimer_fires) s =
      (Done tt,
       set_Session_Broadcasts
         (Session_Broadcasts s ++
          match Timer with
          | Some _ => [OnEditorCameraMovedEx Pose]
          | None => []
          end)
         (set_LastPreviewCameraInfo Pose (set_IdleCameraTimer None s))).
Proof.
  intros HE HL HD.
  destruct (EditorCamera_moves_end Poses Pose ed Delay HD s HE HL)
    as (Timer & Hmoves & HT & Harm).
  exists Timer. split; [exact Hmoves|]. split; [exact HT|]. split; [exact Harm|].
  erewrite Session_bind_done by exact Hmoves.
  destruct s. destruct Timer; cbn; rewrite ?app_nil_r; reflexivity.
Qed.

Lemma live_preview_reports_the_last_pose_witness :
  (EditorCamera_moves [sample_pose 1; sample_pose 2; sample_pose 2; sample_pose 3];+
   IdleCameraTimer_fires) watching_session =
    (Done tt,
     set_Session_Broadcasts [OnEditorCameraMovedEx (sample_pose 3)]
       (set_LastPreviewCameraInfo (sample_pose 3) watching_session)).
Proof.
  destruct (live_preview_reports_the_last_pose [sample_pose 1; sample_pose 2; sample_pose 2]
              (sample_pose 3) watching_session (sample_editor [Some sample_client])
              half_a_second eq_refl eq_refl eq_refl) as (Timer & _ & _ & Harm & Hfire).
  rewrite (Harm eq_refl) in Hfire. exact Hfire.
Defined.

(** [SetLivePreviewForLayer] without a capture source, nothing previewed
    before, in an editor with a perspective view: a capture actor is
    spawned and aimed and becomes [LayerPreviewCapture], one lambda that
    follows the editor camera is bound, the layer's capture is begun
    against the new actor's component at the requested size, the first
    capture is requested with the null capture source that was passed in,
    and the layer's render target is returned; nothing is queued. *)
Theorem SetLivePreviewForLayer_starts_a_preview
    (s : Session) (Size : FIntPoint) (Layer : ULayerProcessorBase)
    (ed : UEditorEngine) (vc : FLevelEditorViewportClient) :
  PreviewedLayer (Pipeline s) = None ->
  SceneCapture (LayerPreviewCapture (Pipeline s)) = None ->
  GEditor (Pipeline s) = Some ed ->
  FindPerspectiveViewportClient (GetLevelViewportClients ed) = Some vc ->
  exists s',
    SetLivePreviewForLayer Size Layer None s = (Done (RenderTarget_of (ProcessorId Layer)), s') /\
    PreviewedLayer (Pipeline s') = Some Layer /\
    LayerPreviewCapture (Pipeline s') =
      mkSceneCapture (Some (SpawnedActors (Pipeline s))) (Some vc) /\
    Calls (Pipeline s') =
      Calls (Pipeline s) ++ camera_setup_calls (SpawnedActors (Pipeline s)) vc ++
        [BeginCaptureLayer (ProcessorId Layer) Size
           (ComponentOfActor (SpawnedActors (Pipeline s)))] /\
    Session_Calls s' = Session_Calls s ++ [CaptureLayer_nullptr (ProcessorId Layer) false] /\
    OnLayerPreviewUpdateHandle s' = Some (NextDelegateHandle s) /\
    Delegates s' =
      Delegates s ++
        [mkBinding FEditorDelegates_OnEditorCameraMoved (NextDelegateHandle s)
           LayerPreview_CameraMoved_lambda] /\
    Session_GameThread s' = Session_GameThread s.
Proof.
  intros HP HC HE HF. open_session s. open_world w.
  destruct preview as [preview_actor preview_client]. cbn in HC. subst.
  destruct ed as [play game_view clients]. cbn in HF.
  lazy -[app FindPerspectiveViewportClient]. rewrite HF.
  lazy -[app].
  eexists. split; [reflexivity|]. rewrite <- !app_assoc. repeat split.
Qed.

Lemma SetLivePreviewForLayer_starts_a_preview_witness :
  exists s',
    SetLivePreviewForLayer (mkFIntPoint 2 2) sample_depth None (sample_session layered_world) =
      (Done (RenderTarget_of 2%nat), s') /\
    LayerPreviewCapture (Pipeline s') = mkSceneCapture (Some 0%nat) (Some sample_client) /\
    Session_Calls s' = [CaptureLayer_nullptr 2%nat false].
Proof.
  destruct (SetLivePreviewForLayer_starts_a_preview (sample_session layered_world)
              (mkFIntPoint 2 2) sample_depth (sample_editor [None; Some sample_client])
              sample_client eq_refl eq_refl eq_refl eq_refl)
    as (s' & Hrun & _ & Hcamera & _ & Hcalls & _).
  exists s'. split; [exact Hrun|]. split; [exact Hcamera|exact Hcalls].
Defined.

(** [SetLivePreviewForLayer] with a capture source of the caller's still
    goes through the subsystem's own preview camera: when there is none
    the call dies on the null pointer at the start of the capture, no
    engine call made, and the layer is already recorded as the previewed
    one. *)
Theorem SetLivePreviewForLayer_with_a_source_needs_the_preview_camera
    (s : Session) (Size : FIntPoint) (Layer : ULayerProcessorBase)
    (Source : USceneCaptureComponent2D) :
  PreviewedLayer (Pipeline s) = None ->
  SceneCapture (LayerPreviewCapture (Pipeline s)) = None ->
  SetLivePreviewForLayer Size Layer (Some Source) s =
    (Crash NullDereference, set_Pipeline (set_PreviewedLayer (Some Layer) (Pipeline s)) s).
Proof.
  intros HP HC. open_session s. open_world w.
  destruct preview as [preview_actor preview_client]. cbn in HC. subst. reflexivity.
Qed.

Lemma SetLivePreviewForLayer_with_a_source_witness :
  SetLivePreviewForLayer (mkFIntPoint 2 2) sample_depth (Some sample_source)
    (sample_session layered_world) =
    (Crash NullDereference,
     set_Pipeline (set_PreviewedLayer (Some sample_depth) layered_world)
       (sample_session layered_world)).
Proof.
  exact (SetLivePreviewForLayer_with_a_source_needs_the_preview_camera
           (sample_session layered_world) (mkFIntPoint 2 2) sample_depth sample_source
           eq_refl eq_refl).
Defined.

(** [DisableLivePreviewForLayer] on a running preview, with the game
    thread then running the lambda it queued: the preview actor is
    destroyed and forgotten and the camera lambda unbound, but
    [EndCaptureLayer] is never called on the layer that was previewed,
    because [PreviewedLayer] was cleared before the lambda ran. *)
Theorem DisableLivePreviewForLayer_never_ends_the_capture
    (s : Session) (P : ULayerProcessorBase) (a : ActorId) :
  PreviewedLayer (Pipeline s) = Some P ->
  SceneCapture (LayerPreviewCapture (Pipeline s)) = Some a ->
  Session_GameThread s = [] ->
  exists s',
    (DisableLivePreviewForLayer;+ Session_GameThread_tick) s = (Done tt, s') /\
    Calls (Pipeline s') = Calls (Pipeline s) ++ [Destroy a] /\
    PreviewedLayer (Pipeline s') = None /\
    SceneCapture (LayerPreviewCapture (Pipeline s')) = None /\
    OnLayerPreviewUpdateHandle s' = None /\
    OnEditorCameraMoved_lambdas s' =
      Lambda <$>
        List.filter
          (fun b => bool_decide (BoundTo b = FEditorDelegates_OnEditorCameraMoved))
          (match OnLayerPreviewUpdateHandle s with
           | Some h =>
               List.filter
                 (fun b => negb (bool_decide (BoundTo b = FEditorDelegates_OnEditorCameraMoved)
                                 && (Handle b =? h)%nat)) (Delegates s)
           | None => Delegates s
           end).
Proof.
  intros HP HC HG. open_session s. open_world w.
  destruct preview as [preview_actor preview_client]. cbn in HC. subst.
  unfold DisableLivePreviewForLayer, Session_GameThread_tick, RunSessionGameThreadTask,
    Session_bind, pipeline. cbn.
  destruct layer_handle; cbn; eexists; (split; [reflexivity|]); repeat split.
Qed.

Lemma DisableLivePreviewForLayer_never_ends_the_capture_witness :
  exists s',
    (DisableLivePreviewForLayer;+ Session_GameThread_tick) previewing_session = (Done tt, s') /\
    Calls (Pipeline s') = Calls (Pipeline previewing_session) ++ [Destroy 0%nat] /\
    PreviewedLayer (Pipeline s') = None.
Proof.
  destruct (DisableLivePreviewForLayer_never_ends_the_capture previewing_session
              sample_depth 0%nat eq_refl eq_refl eq_refl)
    as (s' & Hrun & Hcalls & Hnone & _).
  exists s'. split; [exact Hrun|]. split; [exact Hcalls|exact Hnone].
Defined.

(** Switching the previewed layer while a preview runs: the call disables
    the old preview, which queues its teardown, and begins the new layer's
    capture on the old preview actor; when the game thread then runs the
    queued teardown, it ends the capture of the new layer, unbinds the
    camera lambda and destroys the actor.  The new layer is left recorded
    as previewed, with no camera and nothing that follows the editor. *)
Theorem switching_the_previewed_layer_tears_the_new_preview_down
    (s : Session) (Size : FIntPoint) (Old New : ULayerProcessorBase) (a : ActorId) :
  PreviewedLayer (Pipeline s) = Some Old ->
  SceneCapture (LayerPreviewCapture (Pipeline s)) = Some a ->
  Session_GameThread s = [] ->
  exists s',
    (SetLivePreviewForLayer Size New None;+ Session_GameThread_tick) s = (Done tt, s') /\
    Calls (Pipeline s') =
      Calls (Pipeline s) ++
        [BeginCaptureLayer (ProcessorId New) Size (ComponentOfActor a);
         EndCaptureLayer (ProcessorId New) (ComponentOfActor a);
         Destroy a] /\
    PreviewedLayer (Pipeline s') = Some New /\
    SceneCapture (LayerPreviewCapture (Pipeline s')) = None /\
    OnLayerPreviewUpdateHandle s' = None /\
    Session_GameThread s' = [].
Proof.
  intros HP HC HG. open_session s. open_world w.
  destruct preview as [preview_actor preview_client]. cbn in HC. subst.
  unfold SetLivePreviewForLayer, DisableLivePreviewForLayer, Session_GameThread_tick,
    RunSessionGameThreadTask, Session_bind, pipeline. cbn.
  destruct layer_handle; cbn; eexists; (split; [reflexivity|]); cbn;
    rewrite <- ?app_assoc; repeat split.
Qed.

Lemma switching_the_previewed_layer_witness :
  exists s',
    (SetLivePreviewForLayer (mkFIntPoint 2 2) sample_final_color None;+
     Session_GameThread_tick) previewing_session = (Done tt, s') /\
    Calls (Pipeline s') =
      Calls (Pipeline previewing_session) ++
        [BeginCaptureLayer 1%nat (mkFIntPoint 2 2) (ComponentOfActor 0%nat);
         EndCaptureLayer 1%nat (ComponentOfActor 0%nat);
         Destroy 0%nat] /\
    PreviewedLayer (Pipeline s') = Some sample_final_color /\
    SceneCapture (LayerPreviewCapture (Pipeline s')) = None.
Proof.
  destruct (switching_the_previewed_layer_tears_the_new_preview_down previewing_session
              (mkFIntPoint 2 2) sample_depth sample_final_color 0%nat eq_refl eq_refl eq_refl)
    as (s' & Hrun & Hcalls & Hlayer & Hcamera & _).
  exists s'. split; [exact Hrun|]. split; [exact Hcalls|]. split; [exact Hlayer|exact Hcamera].
Defined.
